(** * HistoryWrapper: the event-history index of ansibullbot

    A shallow embedding of [ansibullbot/historywrapper.py] and the
    properties of its cache validation, timeline merging and queries.

    Conventions of the embedding.
    - A Python [str] is a [string]; every [ascii] stands for the code point
      of the same number (0..255).
    - A Python exception is a value of [exn]; code that may raise returns
      in the [res] monad.
    - An event is a Python dict with a fixed set of known keys; it becomes
      a record whose optional keys are [option] fields, and a subscript
      [x['k']] on an absent key raises [KeyError]. *)

From Stdlib Require Import ZArith QArith List String Ascii Bool Lia.
From Stdlib Require Import Permutation Sorted.
Import ListNotations.

Local Close Scope Q_scope.
Local Open Scope string_scope.
Local Open Scope list_scope.
Local Open Scope nat_scope.

(* ================================================================= *)
(** ** Python exceptions *)

Inductive exn : Type :=
| KeyError
| AttributeError
| TypeError
| IndexError
| AssertionError.

Inductive res (A : Type) : Type :=
| Ok (a : A)
| Raise (e : exn).

Arguments Ok {A} a.
Arguments Raise {A} e.

Definition bind {A B : Type} (m : res A) (k : A -> res B) : res B :=
  match m with
  | Ok a => k a
  | Raise e => Raise e
  end.

Notation "x <- m ;; k" := (bind m (fun x => k))
  (at level 61, m at next level, right associativity).

Definition returns {A : Type} (m : res A) : Prop := exists a, m = Ok a.

(* ================================================================= *)
(** ** Python [str] operations used by the wrapper *)

Module PyStr.

(** [str.isspace] on one character: the code points below 256 that
    Python treats as whitespace are 9..13, 28..32, 133 and 160. *)
Definition isspace (c : ascii) : bool :=
  let n := nat_of_ascii c in
  ((9 <=? n) && (n <=? 13)) || ((28 <=? n) && (n <=? 32))
  || (n =? 133) || (n =? 160).

(** [str.lower] on one character: A..Z and the Latin-1 capitals
    192..222 (without the multiplication sign 215) move up by 32. *)
Definition lower_char (c : ascii) : ascii :=
  let n := nat_of_ascii c in
  if ((65 <=? n) && (n <=? 90))
     || ((192 <=? n) && (n <=? 222) && negb (n =? 215))
  then ascii_of_nat (n + 32) else c.

Fixpoint lower (s : string) : string :=
  match s with
  | EmptyString => EmptyString
  | String c r => String (lower_char c) (lower r)
  end.

Fixpoint lstrip (s : string) : string :=
  match s with
  | EmptyString => EmptyString
  | String c r => if isspace c then lstrip r else s
  end.

Fixpoint rstrip (s : string) : string :=
  match s with
  | EmptyString => EmptyString
  | String c r =>
      match rstrip r with
      | EmptyString => if isspace c then EmptyString else String c EmptyString
      | r' => String c r'
      end
  end.

(** [s.strip()] *)
Definition strip (s : string) : string := rstrip (lstrip s).

(** [sub in s] for two strings: [sub] occurs as a contiguous run. *)
Fixpoint contains (sub s : string) : bool :=
  prefix sub s
  || match s with
     | EmptyString => false
     | String _ r => contains sub r
     end.

Definition push_word (w : string) (ws : list string) : list string :=
  match w with
  | EmptyString => ws
  | _ => w :: ws
  end.

(** The word being read at the head of [s] and the words after it. *)
Fixpoint words (s : string) : string * list string :=
  match s with
  | EmptyString => (EmptyString, [])
  | String c r =>
      let (w, ws) := words r in
      if isspace c then (EmptyString, push_word w ws) else (String c w, ws)
  end.

(** [s.split()]: the maximal runs of non-whitespace characters. *)
Definition split (s : string) : list string :=
  let (w, ws) := words s in push_word w ws.

Fixpoint fields (sep : ascii) (s : string) : string * list string :=
  match s with
  | EmptyString => (EmptyString, [])
  | String c r =>
      let (w, ws) := fields sep r in
      if Ascii.eqb c sep then (EmptyString, w :: ws) else (String c w, ws)
  end.

(** [s.split(sep)] for a one-character separator: never empty. *)
Definition split_on (sep : ascii) (s : string) : list string :=
  let (w, ws) := fields sep s in w :: ws.

(** Truth value of a string: only the empty string is false. *)
Definition truthy (s : string) : bool :=
  match s with
  | EmptyString => false
  | _ => true
  end.

End PyStr.

Definition newline : ascii := ascii_of_nat 10.

(* ================================================================= *)
(** ** Data model *)

(** The value found under ['created_at'].  The wrapper only ever asks
    whether it is a [datetime.datetime] and compares two of them with
    [<]; a datetime is its instant, tagged with whether it carries a
    tzinfo. *)
Inductive pytime : Type :=
| Aware (t : Z)              (* datetime with tzinfo, as a UTC instant *)
| Naive (t : Z)              (* datetime without tzinfo *)
| NotDatetime (raw : string) (* anything else, e.g. an ISO string *).

Definition isinstance_datetime (c : pytime) : bool :=
  match c with
  | Aware _ | Naive _ => true
  | NotDatetime _ => false
  end.

Definition tz_aware (c : pytime) : bool :=
  match c with
  | Aware _ => true
  | _ => false
  end.

(** [a < b] on two ['created_at'] values: comparing a naive with an
    aware datetime, or a datetime with a string, is a [TypeError]. *)
Definition time_lt (a b : pytime) : res bool :=
  match a, b with
  | Aware x, Aware y => Ok (x <? y)%Z
  | Naive x, Naive y => Ok (x <? y)%Z
  | NotDatetime x, NotDatetime y => Ok (String.ltb x y)
  | _, _ => Raise TypeError
  end.

(** ['id'] is a commit hash (a string) or a review number. *)
Inductive ident : Type :=
| Sha (s : string)
| Num (n : Z).

(** An event dict.  ['event'], ['actor'] and ['created_at'] are present
    in every event; the other keys may be absent ([None] here), and
    ['body'] and ['commit_id'] may be present with the value [None]
    ([Some None] here). *)
Record event : Type := mkEvent {
  ev_event : string;
  ev_actor : string;
  ev_created_at : pytime;
  ev_id : option ident;
  ev_body : option (option string);
  ev_label : option string;
  ev_commit_id : option (option string);
  ev_message : option string
}.

(** [x['label']] *)
Definition getitem_label (x : event) : res string :=
  match ev_label x with
  | Some l => Ok l
  | None => Raise KeyError
  end.

(** [x['body']] *)
Definition getitem_body (x : event) : res (option string) :=
  match ev_body x with
  | Some b => Ok b
  | None => Raise KeyError
  end.

(** [x.get('body')] *)
Definition get_body (x : event) : option string :=
  match ev_body x with
  | Some b => b
  | None => None
  end.

(** The dict stored in the cache file. *)
Record snapshot : Type := mkSnapshot {
  c_version : option Q;             (* cache.get('version') *)
  c_updated_at : option Z;          (* 'updated_at', when present *)
  c_history : option (list event)   (* 'history', when present *)
}.

(** What [_load_cache] may hand to [validate_cache]. *)
Inductive pyobj : Type :=
| PyNone
| PyOther                 (* an unpickled object that is not a dict *)
| PyDict (d : snapshot).

(** The cache file [history.pickle]. *)
Inductive cachefile : Type :=
| NoFile
| Unreadable              (* [pickle.load] raises *)
| Pickled (o : pyobj).

(** The fields of [self] that the methods below read. *)
Record HistoryWrapper : Type := mkWrapper {
  labels : list string;
  last_updated : Z;
  history : list event
}.

(** [SCHEMA_VERSION = 1.2]: the double nearest to 1.2, as a rational. *)
Definition SCHEMA_VERSION : Q := (5404319552844595 # 4503599627370496)%Q.

Definition Qltb (x y : Q) : bool :=
  (Qnum x * Zpos (Qden y) <? Qnum y * Zpos (Qden x))%Z.

(** Truth value of [cache.get('version')]: absent, [None] and zero are
    false. *)
Definition version_truthy (v : option Q) : bool :=
  match v with
  | None => false
  | Some q => negb (Qnum q =? 0)%Z
  end.

Definition version_behind (v : option Q) : bool :=
  match v with
  | None => true
  | Some q => Qltb q SCHEMA_VERSION
  end.

Definition is_event (name : string) (x : event) : bool :=
  String.eqb (ev_event x) name.

Definition in_str_list (s : string) (l : list string) : bool :=
  existsb (String.eqb s) l.

(* ================================================================= *)
(** ** [validate_cache] *)

(** [[x for x in history if x['event'] == 'labeled'
                          and x['label'] == 'needs_info']] *)
Fixpoint needs_info_events (hist : list event) : res (list event) :=
  match hist with
  | [] => Ok []
  | x :: rest =>
      keep <- (if is_event "labeled" x
               then l <- getitem_label x ;; Ok (String.eqb l "needs_info")
               else Ok false) ;;
      le <- needs_info_events rest ;;
      Ok (if keep then x :: le else le)
  end.

Definition validate_cache (self : HistoryWrapper) (cache : pyobj) : res bool :=
  match cache with
  | PyNone => Ok false
  | PyOther => Ok false
  | PyDict d =>
      match c_history d with
      | None => Ok false
      | Some hist =>
          match c_updated_at d with
          | None => Ok false
          | Some updated_at =>
              if negb (version_truthy (c_version d))
                 || version_behind (c_version d)
              then Ok false
              else if (updated_at <? last_updated self)%Z then Ok false
              else if List.length hist
                      <? List.length (filter (is_event "commented") hist)
                         + List.length (labels self)
              then Ok false
              else if in_str_list "needs_info" (labels self)
              then le <- needs_info_events hist ;;
                   match le with
                   | [] => Ok false
                   | _ => Ok true
                   end
              else Ok true
          end
      end
  end.

(* ================================================================= *)
(** ** The cache file: [_load_cache] and [_dump_cache] *)

(** A missing file and a file that [pickle.load] rejects both give
    [None]; otherwise the unpickled object is returned as it was
    pickled. *)
Definition _load_cache (f : cachefile) : pyobj :=
  match f with
  | NoFile => PyNone
  | Unreadable => PyNone
  | Pickled o => o
  end.

(** [any(x for x in self.history
         if not isinstance(x['created_at'], datetime.datetime))]:
    the generator yields the offending events themselves, and an event
    dict is never empty, so [any] is true as soon as one is yielded. *)
Definition has_non_datetime (hist : list event) : bool :=
  existsb (fun x => negb (isinstance_datetime (ev_created_at x))) hist.

(** The outcome of the call and the cache file it leaves behind.  The
    write itself ([open], [pickle.dump]) is taken to succeed. *)
Definition _dump_cache (self : HistoryWrapper) (f : cachefile)
  : res unit * cachefile :=
  if has_non_datetime (history self)
  then (Raise AssertionError, f)
  else
    let cachedata := {| c_version := Some SCHEMA_VERSION;
                        c_updated_at := Some (last_updated self);
                        c_history := Some (history self) |} in
    (Ok tt, Pickled (PyDict cachedata)).

(* ================================================================= *)
(** ** [sorted(..., key=itemgetter('created_at'))] *)

(** [sorted] is stable and decides the order with [<] on the keys
    alone.  On keys that [<] orders totally every stable sort returns
    the same list, so the library sort is modelled by insertion from
    the right: [e] goes in front of the first element that is not
    smaller than it.  A comparison that raises aborts the sort; with
    two or more events this happens exactly when their keys are not of
    one kind (aware, naive, or not a datetime), as for any sort that
    has to relate all of its elements. *)
Fixpoint insert_event (e : event) (l : list event) : res (list event) :=
  match l with
  | [] => Ok [e]
  | x :: rest =>
      lt <- time_lt (ev_created_at x) (ev_created_at e) ;;
      if lt
      then r <- insert_event e rest ;; Ok (x :: r)
      else Ok (e :: x :: rest)
  end.

Fixpoint sorted_by_created_at (l : list event) : res (list event) :=
  match l with
  | [] => Ok []
  | e :: rest => s <- sorted_by_created_at rest ;; insert_event e s
  end.

(* ================================================================= *)
(** ** [__init__] *)

Definition set_history (self : HistoryWrapper) (h : list event)
  : HistoryWrapper :=
  {| labels := labels self; last_updated := last_updated self; history := h |}.

(** [cache['history']] *)
Definition getitem_history (cache : pyobj) : res (list event) :=
  match cache with
  | PyDict d =>
      match c_history d with
      | Some h => Ok h
      | None => Raise KeyError
      end
  | _ => Raise TypeError
  end.

Definition __init__ (events : list event) (labels : list string)
    (last_updated : Z) (usecache : bool) (f : cachefile)
  : res HistoryWrapper * cachefile :=
  let self := {| labels := labels; last_updated := last_updated;
                 history := [] |} in
  let sort_history (self : HistoryWrapper) :=
    h <- sorted_by_created_at (history self) ;; Ok (set_history self h) in
  if usecache then
    let cache := _load_cache f in
    match validate_cache self cache with
    | Raise e => (Raise e, f)
    | Ok false =>
        let self := set_history self events in
        match _dump_cache self f with
        | (Raise e, f') => (Raise e, f')
        | (Ok _, f') => (sort_history self, f')
        end
    | Ok true =>
        (h <- getitem_history cache ;; sort_history (set_history self h), f)
    end
  else (sort_history (set_history self events), f).

(* ================================================================= *)
(** ** Queries over the timeline *)

(** The [actor] argument of [_find_events_by_actor]. *)
Inductive actor_arg : Type :=
| ActorNone
| ActorStr (s : string)
| ActorList (l : list string)    (* a list or tuple of identities *)
| ActorSet (l : list string)     (* a set: not a [Sequence] *).

(** What [actor] is once the guard
    [if actor is not None and not isinstance(actor, Sequence)] has run:
    a [str] and a list are Sequences and stay as they are; any other
    object is wrapped into a one-element list. *)
Inductive container : Type :=
| InStr (s : string)
| InList (l : list string)
| InBoxed                        (* [[actor]] around a non-Sequence *).

Definition isinstance_Sequence (actor : actor_arg) : bool :=
  match actor with
  | ActorStr _ | ActorList _ => true
  | ActorNone | ActorSet _ => false
  end.

Definition is_None (actor : actor_arg) : bool :=
  match actor with
  | ActorNone => true
  | _ => false
  end.

Definition wrap_actor (actor : actor_arg) : option container :=
  if negb (is_None actor) && negb (isinstance_Sequence actor)
  then Some InBoxed
  else match actor with
       | ActorNone => None
       | ActorStr s => Some (InStr s)
       | ActorList l => Some (InList l)
       | ActorSet _ => Some InBoxed
       end.

(** [name in actor]: substring test on a [str], membership on a list;
    a string is never equal to the set inside [[actor]]. *)
Definition py_in (name : string) (c : container) : bool :=
  match c with
  | InStr s => PyStr.contains name s
  | InList l => in_str_list name l
  | InBoxed => false
  end.

(** [event['event'] == eventname or not eventname] *)
Definition kind_matches (eventname : option string) (ev : event) : bool :=
  match eventname with
  | None => true
  | Some n => String.eqb (ev_event ev) n || negb (PyStr.truthy n)
  end.

Fixpoint find_loop (eventname : option string) (actor : option container)
    (maxcount : Z) (hist matching_events : list event) : list event :=
  match hist with
  | [] => matching_events
  | ev :: rest =>
      if kind_matches eventname ev then
        let matching_events :=
          match actor with
          | None => matching_events ++ [ev]
          | Some c =>
              if py_in (ev_actor ev) c
              then matching_events ++ [ev] else matching_events
          end in
        if (Z.of_nat (List.length matching_events) =? maxcount)%Z
        then matching_events
        else find_loop eventname actor maxcount rest matching_events
      else find_loop eventname actor maxcount rest matching_events
  end.

Definition _find_events_by_actor (self : HistoryWrapper)
    (eventname : option string) (actor : actor_arg) (maxcount : Z)
  : list event :=
  find_loop eventname (wrap_actor actor) maxcount (history self) [].

Fixpoint mapM {A B : Type} (f : A -> res B) (l : list A) : res (list B) :=
  match l with
  | [] => Ok []
  | x :: rest => y <- f x ;; ys <- mapM f rest ;; Ok (y :: ys)
  end.

(** [x['body']] used as a string ([.lower()], [.strip()]): [None] has
    no such method. *)
Definition body_text (x : event) : res string :=
  b <- getitem_body x ;;
  match b with
  | Some s => Ok s
  | None => Raise AttributeError
  end.

Definition get_user_comments (self : HistoryWrapper) (username : actor_arg)
  : res (list (option string)) :=
  let matching_events :=
    _find_events_by_actor self (Some "commented") username 999 in
  mapM getitem_body matching_events.

(** [[x['body'] for x in matching_events
       if searchterm in x['body'].lower()]] *)
Fixpoint search_bodies (searchterm : string) (l : list event)
  : res (list string) :=
  match l with
  | [] => Ok []
  | x :: rest =>
      b <- body_text x ;;
      bs <- search_bodies searchterm rest ;;
      Ok (if PyStr.contains searchterm (PyStr.lower b) then b :: bs else bs)
  end.

Definition search_user_comments (self : HistoryWrapper)
    (username : actor_arg) (searchterm : string) : res (list string) :=
  let matching_events :=
    _find_events_by_actor self (Some "commented") username 999 in
  search_bodies searchterm matching_events.

Definition was_assigned (self : HistoryWrapper) (username : actor_arg)
  : bool :=
  0 <? List.length (_find_events_by_actor self (Some "assigned") username 1).

Definition was_subscribed (self : HistoryWrapper) (username : actor_arg)
  : bool :=
  0 <? List.length (_find_events_by_actor self (Some "subscribed") username 1).

(** The [username] argument of [last_comment]: [type(username) == list]
    or a single identity. *)
Inductive username_arg : Type :=
| UserStr (s : string)
| UserList (l : list string).

Definition truthy_body (b : option string) : bool :=
  match b with
  | Some s => PyStr.truthy s
  | None => false
  end.

Fixpoint last_comment_loop (username : username_arg)
    (reversed_history : list event) (last_comment : option string)
  : res (option string) :=
  match reversed_history with
  | [] => Ok last_comment
  | ev :: rest =>
      last_comment <-
        (if is_event "commented" ev then
           match username with
           | UserList l =>
               if in_str_list (ev_actor ev) l
               then getitem_body ev else Ok last_comment
           | UserStr s =>
               if String.eqb (ev_actor ev) s
               then getitem_body ev else Ok last_comment
           end
         else Ok last_comment) ;;
      if truthy_body last_comment
      then Ok last_comment
      else last_comment_loop username rest last_comment
  end.

Definition last_comment (self : HistoryWrapper) (username : username_arg)
  : res (option string) :=
  last_comment_loop username (rev (history self)) None.

Fixpoint command_status_loop (command : string) (hist : list event)
    (status : option bool) : res (option bool) :=
  match hist with
  | [] => Ok status
  | ev :: rest =>
      match ev_body ev with
      | None => command_status_loop command rest status
      | Some _ =>
          b <- body_text ev ;;
          if String.eqb (PyStr.strip b) command
          then command_status_loop command rest (Some true)
          else if String.eqb (PyStr.strip b) ("!" ++ command)%string
          then command_status_loop command rest (Some false)
          else command_status_loop command rest status
      end
  end.

Definition command_status (self : HistoryWrapper) (command : string)
  : res (option bool) :=
  command_status_loop command (history self) None.

(* ================================================================= *)
(** ** Merging commits and reviews; boilerplate comments *)

(** How [getattr(xc.committer, 'login', str(xc.committer))] ends. *)
Inductive login_lookup : Type :=
| Login (s : string)
| NoLogin            (* no such attribute: the default is used *)
| LoginRaises        (* the lookup raises, e.g. IncompletableObject *).

(** A raw commit, by the attributes [merge_commits] reads. *)
Record commit : Type := mkCommit {
  sha : string;
  committer_login : login_lookup;
  committer_str : string;        (* str(xc.committer) *)
  committer_date : Z;            (* xc.commit.committer.date *)
  message : string               (* xc.commit.message *)
}.

(** A raw review dict.  ['state'], ['id'] and ['submitted_at'] are
    always there; [r_user] is [review.get('user')], reduced to the
    user's login; ['commit_id'] may be absent or hold [None]. *)
Record review : Type := mkReview {
  r_user : option string;
  r_state : string;
  r_id : Z;
  r_submitted_at : string;
  r_commit_id : option (option string);
  r_body : option string         (* review.get('body') *)
}.

Inductive loglevel : Type := ERROR | INFO | DEBUG.

Definition logrecord : Type := loglevel * string.

Definition commit_event (xc : commit) : event :=
  {| ev_event := "committed";
     ev_actor := match committer_login xc with
                 | Login s => s
                 | NoLogin => committer_str xc
                 | LoginRaises => committer_str xc
                 end;
     ev_created_at := Aware (committer_date xc);
     ev_id := Some (Sha (sha xc));
     ev_body := None;
     ev_label := None;
     ev_commit_id := None;
     ev_message := Some (message xc) |}.

Definition merge_commits (self : HistoryWrapper) (commits : list commit)
  : res HistoryWrapper :=
  let appended :=
    fold_left (fun hist xc => hist ++ [commit_event xc]) commits
              (history self) in
  h <- sorted_by_created_at appended ;;
  Ok (set_history self h).

(** One element of the tuple or list that [get_boilerplate_comments]
    collects: the bare name, or the list [[date?, name, body?]]. *)
Inductive boilerplate : Type :=
| BpName (bp : string)
| BpList (date : option pytime) (bp : string) (content : option string).

(** [l[i]] on a list *)
Definition getitem {A : Type} (l : list A) (i : nat) : res A :=
  match nth_error l i with
  | Some a => Ok a
  | None => Raise IndexError
  end.

Definition marker : string := "boilerplate:".

(** [[x for x in body.split('\n') if x.strip() and 'boilerplate:' in x]] *)
Definition marker_lines (body : string) : list string :=
  filter (fun x => PyStr.truthy (PyStr.strip x) && PyStr.contains marker x)
         (PyStr.split_on newline body).

Section Collaborators.

(** [C.DEFAULT_BOT_NAMES] of [ansibullbot.constants]: the list of
    recognised bot identities. *)
Variable DEFAULT_BOT_NAMES : list string.

(** [strip_time_safely] of [ansibullbot.utils.timetools]: parses the
    submission timestamp into a naive datetime. *)
Variable strip_time_safely : string -> Z.

Definition review_event (kind login : string) (review : review) : event :=
  {| ev_event := kind;
     ev_actor := login;
     ev_created_at := Aware (strip_time_safely (r_submitted_at review));
     ev_id := Some (Num (r_id review));
     ev_body := Some (r_body review);
     ev_label := None;
     ev_commit_id := Some (match r_commit_id review with
                           | Some c => c
                           | None => None
                           end);
     ev_message := None |}.

(** The body of the [for review in reviews] loop, on the history and
    the log records written so far. *)
Definition review_step (acc : list event * list logrecord)
    (review : review) : list event * list logrecord :=
  let (hist, log) := acc in
  match r_user review with
  | None => acc
  | Some login =>
      let append kind := (hist ++ [review_event kind login review], log) in
      if String.eqb (r_state review) "COMMENTED"
      then append "review_comment"
      else if String.eqb (r_state review) "CHANGES_REQUESTED"
      then append "review_changes_requested"
      else if String.eqb (r_state review) "APPROVED"
      then append "review_approved"
      else if String.eqb (r_state review) "DISMISSED"
      then append "review_dismissed"
      else if String.eqb (r_state review) "PENDING"
      then acc
      else (hist,
            log ++ [(ERROR, ("unknown review state " ++ r_state review)%string)])
  end.

(** The new wrapper (or the exception of the final sort) and the log
    records of the call. *)
Definition merge_reviews (self : HistoryWrapper) (reviews : list review)
  : res HistoryWrapper * list logrecord :=
  let (appended, log) := fold_left review_step reviews (history self, []) in
  (h <- sorted_by_created_at appended ;; Ok (set_history self h), log).

Fixpoint boilerplate_loop (dates content : bool) (comments : list event)
    (boilerplates : list boilerplate) : res (list boilerplate) :=
  match comments with
  | [] => Ok boilerplates
  | comment :: rest =>
      match get_body comment with
      | None => boilerplate_loop dates content rest boilerplates
      | Some body =>
          if negb (PyStr.truthy body)
          then boilerplate_loop dates content rest boilerplates
          else if PyStr.contains marker body then
            line <- getitem (marker_lines body) 0 ;;
            bp <- getitem (PyStr.split line) 2 ;;
            let item :=
              if dates || content
              then BpList
                     (if dates then Some (ev_created_at comment) else None)
                     bp
                     (if content then Some body else None)
              else BpName bp in
            boilerplate_loop dates content rest (boilerplates ++ [item])
          else boilerplate_loop dates content rest boilerplates
      end
  end.

Definition get_boilerplate_comments (self : HistoryWrapper)
    (dates content : bool) : res (list boilerplate) :=
  let comments :=
    _find_events_by_actor self (Some "commented")
                          (ActorList DEFAULT_BOT_NAMES) 999 in
  boilerplate_loop dates content comments [].

End Collaborators.

(* ================================================================= *)
(** ** Specification-side definitions *)

Definition commented_count (hist : list event) : nat :=
  List.length (filter (is_event "commented") hist).

(** Every ['labeled'] event records its ['label'] (the data model's
    requirement on label events). *)
Definition labels_recorded (hist : list event) : Prop :=
  forall x, In x hist -> ev_event x = "labeled" -> ev_label x <> None.

Definition cache_well_formed (cache : pyobj) : Prop :=
  match cache with
  | PyDict d =>
      match c_history d with
      | Some hist => labels_recorded hist
      | None => True
      end
  | _ => True
  end.

(** The five validation rules, in the words of the specification. *)
Definition snapshot_valid (labels : list string) (last_updated : Z)
    (cache : pyobj) : Prop :=
  exists d hist updated_at version,
    cache = PyDict d
    /\ c_history d = Some hist
    /\ c_updated_at d = Some updated_at
    /\ c_version d = Some version
    /\ ~ (version == 0)%Q
    /\ (SCHEMA_VERSION <= version)%Q
    /\ (last_updated <= updated_at)%Z
    /\ commented_count hist + List.length labels <= List.length hist
    /\ (In "needs_info" labels ->
        exists x, In x hist /\ ev_event x = "labeled"
                  /\ ev_label x = Some "needs_info").

Definition is_needs_info_label (x : event) : bool :=
  is_event "labeled" x
  && match ev_label x with
     | Some l => String.eqb l "needs_info"
     | None => false
     end.

(* ================================================================= *)
(** ** Sample events *)

Definition plain_event (kind actor : string) (t : Z) : event :=
  {| ev_event := kind; ev_actor := actor; ev_created_at := Aware t;
     ev_id := None; ev_body := None; ev_label := None;
     ev_commit_id := None; ev_message := None |}.

Definition comment_event (actor : string) (t : Z) (body : string) : event :=
  {| ev_event := "commented"; ev_actor := actor; ev_created_at := Aware t;
     ev_id := None; ev_body := Some (Some body); ev_label := None;
     ev_commit_id := None; ev_message := None |}.

Definition label_event (actor : string) (t : Z) (label : string) : event :=
  {| ev_event := "labeled"; ev_actor := actor; ev_created_at := Aware t;
     ev_id := None; ev_body := None; ev_label := Some label;
     ev_commit_id := None; ev_message := None |}.

Definition wrapper_of (hist : list event) : HistoryWrapper :=
  {| labels := []; last_updated := 0%Z; history := hist |}.

(* ================================================================= *)
(** ** Sequences of merge calls *)

Inductive merge_call : Type :=
| MergeCommits (commits : list commit)
| MergeReviews (reviews : list review).

Definition apply_call (strip_time_safely : string -> Z)
    (self : HistoryWrapper) (call : merge_call) : res HistoryWrapper :=
  match call with
  | MergeCommits commits => merge_commits self commits
  | MergeReviews reviews => fst (merge_reviews strip_time_safely self reviews)
  end.

Fixpoint run_calls (strip_time_safely : string -> Z)
    (self : HistoryWrapper) (calls : list merge_call) : res HistoryWrapper :=
  match calls with
  | [] => Ok self
  | call :: rest =>
      self' <- apply_call strip_time_safely self call ;;
      run_calls strip_time_safely self' rest
  end.

(** Construct the wrapper, then perform the merge calls in order. *)
Definition construct_and_merge (strip_time_safely : string -> Z)
    (events : list event) (labels : list string) (last_updated : Z)
    (usecache : bool) (f : cachefile) (calls : list merge_call)
  : res HistoryWrapper :=
  self <- fst (__init__ events labels last_updated usecache f) ;;
  run_calls strip_time_safely self calls.

(* ================================================================= *)
(** ** Specification of the review normaliser and of the timeline order *)

(** The [review_*] kind of a review state, when it has one. *)
Definition review_kind (state : string) : option string :=
  if String.eqb state "COMMENTED" then Some "review_comment"
  else if String.eqb state "CHANGES_REQUESTED"
  then Some "review_changes_requested"
  else if String.eqb state "APPROVED" then Some "review_approved"
  else if String.eqb state "DISMISSED" then Some "review_dismissed"
  else None.

(** [normalize_review(raw) -> Event | skip] *)
Definition normalize_review (strip_time_safely : string -> Z)
    (r : review) : option event :=
  match r_user r with
  | None => None
  | Some login =>
      match review_kind (r_state r) with
      | Some kind => Some (review_event strip_time_safely kind login r)
      | None => None
      end
  end.

Definition review_events (strip_time_safely : string -> Z)
    (reviews : list review) : list event :=
  flat_map (fun r => match normalize_review strip_time_safely r with
                     | Some e => [e]
                     | None => []
                     end) reviews.

(** A review is logged when its author is known and its state is
    neither one of the four mapped states nor ['PENDING']. *)
Definition unknown_state (r : review) : bool :=
  match r_user r, review_kind (r_state r) with
  | Some _, None => negb (String.eqb (r_state r) "PENDING")
  | _, _ => false
  end.

Definition review_log (reviews : list review) : list logrecord :=
  map (fun r => (ERROR, ("unknown review state " ++ r_state r)%string))
      (filter unknown_state reviews).

Definition call_events (strip_time_safely : string -> Z)
    (call : merge_call) : list event :=
  match call with
  | MergeCommits commits => map commit_event commits
  | MergeReviews reviews => review_events strip_time_safely reviews
  end.

(** The events appended by a sequence of calls, in insertion order. *)
Definition merged_events (strip_time_safely : string -> Z)
    (calls : list merge_call) : list event :=
  flat_map (call_events strip_time_safely) calls.

(** The list [__init__] starts from: the cached history when the cache
    is used and valid, the supplied events otherwise. *)
Definition initial_list (events : list event) (labels : list string)
    (last_updated : Z) (usecache : bool) (f : cachefile) : list event :=
  if usecache then
    match validate_cache {| labels := labels; last_updated := last_updated;
                            history := [] |} (_load_cache f) with
    | Ok true =>
        match getitem_history (_load_cache f) with
        | Ok h => h
        | Raise _ => events
        end
    | _ => events
    end
  else events.

Definition all_aware (hist : list event) : Prop :=
  Forall (fun x => tz_aware (ev_created_at x) = true) hist.

(** [x] is not created after [y]: [y['created_at'] < x['created_at']]
    is false. *)
Definition not_after (x y : event) : Prop :=
  time_lt (ev_created_at y) (ev_created_at x) = Ok false.

(** Non-decreasing by ['created_at']: no event comes before an earlier
    one. *)
Definition nondecreasing (hist : list event) : Prop :=
  StronglySorted not_after hist.

Definition pytime_eqb (a b : pytime) : bool :=
  match a, b with
  | Aware x, Aware y => (x =? y)%Z
  | Naive x, Naive y => (x =? y)%Z
  | NotDatetime x, NotDatetime y => String.eqb x y
  | _, _ => false
  end.

Definition created_at_is (k : pytime) (x : event) : bool :=
  pytime_eqb (ev_created_at x) k.

(** [output] keeps the events of every ['created_at'] value in the
    order they have in [inserted]. *)
Definition ties_in_insertion_order (inserted output : list event) : Prop :=
  forall k, filter (created_at_is k) output = filter (created_at_is k) inserted.

(* ================================================================= *)
(** ** Specification of the queries *)

(** A review that yields an event: its author is known and its state is
    one of the four mapped states. *)
Definition kept (r : review) : bool :=
  match r_user r, review_kind (r_state r) with
  | Some _, Some _ => true
  | _, _ => false
  end.

(** The identity test the specification gives for an actor filter:
    [None] admits every actor, a single identity admits that identity,
    a collection admits its members. *)
Definition actor_admitted (actor : actor_arg) (name : string) : bool :=
  match actor with
  | ActorNone => true
  | ActorStr s => String.eqb name s
  | ActorList l => in_str_list name l
  | ActorSet l => in_str_list name l
  end.

(** The test the scan applies to one event. *)
Definition selects (eventname : option string) (actor : option container)
    (ev : event) : bool :=
  kind_matches eventname ev
  && match actor with
     | None => true
     | Some c => py_in (ev_actor ev) c
     end.

(** The test the specification describes for one event. *)
Definition selected_by_spec (eventname : option string) (actor : actor_arg)
    (ev : event) : bool :=
  kind_matches eventname ev && actor_admitted actor (ev_actor ev).

(** Every ['commented'] event has a text body. *)
Definition comments_have_text (hist : list event) : Prop :=
  forall x, In x hist -> ev_event x = "commented" ->
            exists s, ev_body x = Some (Some s).

(** No event holds ['body': None]. *)
Definition bodies_are_text (hist : list event) : Prop :=
  forall x, In x hist -> ev_body x <> Some None.

(** The text bodies of the events that carry one, in timeline order. *)
Definition bodies (hist : list event) : list string :=
  flat_map (fun x => match get_body x with
                     | Some s => [s]
                     | None => []
                     end) hist.

(** [command_status] by the last body that, once normalised by [norm],
    is [command] or its negation. *)
Definition command_status_spec (norm : string -> string) (command : string)
    (hist : list event) : option bool :=
  match find (fun b => String.eqb (norm b) command
                       || String.eqb (norm b) ("!" ++ command)%string)
             (rev (bodies hist)) with
  | Some b => Some (String.eqb (norm b) command)
  | None => None
  end.

(** The bodies among [l] that contain [term] when both are compared
    without regard to letter case. *)
Definition matches_ignoring_case (term body : string) : bool :=
  PyStr.contains (PyStr.lower term) (PyStr.lower body).

(** What the search uses: [term] as given, against the lower-cased
    body. *)
Definition matches_lowered_body (term body : string) : bool :=
  PyStr.contains term (PyStr.lower body).

Definition by_user (username : username_arg) (x : event) : bool :=
  is_event "commented" x
  && match username with
     | UserStr s => String.eqb (ev_actor x) s
     | UserList l => in_str_list (ev_actor x) l
     end.

(** The body of the chronologically last comment by the actor. *)
Definition last_comment_spec (username : username_arg) (hist : list event)
  : option string :=
  match find (by_user username) (rev hist) with
  | Some x => get_body x
  | None => None
  end.

(** The body of the chronologically last comment by the actor that has
    a non-empty body; the empty body when the actor only wrote empty
    comments. *)
Definition last_nonempty_comment (username : username_arg)
    (hist : list event) : option string :=
  match find (fun x => by_user username x && truthy_body (get_body x))
             (rev hist) with
  | Some x => get_body x
  | None => if existsb (by_user username) hist then Some "" else None
  end.

(** The first non-blank line of [body] that holds the marker, and its
    whitespace-delimited tokens. *)
Definition marker_line (body : string) : string :=
  hd "" (marker_lines body).

Definition marker_tokens (body : string) : list string :=
  PyStr.split (marker_line body).

Definition bot_comment (bots : list string) (x : event) : bool :=
  is_event "commented" x && in_str_list (ev_actor x) bots.

(** A timeline of [n] copies of [x] followed by [y]. *)
Definition padded_history (n : nat) (x y : event) : list event :=
  repeat x n ++ [y].

(** A comment whose marker line has fewer than three tokens, so that
    the boilerplate name cannot be taken from it. *)
Definition lacks_name (x : event) : bool :=
  match get_body x with
  | Some body =>
      PyStr.contains marker body && (List.length (marker_tokens body) <? 3)
  | None => false
  end.

(* ================================================================= *)
(** ** Label queries *)

(** The loop of [label_last_applied] ([kind] is ['labeled']) and of
    [label_last_removed] ([kind] is ['unlabeled']), over
    [reversed(self.history)]. *)
Fixpoint label_last_loop (kind label : string)
    (reversed_history : list event) : res (option pytime) :=
  match reversed_history with
  | [] => Ok None
  | ev :: rest =>
      if is_event kind ev then
        l <- getitem_label ev ;;
        if String.eqb l label
        then Ok (Some (ev_created_at ev))
        else label_last_loop kind label rest
      else label_last_loop kind label rest
  end.

Definition label_last_applied (self : HistoryWrapper) (label : string)
  : res (option pytime) :=
  label_last_loop "labeled" label (rev (history self)).

Definition label_last_removed (self : HistoryWrapper) (label : string)
  : res (option pytime) :=
  label_last_loop "unlabeled" label (rev (history self)).

(** Truth value of the [bots] argument: [None] and the empty list are
    false. *)
Definition truthy_bots (bots : option (list string)) : bool :=
  match bots with
  | Some (_ :: _) => true
  | _ => false
  end.

(** Truth value of the [label] and [prefix] arguments: [None] and the
    empty string are false. *)
Definition truthy_arg (s : option string) : bool :=
  match s with
  | Some s => PyStr.truthy s
  | None => false
  end.

Definition bots_list (bots : option (list string)) : list string :=
  match bots with
  | Some l => l
  | None => []
  end.

(** The loop of [was_labeled] ([kind] is ['labeled']) and of
    [was_unlabeled] ([kind] is ['unlabeled']). *)
Fixpoint was_labeled_loop (kind : string) (label : option string)
    (bots : option (list string)) (hist : list event) : res bool :=
  match hist with
  | [] => Ok false
  | ev :: rest =>
      if truthy_bots bots && in_str_list (ev_actor ev) (bots_list bots)
      then was_labeled_loop kind label bots rest
      else if is_event kind ev then
        match label with
        | Some wanted =>
            if PyStr.truthy wanted then
              l <- getitem_label ev ;;
              if String.eqb l wanted
              then Ok true
              else was_labeled_loop kind label bots rest
            else Ok true
        | None => Ok true
        end
      else was_labeled_loop kind label bots rest
  end.

Definition was_labeled (self : HistoryWrapper) (label : option string)
    (bots : option (list string)) : res bool :=
  was_labeled_loop "labeled" label bots (history self).

Definition was_unlabeled (self : HistoryWrapper) (label : option string)
    (bots : option (list string)) : res bool :=
  was_labeled_loop "unlabeled" label bots (history self).

(** [s.startswith(p)] *)
Definition startswith (s p : string) : bool := prefix p s.

(** [sorted(set(l))] on strings: the distinct elements in increasing
    order. *)
Fixpoint insert_label (s : string) (l : list string) : list string :=
  match l with
  | [] => [s]
  | x :: rest =>
      match String.compare s x with
      | Lt => s :: x :: rest
      | Eq => x :: rest
      | Gt => x :: insert_label s rest
      end
  end.

Definition sorted_set (l : list string) : list string :=
  fold_right insert_label [] l.

Fixpoint changed_labels_loop (prefix : option string) (bots : list string)
    (hist : list event) (labeled : list string) : res (list string) :=
  match hist with
  | [] => Ok labeled
  | ev :: rest =>
      if in_str_list (ev_actor ev) bots
      then changed_labels_loop prefix bots rest labeled
      else if is_event "labeled" ev || is_event "unlabeled" ev then
        l <- getitem_label ev ;;
        match prefix with
        | Some p =>
            if PyStr.truthy p then
              if startswith l p
              then changed_labels_loop prefix bots rest (labeled ++ [l])
              else changed_labels_loop prefix bots rest labeled
            else changed_labels_loop prefix bots rest (labeled ++ [l])
        | None => changed_labels_loop prefix bots rest (labeled ++ [l])
        end
      else changed_labels_loop prefix bots rest labeled
  end.

Definition get_changed_labels (self : HistoryWrapper)
    (prefix : option string) (bots : option (list string))
  : res (list string) :=
  let bots := bots_list bots in
  labeled <- changed_labels_loop prefix bots (history self) [] ;;
  Ok (sorted_set labeled).

(** [[x['label'] for x in self.history if 'label' in x]] *)
Definition label_history (hist : list event) : list string :=
  flat_map (fun x => match ev_label x with
                     | Some l => [l]
                     | None => []
                     end) hist.

(** The dict [_waffled_labels], as the list of its items in insertion
    order. *)
Definition waffle_dict : Type := list (string * nat).

Definition waffle_counts (hist : list event) : waffle_dict :=
  let history := label_history hist in
  map (fun hl => (hl, List.length (filter (String.eqb hl) history)))
      (sorted_set history).

(** [d.get(k, default)] *)
Definition dict_get (d : waffle_dict) (k : string) (default : nat) : nat :=
  match find (fun item => String.eqb (fst item) k) d with
  | Some item => snd item
  | None => default
  end.

(** [label_is_waffling], on the memo [self._waffled_labels] ([None]
    before the first call); the answer and the memo afterwards. *)
Definition label_is_waffling (self : HistoryWrapper)
    (_waffled_labels : option waffle_dict) (label : string) (limit : Z)
  : bool * option waffle_dict :=
  let waffled :=
    match _waffled_labels with
    | None => waffle_counts (history self)
    | Some d => d
    end in
  ((limit <=? Z.of_nat (dict_get waffled label 0))%Z, Some waffled).

(** The property [last_commit_date]: [events[-1]['created_at']]. *)
Definition last_commit_date (self : HistoryWrapper) : option pytime :=
  match filter (is_event "committed") (history self) with
  | [] => None
  | e :: events => Some (ev_created_at (last events e))
  end.

(* ================================================================= *)
(** ** [last_notified] *)

(** Truth value of a ['created_at']: a datetime is always true. *)
Definition truthy_time (t : pytime) : bool :=
  match t with
  | NotDatetime raw => PyStr.truthy raw
  | _ => true
  end.

(** The update of [last_notification] by one mentioning comment. *)
Definition note_mention (last_notification : option pytime)
    (created_at : pytime) : res (option pytime) :=
  match last_notification with
  | None => Ok (Some created_at)
  | Some seen =>
      if negb (truthy_time seen) then Ok (Some created_at)
      else
        later <- time_lt seen created_at ;;
        Ok (Some (if later then created_at else seen))
  end.

(** [for un in username] on one comment. *)
Fixpoint mentions_loop (body : string) (created_at : pytime)
    (username : list string) (last_notification : option pytime)
  : res (option pytime) :=
  match username with
  | [] => Ok last_notification
  | un :: rest =>
      if PyStr.contains un body then
        seen <- note_mention last_notification created_at ;;
        mentions_loop body created_at rest seen
      else mentions_loop body created_at rest last_notification
  end.

Fixpoint last_notified_loop (username : list string) (comments : list event)
    (last_notification : option pytime) : res (option pytime) :=
  match comments with
  | [] => Ok last_notification
  | comment :: rest =>
      match get_body comment with
      | None => last_notified_loop username rest last_notification
      | Some body =>
          if negb (PyStr.truthy body)
          then last_notified_loop username rest last_notification
          else
            seen <- mentions_loop body (ev_created_at comment) username
                                  last_notification ;;
            last_notified_loop username rest seen
      end
  end.

Definition last_notified (self : HistoryWrapper) (username : username_arg)
  : res (option pytime) :=
  let username :=
    match username with
    | UserList l => l
    | UserStr s => [s]
    end in
  let username := map (fun x => ("@" ++ x)%string) username in
  let comments := filter (is_event "commented") (history self) in
  last_notified_loop username comments None.

(* ================================================================= *)
(** ** Specification of the label queries *)

(** Every event of kind [kind] records its ['label']. *)
Definition kind_carries_label (kind : string) (hist : list event) : Prop :=
  forall x, In x hist -> ev_event x = kind -> ev_label x <> None.

Definition has_label (label : string) (x : event) : bool :=
  match ev_label x with
  | Some l => String.eqb l label
  | None => false
  end.

(** An event of kind [kind] that carries [label]. *)
Definition label_change (kind label : string) (x : event) : bool :=
  is_event kind x && has_label label x.

Definition by_bot (bots : option (list string)) (x : event) : bool :=
  in_str_list (ev_actor x) (bots_list bots).

(** The test of [was_labeled] / [was_unlabeled] on one event. *)
Definition counts_as_labeled (kind : string) (label : option string)
    (bots : option (list string)) (x : event) : bool :=
  negb (by_bot bots x)
  && is_event kind x
  && (negb (truthy_arg label)
      || match label with
         | Some wanted => has_label wanted x
         | None => false
         end).

Definition prefix_ok (prefix : option string) (l : string) : bool :=
  match prefix with
  | Some p => negb (PyStr.truthy p) || startswith l p
  | None => true
  end.

(** A label event not made by a bot. *)
Definition human_label_event (bots : option (list string)) (x : event)
  : bool :=
  negb (by_bot bots x) && (is_event "labeled" x || is_event "unlabeled" x).

Definition string_lt (a b : string) : Prop := String.compare a b = Lt.

(** The number of events that carry [label], of any kind. *)
Definition label_count (label : string) (hist : list event) : nat :=
  List.length (filter (has_label label) hist).

Definition max_seen (seen : option Z) (t : Z) : option Z :=
  match seen with
  | None => Some t
  | Some s => Some (Z.max s t)
  end.

(** The instant of a tz-aware ['created_at'] (0 for anything else). *)
Definition instant (t : pytime) : Z :=
  match t with
  | Aware z => z
  | _ => 0%Z
  end.

(** A comment with a non-empty body that contains one of [names]. *)
Definition mentions (names : list string) (x : event) : bool :=
  match get_body x with
  | Some body => PyStr.truthy body
                 && existsb (fun un => PyStr.contains un body) names
  | None => false
  end.

Definition at_names (username : username_arg) : list string :=
  map (fun x => ("@" ++ x)%string)
      match username with
      | UserList l => l
      | UserStr s => [s]
      end.

(** The comments of the timeline that mention one of the users. *)
Definition mentioning_comments (username : username_arg)
    (hist : list event) : list event :=
  filter (mentions (at_names username)) (filter (is_event "commented") hist).

(** The labels [get_changed_labels] collects before sorting, in
    timeline order. *)
Definition changed_item (prefix : option string)
    (bots : option (list string)) (x : event) : list string :=
  if human_label_event bots x then
    match ev_label x with
    | Some l => if prefix_ok prefix l then [l] else []
    | None => []
    end
  else [].

Definition changed_labels_of (prefix : option string)
    (bots : option (list string)) (hist : list event) : list string :=
  flat_map (changed_item prefix bots) hist.

(* ================================================================= *)
(** ** Commands and boilerplate details *)

(** An element of the list [get_commands] returns: the phrase [y], or
    the tuple [(created_at, y)] when [timestamps] is set. *)
Inductive command : Type :=
| Cmd (y : string)
| CmdAt (created_at : pytime) (y : string).

Definition emit (timestamps : bool) (ev : event) (y : string) : command :=
  if timestamps then CmdAt (ev_created_at ev) y else Cmd y.

Definition phrase (c : command) : string :=
  match c with
  | Cmd y => y
  | CmdAt _ y => y
  end.

(** [for y in command_keys] on one comment. *)
Fixpoint comment_commands_loop (timestamps : bool) (ev : event)
    (command_keys : list string) (commands : list command)
  : res (list command) :=
  match command_keys with
  | [] => Ok commands
  | y :: rest =>
      body <- body_text ev ;;
      if startswith body "_From @"
      then comment_commands_loop timestamps ev rest commands
      else
        let l_body := PyStr.split body in
        if in_str_list y l_body && negb (in_str_list ("!" ++ y) l_body)
        then comment_commands_loop timestamps ev rest
               (commands ++ [emit timestamps ev y])
        else comment_commands_loop timestamps ev rest commands
  end.

(** [line.strip().startswith(command_key)] for some line, in order. *)
Fixpoint lines_loop (command_key : string) (lines : list string) : bool :=
  match lines with
  | [] => false
  | line :: rest =>
      if startswith (PyStr.strip line) command_key
      then true
      else lines_loop command_key rest
  end.

Fixpoint component_loop (command_key : string) (events commands : list event)
  : list event :=
  match events with
  | [] => commands
  | ev :: rest =>
      match get_body ev with
      | Some body =>
          if PyStr.truthy body then
            if lines_loop command_key (PyStr.split_on newline body)
            then component_loop command_key rest (commands ++ [ev])
            else component_loop command_key rest commands
          else component_loop command_key rest commands
      | None => component_loop command_key rest commands
      end
  end.

(** A value inside the lists of [get_boilerplate_comments]. *)
Inductive pyval : Type :=
| VTime (t : pytime)
| VStr (s : string).

(** The elements of one collected item: of the list [[date?, name,
    body?]], or, for a bare name, its characters. *)
Definition item_elements (x : boilerplate) : list pyval :=
  match x with
  | BpName bp => map (fun c => VStr (String c "")) (list_ascii_of_string bp)
  | BpList date bp content =>
      match date with
      | Some d => [VTime d]
      | None => []
      end
      ++ [VStr bp]
      ++ match content with
         | Some c => [VStr c]
         | None => []
         end
  end.

(** [x[-1]] *)
Definition getitem_last (x : boilerplate) : res pyval :=
  match rev (item_elements x) with
  | v :: _ => Ok v
  | [] => Raise IndexError
  end.

(** [x[i]] *)
Definition getitem_at (x : boilerplate) (i : nat) : res pyval :=
  getitem (item_elements x) i.

(** [v == boiler] for a string [boiler] *)
Definition equals_str (v : pyval) (boiler : string) : bool :=
  match v with
  | VStr s => String.eqb s boiler
  | VTime _ => false
  end.

Fixpoint last_date_loop (boiler : string) (bps : list boilerplate)
    (last_date : option pyval) : res (option pyval) :=
  match bps with
  | [] => Ok last_date
  | bp :: rest =>
      name <- getitem_at bp 1 ;;
      if equals_str name boiler
      then date <- getitem_at bp 0 ;; last_date_loop boiler rest (Some date)
      else last_date_loop boiler rest last_date
  end.

Section Commands.

(** [C.DEFAULT_BOT_NAMES] *)
Variable DEFAULT_BOT_NAMES : list string.

Fixpoint commands_loop (command_keys : list string)
    (timestamps uselabels : bool) (events : list event)
    (commands : list command) : res (list command) :=
  match events with
  | [] => Ok commands
  | ev :: rest =>
      if in_str_list (ev_actor ev) DEFAULT_BOT_NAMES
      then commands_loop command_keys timestamps uselabels rest commands
      else if is_event "commented" ev then
        commands <- comment_commands_loop timestamps ev command_keys
                                          commands ;;
        commands_loop command_keys timestamps uselabels rest commands
      else if is_event "labeled" ev && uselabels then
        l <- getitem_label ev ;;
        if in_str_list l command_keys
        then commands_loop command_keys timestamps uselabels rest
               (commands ++ [emit timestamps ev l])
        else commands_loop command_keys timestamps uselabels rest commands
      else if is_event "unlabeled" ev && uselabels then
        l <- getitem_label ev ;;
        if in_str_list l command_keys
        then commands_loop command_keys timestamps uselabels rest
               (commands ++ [emit timestamps ev ("!" ++ l)%string])
        else commands_loop command_keys timestamps uselabels rest commands
      else commands_loop command_keys timestamps uselabels rest commands
  end.

Definition get_commands (self : HistoryWrapper) (username : actor_arg)
    (command_keys : list string) (timestamps uselabels : bool)
  : res (list command) :=
  let comments :=
    _find_events_by_actor self (Some "commented") username 999 in
  let labels :=
    _find_events_by_actor self (Some "labeled") username 999 in
  let unlabels :=
    _find_events_by_actor self (Some "unlabeled") username 999 in
  let events := comments ++ labels ++ unlabels in
  events <- sorted_by_created_at events ;;
  commands_loop command_keys timestamps uselabels events [].

Definition get_component_commands (self : HistoryWrapper)
    (command_key : string) : list event :=
  let events :=
    _find_events_by_actor self (Some "commented") ActorNone 999 in
  let events :=
    filter (fun x => negb (in_str_list (ev_actor x) DEFAULT_BOT_NAMES))
           events in
  component_loop command_key events [].

Definition get_boilerplate_comments_content (self : HistoryWrapper)
  : res (list pyval) :=
  bpcs <- get_boilerplate_comments DEFAULT_BOT_NAMES self false true ;;
  mapM getitem_last bpcs.

Definition last_date_for_boilerplate (self : HistoryWrapper)
    (boiler : string) : res (option pyval) :=
  bps <- get_boilerplate_comments DEFAULT_BOT_NAMES self true true ;;
  last_date_loop boiler bps None.

End Commands.

(* ================================================================= *)
(** ** Specification of the commands and of the boilerplate details *)

(** A comment whose body is not empty and holds the marker. *)
Definition has_marker (x : event) : bool :=
  match get_body x with
  | Some body => PyStr.truthy body && PyStr.contains marker body
  | None => false
  end.

(** The boilerplate name of a marked comment: the third token of its
    marker line. *)
Definition boilerplate_name (x : event) : string :=
  match get_body x with
  | Some body => nth 2 (marker_tokens body) ""
  | None => ""
  end.

(** The item collected for a marked comment. *)
Definition boilerplate_item (dates content : bool) (x : event)
  : boilerplate :=
  if dates || content
  then BpList (if dates then Some (ev_created_at x) else None)
              (boilerplate_name x)
              (if content then get_body x else None)
  else BpName (boilerplate_name x).

(** The comment yields the phrase [y]: it is not a quoted reply, [y] is
    one of its whitespace-delimited tokens and ['!' + y] is not. *)
Definition says (y : string) (x : event) : bool :=
  match get_body x with
  | Some body =>
      negb (startswith body "_From @")
      && in_str_list y (PyStr.split body)
      && negb (in_str_list ("!" ++ y) (PyStr.split body))
  | None => false
  end.

(** Why an event not made by a bot yields the phrase [y]. *)
Definition yields (command_keys : list string) (uselabels : bool)
    (y : string) (x : event) : Prop :=
  (ev_event x = "commented" /\ In y command_keys /\ says y x = true)
  \/ (uselabels = true /\ ev_event x = "labeled"
      /\ In y command_keys /\ ev_label x = Some y)
  \/ (uselabels = true /\ ev_event x = "unlabeled"
      /\ exists l, In l command_keys /\ ev_label x = Some l
                   /\ y = ("!" ++ l)%string).

(** A comment in which some line, once stripped, starts with the key. *)
Definition has_command_line (command_key : string) (x : event) : bool :=
  match get_body x with
  | Some body =>
      PyStr.truthy body
      && existsb (fun line => startswith (PyStr.strip line) command_key)
                 (PyStr.split_on newline body)
  | None => false
  end.

(** The events [get_commands] looks at, in the order in which it
    collects them. *)
Definition considered (self : HistoryWrapper) (username : actor_arg)
  : list event :=
  _find_events_by_actor self (Some "commented") username 999
  ++ _find_events_by_actor self (Some "labeled") username 999
  ++ _find_events_by_actor self (Some "unlabeled") username 999.

(** The phrases one event contributes, in the order of [command_keys]. *)
Definition event_phrases (bots command_keys : list string)
    (uselabels : bool) (x : event) : list string :=
  if in_str_list (ev_actor x) bots then []
  else if is_event "commented" x
  then filter (fun y => says y x) command_keys
  else if uselabels then
    match ev_label x with
    | Some l =>
        if in_str_list l command_keys then
          if is_event "labeled" x then [l]
          else if is_event "unlabeled" x then ["!" ++ l]%string
          else []
        else []
    | None => []
    end
  else [].

(** Every label event of the timeline records its ['label']. *)
Definition label_events_recorded (hist : list event) : Prop :=
  forall x, In x hist ->
            ev_event x = "labeled" \/ ev_event x = "unlabeled" ->
            ev_label x <> None.

(** The last marked comment of the scan that carries the name
    [boiler]. *)
Definition last_posted (boiler : string) (scanned : list event)
  : option event :=
  find (fun x => has_marker x && String.eqb (boilerplate_name x) boiler)
       (rev scanned).

(* ================================================================= *)
(** ** The constructor with the file system made explicit *)

(** Above, the cache directory is taken to exist and the write to
    succeed.  Here the constructor and the two cache methods are given
    with the directory name, the state of the directory and the
    failures of the operating system as they are in the source. *)
Module OnDisk.

(** The cache directory as [os.path.isdir] sees it: missing, or present
    and holding the cache file in some state. *)
Inductive store : Type :=
| NoDir
| Dir (f : cachefile).

(** What the operating system answers to the two calls that can fail:
    [os.makedirs], and the write ([open(..., 'wb')] followed by
    [pickle.dump]), which also tells in what state it leaves the
    file. *)
Record answers : Type := mkAnswers {
  makedirs_error : option string;
  write_error : option (string * cachefile)
}.

(** An exception of a run: one of [exn], or an [OSError] of the
    operating system with its reason. *)
Inductive failure : Type :=
| Py (e : exn)
| OSError (reason : string).

Inductive run (A : Type) : Type :=
| Returned (a : A)
| Raised (e : failure).

Arguments Returned {A} a.
Arguments Raised {A} e.

Definition lift {A : Type} (m : res A) : run A :=
  match m with
  | Ok a => Returned a
  | Raise e => Raised (Py e)
  end.

(** After [os.makedirs] the directory is there and empty, so
    [os.path.isfile] is false and [None] is returned; in a directory
    that is there, the file is read as by [_load_cache] above. *)
Definition _load_cache (os : answers) (st : store) : run pyobj * store :=
  match st with
  | NoDir =>
      match makedirs_error os with
      | Some reason => (Raised (OSError reason), NoDir)
      | None => (Returned PyNone, Dir NoFile)
      end
  | Dir f => (Returned (_load_cache f), Dir f)
  end.

(** The write error is logged and raised again. *)
Definition _dump_cache (os : answers) (self : HistoryWrapper) (st : store)
  : run unit * store :=
  if has_non_datetime (history self)
  then (Raised (Py AssertionError), st)
  else
    match st, makedirs_error os with
    | NoDir, Some reason => (Raised (OSError reason), NoDir)
    | _, _ =>
        let cachedata := {| c_version := Some SCHEMA_VERSION;
                            c_updated_at := Some (last_updated self);
                            c_history := Some (history self) |} in
        match write_error os with
        | Some (reason, remains) => (Raised (OSError reason), Dir remains)
        | None => (Returned tt, Dir (Pickled (PyDict cachedata)))
        end
    end.

(** [cachedir] defaults to [None], on which [os.path.join] raises
    [TypeError] before anything else is done. *)
Definition __init__ (events : list event) (labels : list string)
    (last_updated : Z) (usecache : bool) (cachedir : option string)
    (os : answers) (st : store) : run HistoryWrapper * store :=
  let self := {| labels := labels; last_updated := last_updated;
                 history := [] |} in
  let sort_history (self : HistoryWrapper) :=
    h <- sorted_by_created_at (history self) ;; Ok (set_history self h) in
  match cachedir with
  | None => (Raised (Py TypeError), st)
  | Some _ =>
      if usecache then
        match _load_cache os st with
        | (Raised e, st) => (Raised e, st)
        | (Returned cache, st) =>
            match validate_cache self cache with
            | Raise e => (Raised (Py e), st)
            | Ok false =>
                let self := set_history self events in
                match _dump_cache os self st with
                | (Raised e, st) => (Raised e, st)
                | (Returned _, st) => (lift (sort_history self), st)
                end
            | Ok true =>
                (lift (h <- getitem_history cache ;;
                       sort_history (set_history self h)),
                 st)
            end
        end
      else (lift (sort_history (set_history self events)), st)
  end.

(** The cache file the constructor finds once the directory is there. *)
Definition file_of (st : store) : cachefile :=
  match st with
  | NoDir => NoFile
  | Dir f => f
  end.

(** The directory is there, or can be made. *)
Definition reachable (os : answers) (st : store) : Prop :=
  st = NoDir -> makedirs_error os = None.


End OnDisk.

(* ================================================================= *)
(** * Properties *)

(** ** Basic facts *)

Lemma in_str_list_In (s : string) (l : list string) :
  in_str_list s l = true <-> In s l.
Proof.
  unfold in_str_list. rewrite existsb_exists. split.
  - intros [x [Hin Heq]]. apply String.eqb_eq in Heq. now subst.
  - intros Hin. exists s. split; [assumption | apply String.eqb_refl].
Qed.

Lemma is_event_true (name : string) (x : event) :
  is_event name x = true <-> ev_event x = name.
Proof. unfold is_event. apply String.eqb_eq. Qed.

Lemma Qltb_lt (x y : Q) : Qltb x y = true <-> (x < y)%Q.
Proof. unfold Qltb, Qlt. apply Z.ltb_lt. Qed.

Lemma Qltb_ge (x y : Q) : Qltb x y = false <-> (y <= x)%Q.
Proof. unfold Qltb, Qle. apply Z.ltb_ge. Qed.

Lemma version_zero (q : Q) : (Qnum q =? 0)%Z = true <-> (q == 0)%Q.
Proof.
  unfold Qeq. simpl. rewrite Z.eqb_eq. split; intros H; lia.
Qed.

(** ** Cache validation *)

Lemma is_needs_info_label_unfold (x : event) :
  is_needs_info_label x
  = is_event "labeled" x
    && match ev_label x with
       | Some l => String.eqb l "needs_info"
       | None => false
       end.
Proof. reflexivity. Qed.

(** When the comprehension returns, it is the filter it reads as. *)
Lemma needs_info_events_ok (hist le : list event) :
  needs_info_events hist = Ok le -> le = filter is_needs_info_label hist.
Proof.
  revert le. induction hist as [| x rest IH]; simpl; intros le H.
  - now injection H as <-.
  - rewrite is_needs_info_label_unfold.
    destruct (is_event "labeled" x); simpl in *.
    + unfold getitem_label in H.
      destruct (ev_label x) as [l |]; simpl in H; [| discriminate].
      destruct (needs_info_events rest) as [le' |]; simpl in H;
        [| discriminate].
      injection H as <-. now rewrite (IH le' eq_refl).
    + destruct (needs_info_events rest) as [le' |]; simpl in H;
        [| discriminate].
      injection H as <-. now rewrite (IH le' eq_refl).
Qed.

(** It returns when every label event records its label. *)
Lemma needs_info_events_wf (hist : list event) :
  labels_recorded hist ->
  needs_info_events hist = Ok (filter is_needs_info_label hist).
Proof.
  intros Hwf.
  assert (Hret : exists le, needs_info_events hist = Ok le).
  { induction hist as [| x rest IH]; [now exists [] |].
    destruct IH as [le Hle]; [intros y Hy; apply Hwf; now right |].
    simpl. rewrite Hle.
    destruct (is_event "labeled" x) eqn:Hk; simpl; [| now eexists].
    unfold getitem_label.
    destruct (ev_label x) as [l |] eqn:Hl; simpl; [now eexists |].
    exfalso.
    apply (Hwf x); [now left | now apply is_event_true | assumption]. }
  destruct Hret as [le Hle]. rewrite Hle. f_equal.
  now apply needs_info_events_ok.
Qed.

Lemma needs_info_filter_nonempty (hist : list event) :
  filter is_needs_info_label hist <> [] <->
  exists x, In x hist /\ ev_event x = "labeled"
            /\ ev_label x = Some "needs_info".
Proof.
  split.
  - intros Hne. destruct (filter is_needs_info_label hist) as [| x l] eqn:Hf;
      [congruence |].
    assert (Hin : In x (filter is_needs_info_label hist))
      by (rewrite Hf; now left).
    apply filter_In in Hin. destruct Hin as [Hin Hx].
    unfold is_needs_info_label in Hx. apply andb_true_iff in Hx.
    destruct Hx as [Hk Hl]. exists x. split; [assumption |].
    split; [now apply is_event_true |].
    destruct (ev_label x) as [l' |]; [| discriminate].
    apply String.eqb_eq in Hl. now subst.
  - intros [x [Hin [Hk Hl]]] Hf.
    assert (Hx : In x (filter is_needs_info_label hist)).
    { apply filter_In. split; [assumption |].
      unfold is_needs_info_label. rewrite Hl.
      apply andb_true_iff. split; [now apply is_event_true | reflexivity]. }
    rewrite Hf in Hx. contradiction.
Qed.

(** Whatever [validate_cache] returns decides the five rules. *)
Lemma validate_cache_sound (self : HistoryWrapper) (cache : pyobj)
    (b : bool) :
  validate_cache self cache = Ok b ->
  (b = true <-> snapshot_valid (labels self) (last_updated self) cache).
Proof.
  assert (Hno : forall P : Prop, ~ P -> (false = true <-> P))
    by (intros P H; split; [discriminate | tauto]).
  destruct cache as [| | d]; simpl.
  1, 2: intros [= <-]; apply Hno;
        intros (d & h & u & v & Heq & _); discriminate.
  destruct (c_history d) as [hist |] eqn:Hh.
  2: { intros [= <-]. apply Hno.
       intros (d' & h & u & v & Heq & Hh' & _).
       injection Heq as <-. congruence. }
  destruct (c_updated_at d) as [u |] eqn:Hu.
  2: { intros [= <-]. apply Hno.
       intros (d' & h & u & v & Heq & _ & Hu' & _).
       injection Heq as <-. congruence. }
  destruct (c_version d) as [v |] eqn:Hv; simpl.
  2: { intros [= <-]. apply Hno.
       intros (d' & h & u' & v & Heq & _ & _ & Hv' & _).
       injection Heq as <-. congruence. }
  destruct (Qnum v =? 0)%Z eqn:Hz; simpl.
  { intros [= <-]. apply Hno.
    intros (d' & h & u' & v' & Heq & _ & _ & Hv' & Hnz & _).
    injection Heq as <-. rewrite Hv in Hv'. injection Hv' as <-.
    apply Hnz. now apply version_zero. }
  destruct (Qltb v SCHEMA_VERSION) eqn:Hs.
  { intros [= <-]. apply Hno.
    intros (d' & h & u' & v' & Heq & _ & _ & Hv' & _ & Hge & _).
    injection Heq as <-. rewrite Hv in Hv'. injection Hv' as <-.
    apply Qltb_lt in Hs. apply Qle_not_lt in Hge. contradiction. }
  destruct (u <? last_updated self)%Z eqn:Hlu.
  { intros [= <-]. apply Hno.
    intros (d' & h & u' & v' & Heq & _ & Hu' & _ & _ & _ & Hle & _).
    injection Heq as <-. rewrite Hu in Hu'. injection Hu' as <-.
    apply Z.ltb_lt in Hlu. lia. }
  destruct (List.length hist
            <? List.length (filter (is_event "commented") hist)
               + List.length (labels self)) eqn:Hlen.
  { intros [= <-]. apply Hno.
    intros (d' & h & u' & v' & Heq & Hh' & _ & _ & _ & _ & _ & Hfloor & _).
    injection Heq as <-. rewrite Hh in Hh'. injection Hh' as <-.
    apply Nat.ltb_lt in Hlen. unfold commented_count in Hfloor. lia. }
  assert (Hrules :
            snapshot_valid (labels self) (last_updated self) (PyDict d)
            <-> (In "needs_info" (labels self) ->
                 exists x, In x hist /\ ev_event x = "labeled"
                           /\ ev_label x = Some "needs_info")).
  { split.
    - intros (d' & h & u' & v' & Heq & Hh' & _ & _ & _ & _ & _ & _ & Hni).
      injection Heq as <-. rewrite Hh in Hh'. now injection Hh' as <-.
    - intros Hni. exists d, hist, u, v.
      repeat split; try assumption.
      + intros H0. apply version_zero in H0. congruence.
      + now apply Qltb_ge.
      + apply Z.ltb_ge in Hlu. lia.
      + apply Nat.ltb_ge in Hlen. unfold commented_count. lia. }
  destruct (in_str_list "needs_info" (labels self)) eqn:Hin.
  - destruct (needs_info_events hist) as [le |] eqn:Hle; simpl;
      [| discriminate].
    apply needs_info_events_ok in Hle. subst le.
    apply in_str_list_In in Hin.
    destruct (filter is_needs_info_label hist) as [| x l] eqn:Hf;
      intros [= <-].
    + apply Hno. intros Hvalid. pose proof (proj1 Hrules Hvalid Hin) as Hex.
      apply needs_info_filter_nonempty in Hex. congruence.
    + split; [| reflexivity]. intros _. apply Hrules. intros _.
      apply needs_info_filter_nonempty. rewrite Hf. discriminate.
  - intros [= <-]. split; [| reflexivity].
    intros _. apply Hrules. intros Hin'.
    apply in_str_list_In in Hin'. congruence.
Qed.

(** On a cache whose label events record their label it returns. *)
Lemma validate_cache_returns (self : HistoryWrapper) (cache : pyobj) :
  cache_well_formed cache -> returns (validate_cache self cache).
Proof.
  unfold returns. destruct cache as [| | d]; simpl; try (now eexists).
  destruct (c_history d) as [hist |]; [| now eexists].
  destruct (c_updated_at d) as [u |]; [| now eexists].
  intros Hwf. rewrite (needs_info_events_wf hist Hwf). simpl.
  repeat match goal with
         | |- context [if ?c then _ else _] => destruct c
         end; now eexists.
Qed.

Lemma validate_cache_decides (self : HistoryWrapper) (cache : pyobj) :
  cache_well_formed cache ->
  exists b, validate_cache self cache = Ok b
            /\ (b = true <-> snapshot_valid (labels self) (last_updated self)
                                            cache).
Proof.
  intros Hwf. destruct (validate_cache_returns self cache Hwf) as [b Hb].
  exists b. split; [exact Hb | now apply validate_cache_sound].
Qed.

(** C1, as stated, fails: a snapshot can meet all five rules and still
    not be answered with [True].  The [needs_info] guard reads
    [x['label']] on every ['labeled'] event of the history, so a
    ['labeled'] event without that key makes the call raise [KeyError],
    here although a later event carries ['needs_info']. *)
Lemma valid_snapshot_raises_key_error :
  let self := {| labels := ["needs_info"]; last_updated := 10%Z;
                 history := [] |} in
  let cache :=
    PyDict {| c_version := Some SCHEMA_VERSION;
              c_updated_at := Some 12%Z;
              c_history := Some [plain_event "labeled" "alice" 2;
                                 label_event "alice" 3 "needs_info"] |} in
  snapshot_valid (labels self) (last_updated self) cache
  /\ validate_cache self cache = Raise KeyError
  /\ ~ (validate_cache self cache = Ok true
        <-> snapshot_valid (labels self) (last_updated self) cache).
Proof.
  cbv zeta.
  assert (Hvalid :
            snapshot_valid ["needs_info"] 10
              (PyDict {| c_version := Some SCHEMA_VERSION;
                         c_updated_at := Some 12%Z;
                         c_history :=
                           Some [plain_event "labeled" "alice" 2;
                                 label_event "alice" 3 "needs_info"] |})).
  { unfold snapshot_valid. cbn [labels last_updated].
    eexists _, _, _, _.
    split; [reflexivity |]. split; [reflexivity |].
    split; [reflexivity |]. split; [reflexivity |].
    split; [intros H; vm_compute in H; discriminate |].
    split; [apply Qle_refl |]. split; [lia |].
    split; [vm_compute; lia |].
    intros _. exists (label_event "alice" 3 "needs_info").
    split; [right; now left | split; reflexivity]. }
  split; [exact Hvalid |]. split; [reflexivity |].
  intros [_ H]. specialize (H Hvalid). discriminate.
Qed.

(** C1, amended.  For every cache snapshot whose ['labeled'] events
    record their label, every list of current labels and every
    [last_updated], [validate_cache] returns [True] if and only if the
    five rules hold, and [False] as soon as one of them fails; the rules
    are that the snapshot is a dict with ['history'] and ['updated_at'];
    its version is present, non-zero and at least [SCHEMA_VERSION]; its
    ['updated_at'] is not older than [last_updated]; the history is at
    least as long as its comments plus the current labels; and, when
    ['needs_info'] is a current label, some ['labeled'] event carries
    it.  On any snapshot at all, when the call returns [True] the five
    rules hold, and when it returns [False] one of them fails. *)
Theorem validate_cache_iff (self : HistoryWrapper) (cache : pyobj) :
  let valid := snapshot_valid (labels self) (last_updated self) cache in
  (validate_cache self cache = Ok true -> valid)
  /\ (validate_cache self cache = Ok false -> ~ valid)
  /\ (cache_well_formed cache ->
      (validate_cache self cache = Ok true <-> valid)
      /\ (validate_cache self cache = Ok false <-> ~ valid)).
Proof.
  cbv zeta.
  assert (Htrue : validate_cache self cache = Ok true ->
                  snapshot_valid (labels self) (last_updated self) cache).
  { intros H. now apply (validate_cache_sound self cache true H). }
  assert (Hfalse : validate_cache self cache = Ok false ->
                   ~ snapshot_valid (labels self) (last_updated self) cache).
  { intros H Hv. apply (validate_cache_sound self cache false H) in Hv.
    discriminate. }
  split; [exact Htrue |]. split; [exact Hfalse |].
  intros Hwf.
  destruct (validate_cache_returns self cache Hwf) as [b Hb].
  split; split; try assumption.
  - intros Hv. destruct b; [exact Hb |]. exfalso. now apply Hfalse.
  - intros Hn. destruct b; [| exact Hb]. exfalso. now apply Hn, Htrue.
Qed.

Lemma validate_cache_iff_witness :
  let self := {| labels := ["needs_info"]; last_updated := 10%Z;
                 history := [] |} in
  let cache :=
    PyDict {| c_version := Some SCHEMA_VERSION;
              c_updated_at := Some 12%Z;
              c_history := Some [label_event "alice" 3 "needs_info";
                                 comment_event "bob" 4 "more details?"] |} in
  cache_well_formed cache
  /\ validate_cache self cache = Ok true
  /\ snapshot_valid (labels self) (last_updated self) cache.
Proof.
  assert (Hwf : cache_well_formed
                  (PyDict {| c_version := Some SCHEMA_VERSION;
                             c_updated_at := Some 12%Z;
                             c_history :=
                               Some [label_event "alice" 3 "needs_info";
                                     comment_event "bob" 4 "more details?"] |})).
  { simpl. intros x [<- | [<- | []]]; simpl; discriminate. }
  split; [exact Hwf |]. split; [reflexivity |].
  exact (proj1 (validate_cache_iff
                  {| labels := ["needs_info"]; last_updated := 10%Z;
                     history := [] |}
                  (PyDict {| c_version := Some SCHEMA_VERSION;
                             c_updated_at := Some 12%Z;
                             c_history :=
                               Some [label_event "alice" 3 "needs_info";
                                     comment_event "bob" 4 "more details?"] |}))
               eq_refl).
Defined.

(** ** The stable sort on ['created_at'] *)

Lemma string_compare_refl (s : string) : String.compare s s = Eq.
Proof.
  pose proof (String.compare_antisym s s) as H.
  destruct (String.compare s s); simpl in H; congruence.
Qed.

Lemma ascii_compare_lt_trans (a b c : ascii) :
  Ascii.compare a b = Lt -> Ascii.compare b c = Lt -> Ascii.compare a c = Lt.
Proof.
  unfold Ascii.compare. rewrite !N.compare_lt_iff. lia.
Qed.

Lemma string_compare_lt_trans (s1 : string) :
  forall s2 s3,
    String.compare s1 s2 = Lt -> String.compare s2 s3 = Lt ->
    String.compare s1 s3 = Lt.
Proof.
  induction s1 as [| a s1 IH]; intros [| b s2] [| c s3]; simpl;
    try discriminate; try reflexivity.
  destruct (Ascii.compare a b) eqn:Hab; try discriminate;
    destruct (Ascii.compare b c) eqn:Hbc; try discriminate; intros H12 H23.
  - apply Ascii.compare_eq_iff in Hab, Hbc. subst.
    rewrite (proj2 (N.compare_eq_iff _ _) eq_refl : Ascii.compare c c = Eq).
    now apply (IH s2).
  - apply Ascii.compare_eq_iff in Hab. subst. now rewrite Hbc.
  - apply Ascii.compare_eq_iff in Hbc. subst. now rewrite Hab.
  - now rewrite (ascii_compare_lt_trans a b c).
Qed.

Lemma string_ltb_false_trans (x y z : string) :
  String.ltb y x = false -> String.ltb z y = false -> String.ltb z x = false.
Proof.
  unfold String.ltb. intros Hyx Hzy.
  destruct (String.compare z x) eqn:Hzx; try reflexivity. exfalso.
  destruct (String.compare y x) eqn:Hc; try discriminate.
  - apply String.compare_eq_iff in Hc. subst. now rewrite Hzx in Hzy.
  - assert (Hxy : String.compare x y = Lt)
      by (rewrite String.compare_antisym, Hc; reflexivity).
    now rewrite (string_compare_lt_trans z x y Hzx Hxy) in Hzy.
Qed.

Lemma not_after_trans (x y z : event) :
  not_after x y -> not_after y z -> not_after x z.
Proof.
  unfold not_after.
  destruct (ev_created_at x) as [a | a | a], (ev_created_at y) as [b | b | b],
    (ev_created_at z) as [c | c | c]; simpl; try discriminate;
    intros [= Hyx] [= Hzy]; f_equal.
  - apply Z.ltb_ge in Hyx, Hzy. apply Z.ltb_ge. lia.
  - apply Z.ltb_ge in Hyx, Hzy. apply Z.ltb_ge. lia.
  - now apply (string_ltb_false_trans a b c).
Qed.

Lemma time_lt_irrefl (a b : pytime) :
  time_lt a b = Ok true -> pytime_eqb a b = false.
Proof.
  destruct a as [x | x | x], b as [y | y | y]; simpl; try reflexivity;
    intros H; injection H as H.
  - apply Z.ltb_lt in H. apply Z.eqb_neq. lia.
  - apply Z.ltb_lt in H. apply Z.eqb_neq. lia.
  - apply String.eqb_neq. intros ->. unfold String.ltb in H.
    now rewrite string_compare_refl in H.
Qed.

Lemma time_lt_asym (a b : pytime) :
  time_lt a b = Ok true -> time_lt b a = Ok false.
Proof.
  destruct a as [x | x | x], b as [y | y | y]; simpl; try discriminate;
    intros H; injection H as H; f_equal.
  - apply Z.ltb_lt in H. apply Z.ltb_ge. lia.
  - apply Z.ltb_lt in H. apply Z.ltb_ge. lia.
  - unfold String.ltb in *. rewrite String.compare_antisym.
    destruct (String.compare x y); simpl; congruence.
Qed.

Lemma pytime_eqb_eq (a b : pytime) : pytime_eqb a b = true <-> a = b.
Proof.
  destruct a as [x | x | x], b as [y | y | y]; simpl;
    try (split; [discriminate | congruence]).
  - rewrite Z.eqb_eq. split; congruence.
  - rewrite Z.eqb_eq. split; congruence.
  - rewrite String.eqb_eq. split; congruence.
Qed.

Section InsertEvent.

Variable e : event.

Lemma insert_event_perm (l r : list event) :
  insert_event e l = Ok r -> Permutation (e :: l) r.
Proof.
  revert r. induction l as [| x rest IH]; simpl; intros r H.
  - injection H as <-. apply Permutation_refl.
  - destruct (time_lt (ev_created_at x) (ev_created_at e)) as [[|] | ex];
      simpl in H; try discriminate.
    + destruct (insert_event e rest) as [r' | ex]; simpl in H;
        [| discriminate].
      injection H as <-.
      apply perm_trans with (x :: e :: rest); [apply perm_swap |].
      apply perm_skip. now apply IH.
    + injection H as <-. apply Permutation_refl.
Qed.

Lemma insert_event_head (l r : list event) (y : event) :
  insert_event e l = Ok r -> HdRel not_after y l -> not_after y e ->
  HdRel not_after y r.
Proof.
  destruct l as [| x rest]; simpl; intros H Hhd Hy.
  - injection H as <-. now constructor.
  - destruct (time_lt (ev_created_at x) (ev_created_at e)) as [[|] | ex];
      simpl in H; try discriminate.
    + destruct (insert_event e rest) as [r' | ex]; simpl in H;
        [| discriminate].
      injection H as <-. constructor. now inversion Hhd.
    + injection H as <-. now constructor.
Qed.

Lemma insert_event_sorted (l r : list event) :
  insert_event e l = Ok r -> Sorted not_after l -> Sorted not_after r.
Proof.
  revert r.
  induction l as [| x rest IH]; simpl; intros r H Hs.
  - injection H as <-. repeat constructor.
  - destruct (time_lt (ev_created_at x) (ev_created_at e)) as [[|] | ex] eqn:Hlt;
      simpl in H; try discriminate.
    + destruct (insert_event e rest) as [r' | ex] eqn:Hins; simpl in H;
        [| discriminate].
      injection H as <-. inversion Hs as [| ? ? Hrest Hhd]; subst.
      constructor; [now apply IH |].
      apply (insert_event_head rest r' x Hins Hhd).
      unfold not_after. now apply time_lt_asym.
    + injection H as <-. constructor; [assumption |].
      constructor. exact Hlt.
Qed.

Lemma insert_event_ties (l r : list event) (k : pytime) :
  insert_event e l = Ok r ->
  filter (created_at_is k) r = filter (created_at_is k) (e :: l).
Proof.
  revert r. induction l as [| x rest IH]; simpl; intros r H.
  - now injection H as <-.
  - destruct (time_lt (ev_created_at x) (ev_created_at e)) as [[|] | ex] eqn:Hlt;
      simpl in H; try discriminate.
    + destruct (insert_event e rest) as [r' | ex] eqn:Hins; simpl in H;
        [| discriminate].
      injection H as <-. simpl. rewrite (IH r' eq_refl). simpl.
      apply time_lt_irrefl in Hlt.
      destruct (created_at_is k x) eqn:Hx; [| reflexivity].
      assert (He : created_at_is k e = false).
      { unfold created_at_is in *. apply pytime_eqb_eq in Hx. subst k.
        destruct (pytime_eqb (ev_created_at e) (ev_created_at x)) eqn:Hex;
          [| reflexivity].
        apply pytime_eqb_eq in Hex. rewrite Hex in Hlt.
        assert (Hrefl : pytime_eqb (ev_created_at x) (ev_created_at x) = true)
          by now apply pytime_eqb_eq.
        congruence. }
      now rewrite He.
    + now injection H as <-.
Qed.

End InsertEvent.

Lemma sorted_perm (l r : list event) :
  sorted_by_created_at l = Ok r -> Permutation l r.
Proof.
  revert r. induction l as [| e rest IH]; simpl; intros r H.
  - injection H as <-. constructor.
  - destruct (sorted_by_created_at rest) as [s | ex]; simpl in H;
      [| discriminate].
    apply perm_trans with (e :: s); [now apply perm_skip, IH |].
    now apply insert_event_perm.
Qed.

Lemma sorted_adjacent (l r : list event) :
  sorted_by_created_at l = Ok r -> Sorted not_after r.
Proof.
  revert r. induction l as [| e rest IH]; simpl; intros r H.
  - injection H as <-. constructor.
  - destruct (sorted_by_created_at rest) as [s | ex]; simpl in H;
      [| discriminate].
    apply (insert_event_sorted e s r H). now apply IH.
Qed.

Lemma sorted_nondecreasing (l r : list event) :
  sorted_by_created_at l = Ok r -> nondecreasing r.
Proof.
  intros H. apply Sorted_StronglySorted; [| now apply sorted_adjacent in H].
  intros x y z. apply not_after_trans.
Qed.

Lemma sorted_stable (l r : list event) :
  sorted_by_created_at l = Ok r -> ties_in_insertion_order l r.
Proof.
  unfold ties_in_insertion_order.
  revert r. induction l as [| e rest IH]; simpl; intros r H k.
  - now injection H as <-.
  - destruct (sorted_by_created_at rest) as [s | ex]; simpl in H;
      [| discriminate].
    rewrite (insert_event_ties e s r k H). simpl. now rewrite (IH s eq_refl).
Qed.

(** Sorting never raises on tz-aware datetimes. *)
Lemma insert_event_aware (e : event) (l : list event) :
  tz_aware (ev_created_at e) = true -> all_aware l ->
  exists r, insert_event e l = Ok r.
Proof.
  intros He Hl. induction Hl as [| x rest Hx Hrest IH]; simpl.
  - now exists [e].
  - destruct (ev_created_at x) as [tx | |]; try discriminate.
    destruct (ev_created_at e) as [te | |]; try discriminate. simpl.
    destruct (tx <? te)%Z; [| now eexists].
    destruct IH as [r ->]. simpl. now eexists.
Qed.

Lemma all_aware_perm (l r : list event) :
  Permutation l r -> all_aware l -> all_aware r.
Proof. intros Hp. unfold all_aware. now apply Permutation_Forall. Qed.

Lemma sorted_aware (l : list event) :
  all_aware l -> exists r, sorted_by_created_at l = Ok r.
Proof.
  intros Hl. induction Hl as [| e rest He Hrest IH]; simpl.
  - now exists [].
  - destruct IH as [s Hs]. rewrite Hs. simpl.
    apply insert_event_aware; [assumption |].
    apply (all_aware_perm rest s); [now apply sorted_perm | assumption].
Qed.

(** ** The merge loops append, in order, the normalised records *)

Lemma merge_commits_appends (commits : list commit) (hist : list event) :
  fold_left (fun h xc => h ++ [commit_event xc]) commits hist
  = hist ++ map commit_event commits.
Proof.
  revert hist. induction commits as [| xc rest IH]; simpl; intros hist.
  - now rewrite app_nil_r.
  - rewrite IH, <- app_assoc. reflexivity.
Qed.

Section ReviewLoop.

Variable strip_time_safely : string -> Z.

Lemma review_step_spec (hist : list event) (log : list logrecord)
    (r : review) :
  review_step strip_time_safely (hist, log) r
  = (hist ++ review_events strip_time_safely [r], log ++ review_log [r]).
Proof.
  unfold review_step, review_events, review_log, normalize_review,
    unknown_state, review_kind. simpl.
  destruct (r_user r) as [login |]; simpl;
    [| now rewrite !app_nil_r].
  destruct (String.eqb (r_state r) "COMMENTED");
    [simpl; now rewrite app_nil_r |].
  destruct (String.eqb (r_state r) "CHANGES_REQUESTED");
    [simpl; now rewrite app_nil_r |].
  destruct (String.eqb (r_state r) "APPROVED");
    [simpl; now rewrite app_nil_r |].
  destruct (String.eqb (r_state r) "DISMISSED");
    [simpl; now rewrite app_nil_r |].
  destruct (String.eqb (r_state r) "PENDING"); simpl;
    now rewrite ?app_nil_r.
Qed.

Lemma review_events_cons (r : review) (rest : list review) :
  review_events strip_time_safely (r :: rest)
  = review_events strip_time_safely [r] ++ review_events strip_time_safely rest.
Proof. unfold review_events. simpl. now rewrite app_nil_r. Qed.

Lemma review_log_cons (r : review) (rest : list review) :
  review_log (r :: rest) = review_log [r] ++ review_log rest.
Proof.
  unfold review_log. simpl. now destruct (unknown_state r).
Qed.

Lemma review_loop_spec (reviews : list review) (hist : list event)
    (log : list logrecord) :
  fold_left (review_step strip_time_safely) reviews (hist, log)
  = (hist ++ review_events strip_time_safely reviews,
     log ++ review_log reviews).
Proof.
  revert hist log. induction reviews as [| r rest IH]; intros hist log.
  - simpl. now rewrite !app_nil_r.
  - cbn [fold_left]. rewrite review_step_spec, IH.
    rewrite (review_events_cons r rest), (review_log_cons r rest).
    now rewrite !app_assoc.
Qed.

Lemma merge_reviews_spec (self : HistoryWrapper) (reviews : list review) :
  merge_reviews strip_time_safely self reviews
  = (h <- sorted_by_created_at
            (history self ++ review_events strip_time_safely reviews) ;;
     Ok (set_history self h),
     review_log reviews).
Proof.
  unfold merge_reviews. now rewrite review_loop_spec.
Qed.

Lemma apply_call_spec (self : HistoryWrapper) (call : merge_call) :
  apply_call strip_time_safely self call
  = (h <- sorted_by_created_at
            (history self ++ call_events strip_time_safely call) ;;
     Ok (set_history self h)).
Proof.
  destruct call as [commits | reviews]; simpl.
  - unfold merge_commits. now rewrite merge_commits_appends.
  - now rewrite merge_reviews_spec.
Qed.

End ReviewLoop.

(** ** Construction and merge calls *)

Lemma all_aware_datetimes (hist : list event) :
  all_aware hist -> has_non_datetime hist = false.
Proof.
  intros H. induction H as [| x rest Hx Hrest IH]; [reflexivity |].
  simpl. rewrite IH. now destruct (ev_created_at x).
Qed.

Lemma validate_true_has_history (self : HistoryWrapper) (cache : pyobj) :
  validate_cache self cache = Ok true ->
  exists d h, cache = PyDict d /\ c_history d = Some h.
Proof.
  destruct cache as [| | d]; simpl; try discriminate.
  destruct (c_history d) as [h |] eqn:Hh; [| discriminate].
  intros _. now exists d, h.
Qed.

(** [__init__] ends by sorting the list it starts from. *)
Lemma init_sorts_initial_list (events : list event) (labels : list string)
    (last_updated : Z) (usecache : bool) (f : cachefile)
    (self : HistoryWrapper) :
  fst (__init__ events labels last_updated usecache f) = Ok self ->
  sorted_by_created_at (initial_list events labels last_updated usecache f)
  = Ok (history self).
Proof.
  unfold __init__, initial_list.
  destruct usecache; simpl.
  - destruct (validate_cache _ (_load_cache f)) as [[|] | ex] eqn:Hv; simpl.
    + destruct (validate_true_has_history _ _ Hv) as (d & h & Hd & Hh).
      rewrite Hd. simpl. rewrite Hh. simpl.
      destruct (sorted_by_created_at h) as [s | ex]; simpl;
        [| discriminate].
      now intros [= <-].
    + unfold _dump_cache. simpl.
      destruct (has_non_datetime events); simpl; [discriminate |].
      destruct (sorted_by_created_at events) as [s | ex]; simpl;
        [| discriminate].
      now intros [= <-].
    + discriminate.
  - destruct (sorted_by_created_at events) as [s | ex]; simpl;
      [| discriminate].
    now intros [= <-].
Qed.

Lemma init_returns (events : list event) (labels : list string)
    (last_updated : Z) (usecache : bool) (f : cachefile) :
  cache_well_formed (_load_cache f) ->
  all_aware (initial_list events labels last_updated usecache f) ->
  returns (fst (__init__ events labels last_updated usecache f)).
Proof.
  unfold __init__, initial_list, returns. intros Hwf.
  destruct usecache; simpl.
  - destruct (validate_cache_decides
                {| labels := labels; last_updated := last_updated;
                   history := [] |} (_load_cache f) Hwf) as [b [Hb _]].
    rewrite Hb. destruct b; simpl.
    + destruct (validate_true_has_history _ _ Hb) as (d & h & Hd & Hh).
      rewrite Hd. simpl. rewrite Hh. simpl. intros Ha.
      destruct (sorted_aware h Ha) as [s ->]. simpl. now eexists.
    + intros Ha. unfold _dump_cache. simpl.
      rewrite (all_aware_datetimes events Ha). simpl.
      destruct (sorted_aware events Ha) as [s ->]. simpl. now eexists.
  - intros Ha. destruct (sorted_aware events Ha) as [s ->]. simpl.
    now eexists.
Qed.

Section MergeCalls.

Variable strip_time_safely : string -> Z.

Lemma call_events_aware (call : merge_call) :
  all_aware (call_events strip_time_safely call).
Proof.
  unfold all_aware. apply Forall_forall. intros x Hx.
  destruct call as [commits | reviews]; simpl in Hx.
  - apply in_map_iff in Hx. destruct Hx as [xc [<- _]]. reflexivity.
  - unfold review_events in Hx. apply in_flat_map in Hx.
    destruct Hx as [r [_ Hx]]. unfold normalize_review in Hx.
    destruct (r_user r) as [login |]; [| contradiction].
    destruct (review_kind (r_state r)) as [kind |]; [| contradiction].
    destruct Hx as [<- | []]. reflexivity.
Qed.

Lemma run_calls_invariant (calls : list merge_call) :
  forall (self final : HistoryWrapper) (inserted : list event),
    run_calls strip_time_safely self calls = Ok final ->
    nondecreasing (history self) ->
    ties_in_insertion_order inserted (history self) ->
    Permutation inserted (history self) ->
    nondecreasing (history final)
    /\ ties_in_insertion_order
         (inserted ++ merged_events strip_time_safely calls) (history final)
    /\ Permutation (inserted ++ merged_events strip_time_safely calls)
                   (history final).
Proof.
  induction calls as [| call rest IH]; simpl;
    intros self final inserted Hrun Hsorted Hties Hperm.
  - injection Hrun as <-. unfold merged_events. simpl.
    now rewrite app_nil_r.
  - rewrite apply_call_spec in Hrun.
    destruct (sorted_by_created_at
                (history self ++ call_events strip_time_safely call))
      as [h |] eqn:Hsort; simpl in Hrun; [| discriminate].
    unfold merged_events. simpl. rewrite app_assoc.
    apply (IH (set_history self h) final); simpl.
    + exact Hrun.
    + now apply sorted_nondecreasing in Hsort.
    + intros k. rewrite (sorted_stable _ _ Hsort k).
      rewrite !filter_app. now rewrite (Hties k).
    + apply perm_trans
        with (history self ++ call_events strip_time_safely call).
      * now apply Permutation_app_tail.
      * now apply sorted_perm.
Qed.

Lemma run_calls_returns (calls : list merge_call) :
  forall self : HistoryWrapper,
    all_aware (history self) ->
    returns (run_calls strip_time_safely self calls).
Proof.
  unfold returns.
  induction calls as [| call rest IH]; simpl; intros self Ha.
  - now eexists.
  - rewrite apply_call_spec.
    assert (Hall : all_aware
                     (history self ++ call_events strip_time_safely call)).
    { apply Forall_app. split; [assumption | apply call_events_aware]. }
    destruct (sorted_aware _ Hall) as [h Hh]. rewrite Hh. simpl.
    apply IH. simpl.
    apply (all_aware_perm _ h (sorted_perm _ _ Hh) Hall).
Qed.

(** Whenever construction and the merge calls return, the timeline is
    sorted and stable, whatever the ['created_at'] values are. *)
Lemma merges_sorted_when_returning (events : list event)
    (labels : list string) (last_updated : Z) (usecache : bool)
    (f : cachefile) (calls : list merge_call) (final : HistoryWrapper) :
  construct_and_merge strip_time_safely events labels last_updated
                      usecache f calls = Ok final ->
  let inserted :=
    initial_list events labels last_updated usecache f
    ++ merged_events strip_time_safely calls in
  nondecreasing (history final)
  /\ ties_in_insertion_order inserted (history final)
  /\ Permutation inserted (history final).
Proof.
  unfold construct_and_merge. intros Hrun.
  destruct (fst (__init__ events labels last_updated usecache f))
    as [self |] eqn:Hinit; simpl in Hrun; [| discriminate].
  apply init_sorts_initial_list in Hinit.
  apply (run_calls_invariant calls self final _ Hrun).
  - now apply sorted_nondecreasing in Hinit.
  - now apply sorted_stable.
  - now apply sorted_perm.
Qed.

(** C2.  For every initial event list and every finite sequence of
    [merge_commits] / [merge_reviews] calls, the timeline that results
    is non-decreasing by ['created_at'], holds exactly the inserted
    events, and keeps events with equal ['created_at'] in insertion
    order; each merge is a concatenation followed by a stable sort.
    Over tz-aware events the construction and every call return. *)
Theorem merges_keep_timeline_sorted (events : list event)
    (labels : list string) (last_updated : Z) (usecache : bool)
    (f : cachefile) (calls : list merge_call) :
  let inserted :=
    initial_list events labels last_updated usecache f
    ++ merged_events strip_time_safely calls in
  let run :=
    construct_and_merge strip_time_safely events labels last_updated
                        usecache f calls in
  (forall final,
      run = Ok final ->
      nondecreasing (history final)
      /\ ties_in_insertion_order inserted (history final)
      /\ Permutation inserted (history final))
  /\ (cache_well_formed (_load_cache f) ->
      all_aware (initial_list events labels last_updated usecache f) ->
      returns run)
  /\ (forall self call,
         apply_call strip_time_safely self call
         = (h <- sorted_by_created_at
                   (history self ++ call_events strip_time_safely call) ;;
            Ok (set_history self h))).
Proof.
  cbv zeta. split; [| split; [| apply apply_call_spec]].
  - intros final Hrun. now apply merges_sorted_when_returning.
  - intros Hwf Ha.
    destruct (init_returns events labels last_updated usecache f Hwf Ha)
      as [self Hself].
    assert (Haware : all_aware (history self)).
    { apply (all_aware_perm
               (initial_list events labels last_updated usecache f)).
      - apply sorted_perm. now apply init_sorts_initial_list.
      - exact Ha. }
    destruct (run_calls_returns calls self Haware) as [final Hfinal].
    exists final. unfold construct_and_merge. now rewrite Hself.
Qed.

End MergeCalls.

Lemma merges_keep_timeline_sorted_witness :
  let parse := fun _ : string => 6%Z in
  let events := [comment_event "bob" 5 "shipit";
                 label_event "alice" 3 "bug";
                 plain_event "assigned" "carol" 5] in
  let calls :=
    [MergeCommits [mkCommit "9fceb02" (Login "dave") "dave" 5 "fix typo"];
     MergeReviews [mkReview (Some "erin") "APPROVED" 41 "2020-01-01T00:00:06Z"
                            None (Some "looks good");
                   mkReview None "COMMENTED" 42 "2020-01-01T00:00:07Z"
                            None None]] in
  cache_well_formed (_load_cache NoFile)
  /\ all_aware (initial_list events [] 0 false NoFile)
  /\ exists final,
      construct_and_merge parse events [] 0 false NoFile calls = Ok final
      /\ nondecreasing (history final).
Proof.
  assert (Ha : all_aware
                 (initial_list [comment_event "bob" 5 "shipit";
                                label_event "alice" 3 "bug";
                                plain_event "assigned" "carol" 5]
                               [] 0 false NoFile))
    by (simpl; repeat constructor).
  split; [exact I |]. split; [exact Ha |].
  destruct (merges_keep_timeline_sorted
              (fun _ : string => 6%Z)
              [comment_event "bob" 5 "shipit"; label_event "alice" 3 "bug";
               plain_event "assigned" "carol" 5]
              [] 0%Z false NoFile
              [MergeCommits
                 [mkCommit "9fceb02" (Login "dave") "dave" 5 "fix typo"];
               MergeReviews
                 [mkReview (Some "erin") "APPROVED" 41
                           "2020-01-01T00:00:06Z" None (Some "looks good");
                  mkReview None "COMMENTED" 42
                           "2020-01-01T00:00:07Z" None None]])
    as [Hsorted [Hreturns _]].
  destruct (Hreturns I Ha) as [final Hfinal].
  exists final. split; [exact Hfinal |].
  exact (proj1 (Hsorted final Hfinal)).
Defined.

(** ** The review normaliser *)

Section ReviewNormaliser.

Variable strip_time_safely : string -> Z.

Lemma review_events_kept (reviews : list review) :
  Forall2 (fun r e => normalize_review strip_time_safely r = Some e)
          (filter kept reviews) (review_events strip_time_safely reviews).
Proof.
  induction reviews as [| r rest IH]; [constructor |].
  rewrite review_events_cons. unfold review_events at 1.
  unfold kept, normalize_review in *. simpl.
  destruct (r_user r) as [login |] eqn:Hu; [| exact IH].
  destruct (review_kind (r_state r)) as [kind |] eqn:Hk; [| exact IH].
  simpl. constructor; [| exact IH].
  now rewrite Hu, Hk.
Qed.

(** C6.  [merge_reviews] does not raise on the content of a review: a
    review without ['user'] and a ['PENDING'] review leave history and
    log untouched, a review in any state outside the five known ones
    writes one error record and adds no event, and each remaining
    review appends exactly one event of its [review_*] kind, with
    ['commit_id'] [None] when the raw record has none.  The call is the
    stable sort of the history followed by these events, together with
    the error records; on a tz-aware history it returns. *)
Theorem merge_reviews_skips_and_maps (self : HistoryWrapper)
    (reviews : list review) :
  merge_reviews strip_time_safely self reviews
  = (h <- sorted_by_created_at
            (history self ++ review_events strip_time_safely reviews) ;;
     Ok (set_history self h),
     review_log reviews)
  /\ (all_aware (history self) ->
      returns (fst (merge_reviews strip_time_safely self reviews)))
  /\ Forall2 (fun r e => normalize_review strip_time_safely r = Some e)
             (filter kept reviews) (review_events strip_time_safely reviews)
  /\ (forall r hist log,
         let step := review_step strip_time_safely (hist, log) r in
         let appends kind login :=
           step = (hist ++ [review_event strip_time_safely kind login r], log)
         in
         (r_user r = None -> step = (hist, log))
         /\ (r_state r = "PENDING" -> step = (hist, log))
         /\ (forall login,
                r_user r = Some login ->
                ~ In (r_state r) ["COMMENTED"; "CHANGES_REQUESTED"; "APPROVED";
                                  "DISMISSED"; "PENDING"] ->
                step = (hist,
                        log ++ [(ERROR, ("unknown review state "
                                         ++ r_state r)%string)]))
         /\ (forall login,
                r_user r = Some login ->
                (r_state r = "COMMENTED" -> appends "review_comment" login)
                /\ (r_state r = "CHANGES_REQUESTED" ->
                    appends "review_changes_requested" login)
                /\ (r_state r = "APPROVED" -> appends "review_approved" login)
                /\ (r_state r = "DISMISSED" ->
                    appends "review_dismissed" login))
         /\ (forall kind login,
                ev_event (review_event strip_time_safely kind login r) = kind
                /\ ev_actor (review_event strip_time_safely kind login r)
                   = login
                /\ (r_commit_id r = None ->
                    ev_commit_id (review_event strip_time_safely kind login r)
                    = Some None))).
Proof.
  split; [apply merge_reviews_spec |].
  split; [| split; [apply review_events_kept |]].
  - intros Ha. rewrite merge_reviews_spec.
    assert (Hall : all_aware
                     (history self
                      ++ review_events strip_time_safely reviews)).
    { apply Forall_app. split; [assumption |].
      apply (call_events_aware strip_time_safely (MergeReviews reviews)). }
    destruct (sorted_aware _ Hall) as [h Hh].
    exists (set_history self h). simpl. now rewrite Hh.
  - intros r hist log. cbv zeta. unfold review_step.
    split; [now intros -> |].
    split; [intros Hs; destruct (r_user r); [now rewrite Hs | reflexivity] |].
    split; [| split].
    + intros login -> Hnot.
      repeat match goal with
             | |- context [String.eqb (r_state r) ?s] =>
                 destruct (String.eqb_spec (r_state r) s) as [Heq | _];
                 [exfalso; apply Hnot; rewrite Heq; simpl; tauto |]
             end.
      reflexivity.
    + intros login Hu. rewrite Hu.
      repeat split; intros Hs; now rewrite Hs.
    + intros kind login. simpl. repeat split. now intros ->.
Qed.

End ReviewNormaliser.

Lemma merge_reviews_skips_and_maps_witness :
  let parse := fun _ : string => 6%Z in
  let self := wrapper_of [comment_event "bob" 5 "shipit"] in
  let reviews := [mkReview (Some "erin") "APPROVED" 41 "2020-01-01T00:00:06Z"
                           None (Some "looks good");
                  mkReview None "COMMENTED" 42 "2020-01-01T00:00:07Z"
                           None None;
                  mkReview (Some "frank") "WITHDRAWN" 43
                           "2020-01-01T00:00:08Z" None None] in
  all_aware (history self)
  /\ returns (fst (merge_reviews parse self reviews)).
Proof.
  assert (Ha : all_aware (history (wrapper_of [comment_event "bob" 5 "shipit"])))
    by (simpl; repeat constructor).
  split; [exact Ha |].
  exact (proj1 (proj2 (merge_reviews_skips_and_maps
                         (fun _ : string => 6%Z) _ _)) Ha).
Defined.

(** ** Dumping and reloading the cache *)

Lemma has_non_datetime_exists (hist : list event) :
  has_non_datetime hist = true
  <-> exists x, In x hist /\ isinstance_datetime (ev_created_at x) = false.
Proof.
  unfold has_non_datetime. rewrite existsb_exists.
  split; intros [x [Hin Hx]]; exists x; split; try assumption.
  - now apply negb_true_iff.
  - now apply negb_true_iff.
Qed.

Lemma has_non_datetime_forall (hist : list event) :
  has_non_datetime hist = false
  <-> Forall (fun x => isinstance_datetime (ev_created_at x) = true) hist.
Proof.
  unfold has_non_datetime. rewrite Forall_forall. split.
  - intros H x Hin.
    destruct (isinstance_datetime (ev_created_at x)) eqn:Hx; [reflexivity |].
    assert (Hex : existsb
                    (fun x => negb (isinstance_datetime (ev_created_at x)))
                    hist = true).
    { apply existsb_exists. exists x. split; [assumption |]. now rewrite Hx. }
    congruence.
  - intros H.
    destruct (existsb _ hist) eqn:Hex; [| reflexivity].
    apply existsb_exists in Hex. destruct Hex as [x [Hin Hx]].
    rewrite (H x Hin) in Hx. discriminate.
Qed.

(** C3, as stated, fails: a timeline holding a naive datetime is dumped
    without any error, and the naive value is persisted. *)
Lemma dump_accepts_naive_timestamp :
  let x := {| ev_event := "commented"; ev_actor := "bob";
              ev_created_at := Naive 5; ev_id := None;
              ev_body := Some (Some "hi"); ev_label := None;
              ev_commit_id := None; ev_message := None |} in
  let self := wrapper_of [x] in
  ~ (fst (_dump_cache self NoFile) = Raise AssertionError
     <-> exists y, In y (history self) /\ tz_aware (ev_created_at y) = false).
Proof.
  cbv zeta. intros [_ H].
  assert (Hr : fst (_dump_cache
                      (wrapper_of
                         [{| ev_event := "commented"; ev_actor := "bob";
                             ev_created_at := Naive 5; ev_id := None;
                             ev_body := Some (Some "hi"); ev_label := None;
                             ev_commit_id := None; ev_message := None |}])
                      NoFile) = Raise AssertionError).
  { apply H. eexists. split; [left; reflexivity | reflexivity]. }
  discriminate Hr.
Qed.

(** C3, amended.  [_dump_cache] raises the integrity error, and leaves
    the cache file as it was, exactly when some event's ['created_at']
    is not a [datetime] object; otherwise it stores the snapshot made of
    the schema version, [last_updated] and the timeline.  Whether a
    datetime carries a timezone is not looked at. *)
Theorem dump_raises_iff_non_datetime (self : HistoryWrapper) (f : cachefile) :
  (_dump_cache self f = (Raise AssertionError, f)
   <-> exists x, In x (history self)
                 /\ isinstance_datetime (ev_created_at x) = false)
  /\ (_dump_cache self f
      = (Ok tt, Pickled (PyDict {| c_version := Some SCHEMA_VERSION;
                                   c_updated_at := Some (last_updated self);
                                   c_history := Some (history self) |}))
      <-> Forall (fun x => isinstance_datetime (ev_created_at x) = true)
                 (history self))
  /\ (forall e, fst (_dump_cache self f) = Raise e -> e = AssertionError).
Proof.
  unfold _dump_cache.
  rewrite <- has_non_datetime_exists, <- has_non_datetime_forall.
  destruct (has_non_datetime (history self)); simpl.
  - split; [tauto |]. split; [split; discriminate |].
    now intros e [= <-].
  - split; [split; discriminate |]. split; [tauto |]. discriminate.
Qed.

Lemma schema_version_nonzero : ~ (SCHEMA_VERSION == 0)%Q.
Proof. unfold Qeq. simpl. discriminate. Qed.

(** C4, as stated, fails: with one comment and one current label, the
    snapshot just dumped is rejected by the completeness floor. *)
Lemma dumped_snapshot_can_be_invalid :
  let self := {| labels := ["bug"]; last_updated := 7%Z;
                 history := [comment_event "bob" 5 "shipit"] |} in
  all_aware (history self)
  /\ validate_cache self (_load_cache (snd (_dump_cache self NoFile)))
     = Ok false.
Proof.
  split; [repeat constructor | reflexivity].
Qed.

(** C4, amended.  Dumping a tz-aware timeline and loading the file
    yields the snapshot with the schema version, [last_updated] and the
    identical event sequence.  The shape, version and freshness rules
    pass on it; it passes [validate_cache] exactly when the timeline
    also meets the completeness floor and the [needs_info] guard for
    the current labels. *)
Theorem dump_then_load (self : HistoryWrapper) (f : cachefile) :
  all_aware (history self) ->
  labels_recorded (history self) ->
  let cache := _load_cache (snd (_dump_cache self f)) in
  let rules45 :=
    commented_count (history self) + List.length (labels self)
    <= List.length (history self)
    /\ (In "needs_info" (labels self) ->
        exists x, In x (history self) /\ ev_event x = "labeled"
                  /\ ev_label x = Some "needs_info") in
  fst (_dump_cache self f) = Ok tt
  /\ cache = PyDict {| c_version := Some SCHEMA_VERSION;
                       c_updated_at := Some (last_updated self);
                       c_history := Some (history self) |}
  /\ getitem_history cache = Ok (history self)
  /\ (validate_cache self cache = Ok true <-> rules45)
  /\ (validate_cache self cache = Ok false <-> ~ rules45).
Proof.
  intros Ha Hwf. cbv zeta. unfold _dump_cache.
  rewrite (all_aware_datetimes _ Ha). cbn [fst snd _load_cache].
  split; [reflexivity |]. split; [reflexivity |]. split; [reflexivity |].
  set (cache := PyDict {| c_version := Some SCHEMA_VERSION;
                          c_updated_at := Some (last_updated self);
                          c_history := Some (history self) |}).
  assert (Hrules :
            snapshot_valid (labels self) (last_updated self) cache
            <-> commented_count (history self) + List.length (labels self)
                <= List.length (history self)
                /\ (In "needs_info" (labels self) ->
                    exists x, In x (history self) /\ ev_event x = "labeled"
                              /\ ev_label x = Some "needs_info")).
  { split.
    - intros (d & h & u & v & Hd & Hh & _ & _ & _ & _ & _ & Hfloor & Hni).
      injection Hd as <-. simpl in Hh. injection Hh as <-. now split.
    - intros [Hfloor Hni].
      exists {| c_version := Some SCHEMA_VERSION;
                c_updated_at := Some (last_updated self);
                c_history := Some (history self) |},
        (history self), (last_updated self), SCHEMA_VERSION.
      repeat split; try assumption.
      + apply schema_version_nonzero.
      + apply Qle_refl.
      + lia. }
  destruct (validate_cache_decides self cache Hwf) as [b [Hb Hiff]].
  rewrite Hb, <- Hrules. split; split.
  - intros [= ->]. now apply Hiff.
  - intros H. apply Hiff in H. now subst.
  - intros [= ->] Hv. apply Hiff in Hv. discriminate.
  - intros H. destruct b; [| reflexivity]. exfalso. apply H. now apply Hiff.
Qed.

Lemma dump_then_load_witness :
  let self := {| labels := ["bug"]; last_updated := 7%Z;
                 history := [label_event "alice" 3 "bug";
                             comment_event "bob" 5 "shipit"] |} in
  all_aware (history self)
  /\ labels_recorded (history self)
  /\ getitem_history (_load_cache (snd (_dump_cache self NoFile)))
     = Ok (history self).
Proof.
  assert (Ha : all_aware [label_event "alice" 3 "bug";
                          comment_event "bob" 5 "shipit"])
    by (repeat constructor).
  assert (Hwf : labels_recorded [label_event "alice" 3 "bug";
                                 comment_event "bob" 5 "shipit"])
    by (intros x [<- | [<- | []]]; simpl; discriminate).
  split; [exact Ha |]. split; [exact Hwf |].
  exact (proj1 (proj2 (proj2
           (dump_then_load
              {| labels := ["bug"]; last_updated := 7%Z;
                 history := [label_event "alice" 3 "bug";
                             comment_event "bob" 5 "shipit"] |}
              NoFile Ha Hwf)))).
Defined.

(** ** The actor scan *)

Lemma find_loop_spec (eventname : option string) (actor : option container)
    (maxcount : Z) (hist : list event) :
  (1 <= maxcount)%Z ->
  forall matching_events : list event,
    List.length matching_events < Z.to_nat maxcount ->
    find_loop eventname actor maxcount hist matching_events
    = firstn (Z.to_nat maxcount)
             (matching_events ++ filter (selects eventname actor) hist).
Proof.
  intros Hmax.
  induction hist as [| ev rest IH]; intros acc Hacc; simpl.
  - rewrite app_nil_r. symmetry. apply firstn_all2. lia.
  - unfold selects at 1.
    destruct (kind_matches eventname ev); simpl; [| now apply IH].
    assert (Hkeep : (Z.of_nat (List.length acc) =? maxcount)%Z = false)
      by (apply Z.eqb_neq; lia).
    assert (Htake :
              (if (Z.of_nat (List.length (acc ++ [ev])) =? maxcount)%Z
               then acc ++ [ev]
               else find_loop eventname actor maxcount rest (acc ++ [ev]))
              = firstn (Z.to_nat maxcount)
                       (acc ++ ev :: filter (selects eventname actor) rest)).
    { replace (acc ++ ev :: filter (selects eventname actor) rest)
        with ((acc ++ [ev]) ++ filter (selects eventname actor) rest)
        by (now rewrite <- app_assoc).
      destruct (Z.eqb_spec (Z.of_nat (List.length (acc ++ [ev]))) maxcount)
        as [Heq | Hne].
      - rewrite firstn_app.
        replace (Z.to_nat maxcount - List.length (acc ++ [ev])) with 0
          by lia.
        rewrite firstn_O, app_nil_r. symmetry. apply firstn_all2. lia.
      - apply IH. rewrite length_app in *. simpl in *. lia. }
    destruct actor as [c |]; [| exact Htake].
    destruct (py_in (ev_actor ev) c); [exact Htake |].
    rewrite Hkeep. now apply IH.
Qed.

(** For a limit of at least one, the scan returns the first [maxcount]
    events that pass its test, in timeline order. *)
Lemma find_events_by_actor_spec (self : HistoryWrapper)
    (eventname : option string) (actor : actor_arg) (maxcount : Z) :
  (1 <= maxcount)%Z ->
  _find_events_by_actor self eventname actor maxcount
  = firstn (Z.to_nat maxcount)
           (filter (selects eventname (wrap_actor actor)) (history self)).
Proof.
  intros Hmax. unfold _find_events_by_actor.
  rewrite find_loop_spec; [reflexivity | assumption | simpl; lia].
Qed.

(** On [None] and on a list of identities the scan applies the test of
    the specification. *)
Lemma selects_collection (eventname : option string) (actor : actor_arg)
    (ev : event) :
  (actor = ActorNone \/ exists l, actor = ActorList l) ->
  selects eventname (wrap_actor actor) ev
  = selected_by_spec eventname actor ev.
Proof.
  intros [-> | [l ->]]; reflexivity.
Qed.

Lemma in_firstn {A : Type} (n : nat) (l : list A) (x : A) :
  In x (firstn n l) -> In x l.
Proof.
  intros H. rewrite <- (firstn_skipn n l). apply in_or_app. now left.
Qed.

Lemma scanned_events (self : HistoryWrapper) (eventname : option string)
    (actor : actor_arg) (maxcount : Z) (x : event) :
  (1 <= maxcount)%Z ->
  In x (_find_events_by_actor self eventname actor maxcount) ->
  In x (history self) /\ kind_matches eventname x = true.
Proof.
  intros Hmax Hin. rewrite find_events_by_actor_spec in Hin by assumption.
  apply in_firstn, filter_In in Hin. destruct Hin as [Hin Hsel].
  unfold selects in Hsel. apply andb_true_iff in Hsel. tauto.
Qed.

(** C5.  With a single identity string as the filter the scan does not
    compare the actor with it: a [str] is a [Sequence], so it is not
    wrapped into a list and [in] tests whether the actor is a substring
    of the filter.  With ['bob'] as the filter, an ['assigned'] event
    whose actor is ['bo'] is selected and [was_assigned] answers [True],
    while the specification's test rejects that event. *)
Theorem single_identity_matches_substring :
  (forall eventname s ev,
      selects eventname (wrap_actor (ActorStr s)) ev
      = kind_matches eventname ev && PyStr.contains (ev_actor ev) s)
  /\ let ev := plain_event "assigned" "bo" 1 in
     let self := wrapper_of [ev] in
     _find_events_by_actor self (Some "assigned") (ActorStr "bob") 1 = [ev]
     /\ was_assigned self (ActorStr "bob") = true
     /\ ev_actor ev <> "bob"
     /\ selected_by_spec (Some "assigned") (ActorStr "bob") ev = false.
Proof.
  split; [reflexivity |].
  cbv zeta. repeat split. simpl. discriminate.
Qed.

(** ** [command_status] *)

Lemma find_append {A : Type} (p : A -> bool) (l1 l2 : list A) :
  find p (l1 ++ l2)
  = match find p l1 with
    | Some x => Some x
    | None => find p l2
    end.
Proof.
  induction l1 as [| a l1 IH]; simpl; [reflexivity |].
  now destruct (p a).
Qed.

Lemma command_status_loop_spec (command : string) (hist : list event) :
  bodies_are_text hist ->
  forall status,
    command_status_loop command hist status
    = Ok match command_status_spec PyStr.strip command hist with
         | Some b => Some b
         | None => status
         end.
Proof.
  unfold command_status_spec.
  induction hist as [| x rest IH]; intros Htext status; [reflexivity |].
  assert (Hrest : bodies_are_text rest)
    by (intros y Hy; apply Htext; now right).
  assert (Hx : ev_body x <> Some None) by (apply Htext; now left).
  unfold bodies in *. cbn [flat_map command_status_loop].
  rewrite rev_app_distr, find_append.
  unfold body_text, getitem_body, get_body.
  destruct (ev_body x) as [[b |] |]; simpl.
  - destruct (String.eqb (PyStr.strip b) command) eqn:Hc; simpl.
    + rewrite (IH Hrest).
      destruct (find _ (rev _)); simpl; rewrite ?Hc; reflexivity.
    + destruct (String.eqb (PyStr.strip b) (String "!"%char command)) eqn:Hn;
        simpl; rewrite (IH Hrest);
        destruct (find _ (rev _)); simpl; rewrite ?Hc, ?Hn; reflexivity.
  - congruence.
  - rewrite (IH Hrest). now destruct (find _ (rev _)).
Qed.

(** C7, as stated, fails: a body with surrounding whitespace is not
    equal to the command, yet it sets the status. *)
Lemma command_status_strips_bodies :
  let self := wrapper_of [comment_event "bob" 5 "shipit "] in
  command_status self "shipit" = Ok (Some true)
  /\ command_status_spec (fun b => b) "shipit" (history self) = None.
Proof. split; reflexivity. Qed.

Lemma command_status_loop_text (command : string) (hist : list event) :
  forall status r,
    command_status_loop command hist status = Ok r -> bodies_are_text hist.
Proof.
  induction hist as [| x rest IH]; intros status r H y Hy;
    [contradiction |].
  cbn [command_status_loop] in H. unfold body_text, getitem_body in H.
  destruct Hy as [<- | Hy].
  - destruct (ev_body x) as [[b |] |]; simpl in H; congruence.
  - destruct (ev_body x) as [[b |] |]; simpl in H; try discriminate.
    + destruct (String.eqb (PyStr.strip b) command);
        [| destruct (String.eqb (PyStr.strip b) (String "!"%char command))];
        now apply (IH _ _ H).
    + now apply (IH _ _ H).
Qed.

(** C7, amended.  [command_status c] scans the events that carry a body
    in timeline order and answers by the last body that, stripped of
    leading and trailing whitespace, equals [c] or ['!' + c]: [True] for
    [c], [False] for the negation, [None] when there is no such body.
    It returns exactly on the timelines in which every body is text. *)
Theorem command_status_last_wins (self : HistoryWrapper) (command : string) :
  (bodies_are_text (history self) ->
   command_status self command
   = Ok (command_status_spec PyStr.strip command (history self)))
  /\ (forall r,
         command_status self command = Ok r ->
         bodies_are_text (history self)
         /\ r = command_status_spec PyStr.strip command (history self)).
Proof.
  assert (Hspec : bodies_are_text (history self) ->
                  command_status self command
                  = Ok (command_status_spec PyStr.strip command
                                            (history self))).
  { intros Htext. unfold command_status.
    rewrite (command_status_loop_spec command (history self) Htext).
    now destruct (command_status_spec PyStr.strip command (history self)). }
  split; [exact Hspec |].
  intros r Hr.
  assert (Htext : bodies_are_text (history self))
    by exact (command_status_loop_text command (history self) None r Hr).
  split; [exact Htext |]. rewrite (Hspec Htext) in Hr. congruence.
Qed.

Lemma command_status_last_wins_witness :
  let self := wrapper_of [comment_event "bob" 5 "shipit";
                          plain_event "assigned" "carol" 6;
                          comment_event "bob" 7 " !shipit "] in
  bodies_are_text (history self)
  /\ command_status self "shipit" = Ok (Some false).
Proof.
  assert (Htext : bodies_are_text
                    [comment_event "bob" 5 "shipit";
                     plain_event "assigned" "carol" 6;
                     comment_event "bob" 7 " !shipit "])
    by (intros x [<- | [<- | [<- | []]]]; simpl; discriminate).
  split; [exact Htext |].
  exact (proj1 (command_status_last_wins
                  (wrapper_of [comment_event "bob" 5 "shipit";
                               plain_event "assigned" "carol" 6;
                               comment_event "bob" 7 " !shipit "])
                  "shipit") Htext).
Defined.

(** ** [search_user_comments] *)

Lemma search_bodies_spec (searchterm : string) (l : list event) :
  (forall x, In x l -> exists s, ev_body x = Some (Some s)) ->
  search_bodies searchterm l
  = Ok (filter (matches_lowered_body searchterm) (bodies l)).
Proof.
  induction l as [| x rest IH]; intros Htext; [reflexivity |].
  destruct (Htext x (or_introl eq_refl)) as [s Hs].
  assert (Hrest : forall y, In y rest -> exists s, ev_body y = Some (Some s))
    by (intros y Hy; apply Htext; now right).
  unfold bodies in *. cbn [search_bodies flat_map].
  unfold body_text, getitem_body, get_body. rewrite Hs. simpl.
  rewrite (IH Hrest). reflexivity.
Qed.

Lemma scanned_comments_have_text (self : HistoryWrapper)
    (username : actor_arg) :
  comments_have_text (history self) ->
  forall x,
    In x (_find_events_by_actor self (Some "commented") username 999) ->
    exists s, ev_body x = Some (Some s).
Proof.
  intros Htext x Hin.
  apply scanned_events in Hin; [| lia]. destruct Hin as [Hin Hkind].
  apply (Htext x Hin). simpl in Hkind. rewrite orb_false_r in Hkind.
  now apply String.eqb_eq.
Qed.

Lemma lower_char_idempotent (c : ascii) :
  PyStr.lower_char (PyStr.lower_char c) = PyStr.lower_char c.
Proof.
  destruct c as [[] [] [] [] [] [] [] []]; reflexivity.
Qed.

Lemma lower_idempotent (s : string) :
  PyStr.lower (PyStr.lower s) = PyStr.lower s.
Proof.
  induction s as [| c r IH]; simpl; [reflexivity |].
  now rewrite lower_char_idempotent, IH.
Qed.

Lemma prefix_of_lowered (t b : string) :
  prefix t (PyStr.lower b) = true -> PyStr.lower t = t.
Proof.
  revert b. induction t as [| c t IH]; intros b H; [reflexivity |].
  destruct b as [| c0 b]; simpl in H; [discriminate |].
  destruct (ascii_dec c (PyStr.lower_char c0)) as [-> |]; [| discriminate].
  simpl. now rewrite lower_char_idempotent, (IH b H).
Qed.

(** Only a term that is its own lower-case form occurs in a lower-cased
    body. *)
Lemma contains_in_lowered (t b : string) :
  PyStr.contains t (PyStr.lower b) = true -> PyStr.lower t = t.
Proof.
  induction b as [| c0 b IH]; cbn [PyStr.lower PyStr.contains]; intros H;
    apply orb_true_iff in H; destruct H as [H | H].
  - now apply (prefix_of_lowered t "").
  - discriminate.
  - now apply (prefix_of_lowered t (String c0 b)).
  - now apply IH.
Qed.

(** C8, as stated, fails.  The term is compared as given, so a term
    with a capital letter finds nothing in the lower-cased body; and
    only the first 999 comments of the user are searched, so a later
    comment of that user that holds the term is not returned. *)
Lemma search_depends_on_term_case :
  (let self := wrapper_of [comment_event "bob" 5 "Hello World"] in
   let username := ActorList ["bob"] in
   search_user_comments self username "Hello" = Ok []
   /\ filter (matches_ignoring_case "Hello")
             (bodies (filter (selected_by_spec (Some "commented") username)
                             (history self)))
      = ["Hello World"])
  /\ (let self :=
        wrapper_of (padded_history 999 (comment_event "bob" 1 "a")
                                   (comment_event "bob" 2 "needle")) in
      let username := ActorList ["bob"] in
      search_user_comments self username "needle" = Ok []
      /\ filter (matches_ignoring_case "needle")
                (bodies (filter (selected_by_spec (Some "commented")
                                                  username)
                                (history self)))
         = ["needle"]).
Proof.
  split; [split; reflexivity |].
  split; vm_compute; reflexivity.
Qed.

(** C8, amended.  For every user given as a list of identities (or as
    [None], for any user), every search term and every timeline whose
    comments have text bodies, [search_user_comments] returns exactly
    the bodies of that user's comment events, of the first 999 of them,
    whose lower-cased body contains the term as given.  The match does
    not depend on the letter case of the body; the term is not
    case-folded, so a term that holds an upper-case letter matches
    nothing. *)
Theorem search_user_comments_spec (self : HistoryWrapper)
    (username : actor_arg) (searchterm : string) :
  (username = ActorNone \/ exists l, username = ActorList l) ->
  comments_have_text (history self) ->
  let theirs :=
    firstn 999 (filter (selected_by_spec (Some "commented") username)
                       (history self)) in
  search_user_comments self username searchterm
  = Ok (filter (matches_lowered_body searchterm) (bodies theirs))
  /\ (forall b1 b2,
         PyStr.lower b1 = PyStr.lower b2 ->
         matches_lowered_body searchterm b1
         = matches_lowered_body searchterm b2)
  /\ (PyStr.lower searchterm <> searchterm ->
      search_user_comments self username searchterm = Ok []).
Proof.
  intros Huser Htext theirs.
  assert (Hscan : _find_events_by_actor self (Some "commented") username 999
                  = theirs).
  { unfold theirs. rewrite find_events_by_actor_spec by lia.
    change (Z.to_nat 999) with 999. f_equal.
    apply filter_ext. intros x. now apply selects_collection. }
  assert (Hresult : search_user_comments self username searchterm
                    = Ok (filter (matches_lowered_body searchterm)
                                 (bodies theirs))).
  { unfold search_user_comments. rewrite <- Hscan.
    apply search_bodies_spec. intros x Hx.
    now apply (scanned_comments_have_text self username Htext). }
  split; [exact Hresult |]. split.
  - intros b1 b2 Hb. unfold matches_lowered_body. now rewrite Hb.
  - intros Hupper. rewrite Hresult. f_equal. clear Hresult.
    induction (bodies theirs) as [| b rest IH]; [reflexivity |].
    cbn [filter]. rewrite IH.
    destruct (matches_lowered_body searchterm b) eqn:Hm; [| reflexivity].
    apply contains_in_lowered in Hm. contradiction.
Qed.

Lemma search_user_comments_spec_witness :
  let self := wrapper_of [comment_event "bob" 5 "Hello World";
                          comment_event "carol" 6 "hello";
                          comment_event "bob" 7 "bye"] in
  (ActorList ["bob"] = ActorNone
   \/ exists l, ActorList ["bob"] = ActorList l)
  /\ comments_have_text (history self)
  /\ search_user_comments self (ActorList ["bob"]) "hello"
     = Ok ["Hello World"].
Proof.
  assert (Huser : ActorList ["bob"] = ActorNone
                  \/ exists l, ActorList ["bob"] = ActorList l)
    by (right; now exists ["bob"]).
  assert (Htext : comments_have_text
                    [comment_event "bob" 5 "Hello World";
                     comment_event "carol" 6 "hello";
                     comment_event "bob" 7 "bye"])
    by (intros x [<- | [<- | [<- | []]]] _; eexists; reflexivity).
  split; [exact Huser |]. split; [exact Htext |].
  exact (proj1 (search_user_comments_spec
                  (wrapper_of [comment_event "bob" 5 "Hello World";
                               comment_event "carol" 6 "hello";
                               comment_event "bob" 7 "bye"])
                  (ActorList ["bob"]) "hello" Huser Htext)).
Defined.

(** ** [last_comment] *)

Lemma last_comment_loop_spec (username : username_arg) (l : list event) :
  (forall x, In x l -> ev_event x = "commented" ->
             exists s, ev_body x = Some (Some s)) ->
  forall last_comment,
    truthy_body last_comment = false ->
    last_comment_loop username l last_comment
    = Ok match find (fun x => by_user username x && truthy_body (get_body x))
                    l with
         | Some x => get_body x
         | None => if existsb (by_user username) l
                   then Some "" else last_comment
         end.
Proof.
  induction l as [| x rest IH]; intros Htext lc Hlc; [reflexivity |].
  assert (Hrest : forall y, In y rest -> ev_event y = "commented" ->
                            exists s, ev_body y = Some (Some s))
    by (intros y Hy; apply Htext; now right).
  assert (Hbody : by_user username x = true ->
                  exists s, ev_body x = Some (Some s)).
  { intros Hu. apply (Htext x (or_introl eq_refl)).
    unfold by_user in Hu. apply andb_true_iff in Hu.
    now apply is_event_true. }
  assert (Hskip : by_user username x = false ->
                  (if is_event "commented" x then
                     match username with
                     | UserList l0 =>
                         if in_str_list (ev_actor x) l0
                         then getitem_body x else Ok lc
                     | UserStr s =>
                         if String.eqb (ev_actor x) s
                         then getitem_body x else Ok lc
                     end
                   else Ok lc) = Ok lc).
  { unfold by_user. destruct (is_event "commented" x); [| reflexivity].
    simpl. destruct username as [s | l0]; now intros ->. }
  assert (Htake : by_user username x = true ->
                  (if is_event "commented" x then
                     match username with
                     | UserList l0 =>
                         if in_str_list (ev_actor x) l0
                         then getitem_body x else Ok lc
                     | UserStr s =>
                         if String.eqb (ev_actor x) s
                         then getitem_body x else Ok lc
                     end
                   else Ok lc) = getitem_body x).
  { unfold by_user. destruct (is_event "commented" x); [| discriminate].
    simpl. destruct username as [s | l0]; now intros ->. }
  cbn [last_comment_loop find existsb].
  destruct (by_user username x) eqn:Hu.
  - rewrite (Htake eq_refl). destruct (Hbody eq_refl) as [s Hs].
    unfold getitem_body, get_body. rewrite Hs. simpl.
    destruct (PyStr.truthy s) eqn:Ht;
      [simpl; unfold get_body; now rewrite Hs |].
    rewrite (IH Hrest (Some s)) by exact Ht.
    destruct s; [| discriminate].
    destruct (find _ rest); [reflexivity |].
    now destruct (existsb (by_user username) rest).
  - rewrite (Hskip eq_refl). simpl. rewrite Hlc.
    now rewrite (IH Hrest lc Hlc).
Qed.

Lemma existsb_rev {A : Type} (p : A -> bool) (l : list A) :
  existsb p (rev l) = existsb p l.
Proof.
  destruct (existsb p l) eqn:H.
  - apply existsb_exists in H. destruct H as [x [Hin Hp]].
    apply existsb_exists. exists x. split; [now apply in_rev in Hin |].
    assumption.
  - destruct (existsb p (rev l)) eqn:Hr; [| reflexivity].
    apply existsb_exists in Hr. destruct Hr as [x [Hin Hp]].
    apply in_rev in Hin.
    assert (Hex : existsb p l = true)
      by (apply existsb_exists; now exists x).
    congruence.
Qed.

(** C9, as stated, fails: when the actor's last comment has an empty
    body the reverse scan does not stop there and returns the body of an
    earlier comment. *)
Lemma last_comment_skips_empty_body :
  let self := wrapper_of [comment_event "bob" 5 "hello";
                          comment_event "bob" 7 ""] in
  last_comment self (UserStr "bob") = Ok (Some "hello")
  /\ last_comment_spec (UserStr "bob") (history self) = Some "".
Proof. split; reflexivity. Qed.

(** C9, amended.  Over a timeline whose comments have text bodies,
    [last_comment] returns the body of the chronologically last comment
    by the actor (or by one of the listed actors) whose body is not
    empty: the reverse scan stops at the first matching comment with a
    non-empty body.  It returns the empty string when the actor only
    wrote empty comments and [None] when the actor never commented. *)
Theorem last_comment_returns_last_nonempty (self : HistoryWrapper)
    (username : username_arg) :
  comments_have_text (history self) ->
  last_comment self username
  = Ok (last_nonempty_comment username (history self))
  /\ (existsb (by_user username) (history self) = false ->
      last_comment self username = Ok None).
Proof.
  intros Htext.
  assert (Hspec : last_comment self username
                  = Ok (last_nonempty_comment username (history self))).
  { unfold last_comment, last_nonempty_comment.
    rewrite last_comment_loop_spec; [| | reflexivity].
    - now rewrite existsb_rev.
    - intros x Hx. apply Htext. now apply in_rev. }
  split; [exact Hspec |].
  intros Hnone. rewrite Hspec. unfold last_nonempty_comment. rewrite Hnone.
  destruct (find _ (rev (history self))) as [x |] eqn:Hf; [| reflexivity].
  apply find_some in Hf. destruct Hf as [Hin Hx].
  apply andb_true_iff in Hx. destruct Hx as [Hu _].
  assert (Hex : existsb (by_user username) (history self) = true).
  { apply existsb_exists. exists x. split; [now apply in_rev | assumption]. }
  congruence.
Qed.

Lemma last_comment_returns_last_nonempty_witness :
  let self := wrapper_of [comment_event "bob" 5 "first";
                          comment_event "carol" 6 "hello";
                          comment_event "bob" 7 "second";
                          label_event "bob" 8 "bug"] in
  comments_have_text (history self)
  /\ last_comment self (UserStr "bob") = Ok (Some "second").
Proof.
  assert (Htext : comments_have_text
                    [comment_event "bob" 5 "first";
                     comment_event "carol" 6 "hello";
                     comment_event "bob" 7 "second";
                     label_event "bob" 8 "bug"]).
  { intros x [<- | [<- | [<- | [<- | []]]]] Hk;
      first [eexists; reflexivity | discriminate Hk]. }
  split; [exact Htext |].
  exact (proj1 (last_comment_returns_last_nonempty
                  (wrapper_of [comment_event "bob" 5 "first";
                               comment_event "carol" 6 "hello";
                               comment_event "bob" 7 "second";
                               label_event "bob" 8 "bug"])
                  (UserStr "bob") Htext)).
Defined.

(** ** [get_boilerplate_comments] *)

Lemma marker_in_nonempty (body : string) :
  PyStr.contains marker body = true -> PyStr.truthy body = true.
Proof. destruct body; [discriminate | reflexivity]. Qed.

Lemma getitem_short {A : Type} (l : list A) (i : nat) :
  List.length l <= i -> getitem l i = Raise IndexError.
Proof.
  intros H. unfold getitem. now rewrite (proj2 (nth_error_None l i) H).
Qed.

Lemma getitem_long {A : Type} (l : list A) (i : nat) :
  i < List.length l -> exists a, getitem l i = Ok a.
Proof.
  intros H. unfold getitem.
  destruct (nth_error l i) as [a |] eqn:Hn; [now exists a |].
  apply nth_error_None in Hn. lia.
Qed.

(** The loop raises [IndexError] as soon as one of the comments lacks
    the name, and returns otherwise. *)
Lemma boilerplate_loop_outcome (dates content : bool)
    (comments : list event) :
  forall boilerplates,
    match boilerplate_loop dates content comments boilerplates with
    | Ok _ => existsb lacks_name comments = false
    | Raise e => e = IndexError /\ existsb lacks_name comments = true
    end.
Proof.
  induction comments as [| x rest IH]; intros acc; [reflexivity |].
  cbn [boilerplate_loop existsb]. unfold lacks_name at 1 3.
  destruct (get_body x) as [body |]; [| apply IH].
  destruct (PyStr.truthy body) eqn:Ht; simpl.
  2: { destruct body; [| discriminate]. apply IH. }
  destruct (PyStr.contains marker body) eqn:Hm; simpl; [| apply IH].
  unfold marker_tokens, marker_line.
  destruct (marker_lines body) as [| line lines]; simpl.
  - now split.
  - destruct (Nat.ltb_spec (List.length (PyStr.split line)) 3) as [Hlt | Hge].
    + rewrite getitem_short by lia. simpl. now split.
    + destruct (getitem_long (PyStr.split line) 2) as [bp ->]; [lia |].
      simpl. apply IH.
Qed.

(** C10, as stated, fails: a bot comment that lies beyond the 999
    comments the scan returns is never looked at, so the call returns
    although that comment's marker line has only two tokens. *)
Lemma boilerplate_beyond_scan_limit :
  let bad := comment_event "ansibot" 2 "boilerplate: x" in
  let self :=
    wrapper_of (padded_history 999 (comment_event "ansibot" 1 "ok") bad) in
  In bad (history self)
  /\ bot_comment ["ansibot"] bad = true
  /\ lacks_name bad = true
  /\ get_boilerplate_comments ["ansibot"] self false true = Ok [].
Proof.
  cbv zeta. split; [| split; [| split]].
  - unfold wrapper_of, padded_history. cbn [history].
    apply in_or_app. right. now left.
  - reflexivity.
  - reflexivity.
  - vm_compute. reflexivity.
Qed.

Section Boilerplate.

Variable DEFAULT_BOT_NAMES : list string.

(** C10, amended.  For every bot comment among those the scan returns
    (the first 999 comments by a bot identity) whose body holds the
    marker, [get_boilerplate_comments] returns only if the first
    non-blank marker line of that body has at least three
    whitespace-delimited tokens; when that line has fewer, taking the
    name is an out-of-range index and the call raises [IndexError].
    The call returns exactly when no scanned comment is of that
    kind. *)
Theorem boilerplate_name_needs_three_tokens (self : HistoryWrapper)
    (dates content : bool) (x : event) (body : string) :
  let scanned :=
    _find_events_by_actor self (Some "commented")
                          (ActorList DEFAULT_BOT_NAMES) 999 in
  let call := get_boilerplate_comments DEFAULT_BOT_NAMES self dates content in
  In x scanned ->
  get_body x = Some body ->
  PyStr.contains marker body = true ->
  (List.length (marker_tokens body) < 3 -> call = Raise IndexError)
  /\ (returns call -> 3 <= List.length (marker_tokens body))
  /\ (returns call <-> existsb lacks_name scanned = false)
  /\ scanned
     = firstn 999 (filter (bot_comment DEFAULT_BOT_NAMES) (history self)).
Proof.
  intros scanned call Hin Hbody Hmarker.
  assert (Hout := boilerplate_loop_outcome dates content scanned []).
  fold scanned in Hout.
  change (boilerplate_loop dates content scanned []) with call in Hout.
  assert (Hbad : List.length (marker_tokens body) < 3 ->
                 existsb lacks_name scanned = true).
  { intros Hlt. apply existsb_exists. exists x. split; [assumption |].
    unfold lacks_name. rewrite Hbody, Hmarker. simpl.
    now apply Nat.ltb_lt. }
  split; [| split; [| split]].
  - intros Hlt. specialize (Hbad Hlt).
    destruct call as [r | e]; [congruence |]. now destruct Hout as [-> _].
  - intros [r Hr]. rewrite Hr in Hout.
    destruct (Nat.lt_ge_cases (List.length (marker_tokens body)) 3)
      as [Hlt | Hge]; [| exact Hge].
    specialize (Hbad Hlt). congruence.
  - split.
    + intros [r Hr]. now rewrite Hr in Hout.
    + intros Hnone. destruct call as [r | e]; [now exists r |].
      destruct Hout as [_ Hout]. congruence.
  - unfold scanned. rewrite find_events_by_actor_spec by lia.
    f_equal. apply filter_ext. intros y.
    unfold selects, bot_comment, is_event. simpl. now rewrite orb_false_r.
Qed.

End Boilerplate.

Lemma boilerplate_name_needs_three_tokens_witness :
  let x := comment_event "ansibot" 2 "<!--- boilerplate: needs_info --->" in
  let y := comment_event "ansibot" 3 "boilerplate: x" in
  let self := wrapper_of [comment_event "bob" 1 "hi"; x; y] in
  In y (_find_events_by_actor self (Some "commented")
                              (ActorList ["ansibot"]) 999)
  /\ get_body y = Some "boilerplate: x"
  /\ PyStr.contains marker "boilerplate: x" = true
  /\ List.length (marker_tokens "boilerplate: x") < 3
  /\ get_boilerplate_comments ["ansibot"] self true true = Raise IndexError.
Proof.
  assert (Hin : In (comment_event "ansibot" 3 "boilerplate: x")
                   (_find_events_by_actor
                      (wrapper_of
                         [comment_event "bob" 1 "hi";
                          comment_event "ansibot" 2
                                        "<!--- boilerplate: needs_info --->";
                          comment_event "ansibot" 3 "boilerplate: x"])
                      (Some "commented") (ActorList ["ansibot"]) 999))
    by (simpl; tauto).
  assert (Hlt : List.length (marker_tokens "boilerplate: x") < 3)
    by (vm_compute; lia).
  split; [exact Hin |]. split; [reflexivity |]. split; [reflexivity |].
  split; [exact Hlt |].
  exact (proj1 (boilerplate_name_needs_three_tokens
                  ["ansibot"] _ true true _ "boilerplate: x"
                  Hin eq_refl eq_refl) Hlt).
Defined.

(* ================================================================= *)
(** * Further properties of the wrapper *)

(** ** Reverse scans for a label *)

Lemma find_rev_split {A : Type} (p : A -> bool) (l : list A) (e : A) :
  find p (rev l) = Some e ->
  exists l1 l2, l = l1 ++ e :: l2 /\ p e = true
                /\ forall y, In y l2 -> p y = false.
Proof.
  induction l as [| a l IH] using rev_ind; [discriminate |].
  rewrite rev_app_distr. simpl.
  destruct (p a) eqn:Hp.
  - intros [= <-]. exists l, []. repeat split; [assumption | contradiction].
  - intros Hf. destruct (IH Hf) as (l1 & l2 & -> & He & Hl2).
    exists l1, (l2 ++ [a]). rewrite <- app_assoc. repeat split; try assumption.
    intros y Hy. apply in_app_or in Hy. destruct Hy as [Hy | [<- | []]];
      [now apply Hl2 | assumption].
Qed.

Lemma find_rev_none {A : Type} (p : A -> bool) (l : list A) :
  find p (rev l) = None -> forall x, In x l -> p x = false.
Proof.
  intros Hf x Hx. apply (find_none _ _ Hf). now apply in_rev in Hx.
Qed.

Lemma strongly_sorted_before {A : Type} (R : A -> A -> Prop)
    (l1 l2 : list A) (e : A) :
  StronglySorted R (l1 ++ e :: l2) -> forall y, In y l1 -> R y e.
Proof.
  induction l1 as [| a l1 IH]; simpl; intros Hs y Hy; [contradiction |].
  inversion Hs as [| ? ? Hrest Hall]; subst.
  destruct Hy as [<- | Hy]; [| now apply IH].
  rewrite Forall_forall in Hall. apply Hall, in_or_app. right. now left.
Qed.

Lemma time_lt_self (a : pytime) : time_lt a a = Ok false.
Proof.
  destruct a as [x | x | x]; simpl; f_equal.
  - apply Z.ltb_irrefl.
  - apply Z.ltb_irrefl.
  - unfold String.ltb. now rewrite string_compare_refl.
Qed.

(** In a non-decreasing timeline nothing that passes [p] is later than
    the last event that passes [p]. *)
Lemma last_match_is_latest (p : event -> bool) (hist : list event)
    (e : event) :
  nondecreasing hist ->
  find p (rev hist) = Some e ->
  forall x, In x hist -> p x = true ->
            time_lt (ev_created_at e) (ev_created_at x) = Ok false.
Proof.
  intros Hs Hf x Hx Hp.
  destruct (find_rev_split p hist e Hf) as (l1 & l2 & -> & He & Hl2).
  apply in_app_or in Hx. destruct Hx as [Hx | [<- | Hx]].
  - exact (strongly_sorted_before not_after l1 l2 e Hs x Hx).
  - apply time_lt_self.
  - rewrite (Hl2 x Hx) in Hp. discriminate.
Qed.

Lemma label_last_loop_sound (kind label : string) (l : list event)
    (r : option pytime) :
  label_last_loop kind label l = Ok r ->
  r = option_map ev_created_at (find (label_change kind label) l).
Proof.
  induction l as [| ev rest IH]; simpl; [now intros [= <-] |].
  unfold label_change, has_label at 1, getitem_label.
  destruct (is_event kind ev); simpl; [| exact IH].
  destruct (ev_label ev) as [l |]; simpl; [| discriminate].
  destruct (String.eqb l label); [now intros [= <-] | exact IH].
Qed.

Lemma label_last_loop_returns (kind label : string) (l : list event) :
  kind_carries_label kind l -> returns (label_last_loop kind label l).
Proof.
  unfold returns.
  induction l as [| ev rest IH]; simpl; intros Hwf; [now eexists |].
  assert (Hrest : kind_carries_label kind rest)
    by (intros y Hy; apply Hwf; now right).
  destruct (is_event kind ev) eqn:Hk; [| now apply IH].
  unfold getitem_label.
  destruct (ev_label ev) as [l |] eqn:Hl; simpl.
  - destruct (String.eqb l label); [now eexists | now apply IH].
  - exfalso. apply (Hwf ev); [now left | now apply is_event_true | exact Hl].
Qed.

Lemma kind_carries_label_rev (kind : string) (hist : list event) :
  kind_carries_label kind hist -> kind_carries_label kind (rev hist).
Proof. intros H x Hx. apply H. now apply in_rev. Qed.

(** X1.  [label_last_applied] and [label_last_removed] answer with the
    ['created_at'] of the last event of their kind (['labeled'],
    ['unlabeled']) that carries the label, and with [None] when the
    timeline has none.  They return whenever the events of that kind
    record their label, and on a non-decreasing timeline no such event
    is later than the answer. *)
Theorem label_last_change_is_latest
    (query : HistoryWrapper -> string -> res (option pytime))
    (kind : string) (self : HistoryWrapper) (label : string) :
  (query = label_last_applied /\ kind = "labeled")
  \/ (query = label_last_removed /\ kind = "unlabeled") ->
  (forall r,
      query self label = Ok r ->
      r = option_map ev_created_at
            (find (label_change kind label) (rev (history self))))
  /\ (kind_carries_label kind (history self) -> returns (query self label))
  /\ (query self label = Ok None ->
      forall x, In x (history self) -> label_change kind label x = false)
  /\ (forall t,
         nondecreasing (history self) ->
         query self label = Ok (Some t) ->
         forall x, In x (history self) -> label_change kind label x = true ->
                   time_lt t (ev_created_at x) = Ok false).
Proof.
  intros Hq.
  assert (Hloop : query self label
                  = label_last_loop kind label (rev (history self)))
    by (destruct Hq as [[-> ->] | [-> ->]]; reflexivity).
  rewrite Hloop. clear Hq Hloop. split; [| split; [| split]].
  - intros r. apply label_last_loop_sound.
  - intros Hwf. now apply label_last_loop_returns, kind_carries_label_rev.
  - intros Hr. apply label_last_loop_sound in Hr.
    destruct (find _ (rev (history self))) eqn:Hf; [discriminate |].
    now apply find_rev_none.
  - intros t Hs Hr x Hx Hp. apply label_last_loop_sound in Hr.
    destruct (find _ (rev (history self))) as [e |] eqn:Hf; [| discriminate].
    injection Hr as ->.
    exact (last_match_is_latest _ _ e Hs Hf x Hx Hp).
Qed.

Lemma label_last_change_is_latest_witness :
  let self := wrapper_of [label_event "alice" 1 "bug";
                          comment_event "bob" 2 "hm";
                          label_event "carol" 3 "bug"] in
  kind_carries_label "labeled" (history self)
  /\ nondecreasing (history self)
  /\ label_last_applied self "bug" = Ok (Some (Aware 3))
  /\ returns (label_last_applied self "bug").
Proof.
  assert (Hwf : kind_carries_label "labeled"
                  [label_event "alice" 1 "bug"; comment_event "bob" 2 "hm";
                   label_event "carol" 3 "bug"])
    by (intros x [<- | [<- | [<- | []]]]; simpl; discriminate).
  split; [exact Hwf |].
  split; [repeat constructor |]. split; [reflexivity |].
  exact (proj1 (proj2 (label_last_change_is_latest
                         label_last_applied "labeled"
                         (wrapper_of [label_event "alice" 1 "bug";
                                      comment_event "bob" 2 "hm";
                                      label_event "carol" 3 "bug"])
                         "bug" (or_introl (conj eq_refl eq_refl))))
               Hwf).
Defined.

(** ** Was a label ever applied or removed *)

Lemma bots_guard (bots : option (list string)) (x : event) :
  truthy_bots bots && in_str_list (ev_actor x) (bots_list bots)
  = by_bot bots x.
Proof.
  unfold by_bot. destruct bots as [[| b bots] |]; reflexivity.
Qed.

Lemma was_labeled_loop_sound (kind : string) (label : option string)
    (bots : option (list string)) (hist : list event) (b : bool) :
  was_labeled_loop kind label bots hist = Ok b ->
  b = existsb (counts_as_labeled kind label bots) hist.
Proof.
  induction hist as [| ev rest IH]; simpl; [now intros [= <-] |].
  rewrite bots_guard. unfold counts_as_labeled at 1.
  destruct (by_bot bots ev); simpl; [exact IH |].
  destruct (is_event kind ev); simpl; [| exact IH].
  destruct label as [wanted |]; simpl; [| now intros [= <-]].
  destruct (PyStr.truthy wanted); simpl; [| now intros [= <-]].
  unfold getitem_label, has_label.
  destruct (ev_label ev) as [l |]; simpl; [| discriminate].
  destruct (String.eqb l wanted); [now intros [= <-] | exact IH].
Qed.

Lemma was_labeled_loop_returns (kind : string) (label : option string)
    (bots : option (list string)) (hist : list event) :
  (truthy_arg label = true ->
   forall x, In x hist -> by_bot bots x = false -> ev_event x = kind ->
             ev_label x <> None) ->
  returns (was_labeled_loop kind label bots hist).
Proof.
  unfold returns.
  induction hist as [| ev rest IH]; simpl; intros Hwf; [now eexists |].
  assert (Hrest : truthy_arg label = true ->
                  forall x, In x rest -> by_bot bots x = false ->
                            ev_event x = kind -> ev_label x <> None)
    by (intros Ht y Hy; apply (Hwf Ht); now right).
  rewrite bots_guard.
  destruct (by_bot bots ev) eqn:Hb; simpl; [now apply IH |].
  destruct (is_event kind ev) eqn:Hk; [| now apply IH].
  destruct label as [wanted |]; [| now eexists].
  destruct (PyStr.truthy wanted) eqn:Ht; [| now eexists].
  unfold getitem_label.
  destruct (ev_label ev) as [l |] eqn:Hl; simpl.
  - destruct (String.eqb l wanted); [now eexists | now apply IH].
  - exfalso.
    apply (Hwf Ht ev); [now left | exact Hb | now apply is_event_true
                       | exact Hl].
Qed.

Lemma existsb_weaken {A : Type} (p q : A -> bool) (l : list A) :
  (forall x, p x = true -> q x = true) ->
  existsb p l = true -> existsb q l = true.
Proof.
  intros Hpq H. apply existsb_exists in H. destruct H as [x [Hx Hp]].
  apply existsb_exists. exists x. split; [assumption | now apply Hpq].
Qed.

(** X2.  [was_labeled] and [was_unlabeled] answer whether some event of
    their kind, not made by one of [bots], carries the label (any such
    event when no label is given).  Without a label they never raise;
    they return whenever the events of that kind record their label,
    and leaving [bots] out can only turn [False] into [True]. *)
Theorem was_labeled_spec
    (query : HistoryWrapper -> option string -> option (list string)
             -> res bool)
    (kind : string) (self : HistoryWrapper) (label : option string)
    (bots : option (list string)) :
  (query = was_labeled /\ kind = "labeled")
  \/ (query = was_unlabeled /\ kind = "unlabeled") ->
  (forall b,
      query self label bots = Ok b ->
      b = existsb (counts_as_labeled kind label bots) (history self))
  /\ (truthy_arg label = false ->
      query self label bots
      = Ok (existsb (fun x => negb (by_bot bots x) && is_event kind x)
                    (history self)))
  /\ (kind_carries_label kind (history self) ->
      returns (query self label bots)
      /\ (query self label bots = Ok true -> query self label None = Ok true)).
Proof.
  intros Hq.
  assert (Hloop : forall bs, query self label bs
                             = was_labeled_loop kind label bs (history self))
    by (intros bs; destruct Hq as [[-> ->] | [-> ->]]; reflexivity).
  rewrite !Hloop. clear Hq. split; [| split].
  - intros b. apply was_labeled_loop_sound.
  - intros Hno.
    destruct (was_labeled_loop_returns kind label bots (history self))
      as [b Hb]; [rewrite Hno; discriminate |].
    rewrite Hb. f_equal. apply was_labeled_loop_sound in Hb. rewrite Hb.
    clear Hb Hloop.
    induction (history self) as [| x rest IH]; [reflexivity |].
    simpl. rewrite IH. unfold counts_as_labeled. rewrite Hno. simpl.
    now rewrite andb_true_r.
  - intros Hwf.
    assert (Hret : forall bs, returns (was_labeled_loop kind label bs
                                                        (history self))).
    { intros bs. apply was_labeled_loop_returns. intros _ x Hx _.
      now apply Hwf. }
    split; [apply Hret |].
    intros Hb. destruct (Hret None) as [b' Hb'].
    rewrite Hb'. f_equal.
    apply was_labeled_loop_sound in Hb, Hb'. subst b'. symmetry in Hb.
    revert Hb. apply existsb_weaken. intros x.
    unfold counts_as_labeled, by_bot. simpl.
    now destruct (in_str_list (ev_actor x) (bots_list bots)).
Qed.

Lemma was_labeled_spec_witness :
  let self := wrapper_of [label_event "ansibot" 1 "bug";
                          label_event "carol" 3 "docs"] in
  kind_carries_label "labeled" (history self)
  /\ was_labeled self (Some "bug") (Some ["ansibot"]) = Ok false
  /\ returns (was_labeled self (Some "bug") None).
Proof.
  assert (Hwf : kind_carries_label "labeled"
                  [label_event "ansibot" 1 "bug";
                   label_event "carol" 3 "docs"])
    by (intros x [<- | [<- | []]]; simpl; discriminate).
  split; [exact Hwf |]. split; [reflexivity |].
  exact (proj1 (proj2 (proj2 (was_labeled_spec
                                was_labeled "labeled"
                                (wrapper_of [label_event "ansibot" 1 "bug";
                                             label_event "carol" 3 "docs"])
                                (Some "bug") None
                                (or_introl (conj eq_refl eq_refl))))
                      Hwf)).
Defined.

Lemma find_none_existsb {A : Type} (p : A -> bool) (l : list A) :
  find p l = None <-> existsb p l = false.
Proof.
  induction l as [| a l IH]; simpl; [tauto |].
  destruct (p a); simpl; [split; discriminate | exact IH].
Qed.

(** X3.  A label that is not the empty string was applied (removed) at
    some time exactly when it has a date of last application (removal):
    for every non-empty [label], over a timeline whose label events
    record their label, [was_labeled] is [True] if and only if
    [label_last_applied] is not [None], and likewise for
    [was_unlabeled] and [label_last_removed].  The empty label is left
    out: [was_labeled] takes it for no label at all and then answers
    for any label, while [label_last_applied] looks for events labeled
    with the empty string. *)
Theorem was_labeled_iff_last_applied (self : HistoryWrapper)
    (label : string) :
  label <> "" ->
  (kind_carries_label "labeled" (history self) ->
   exists b r,
     was_labeled self (Some label) None = Ok b
     /\ label_last_applied self label = Ok r
     /\ (b = true <-> r <> None))
  /\ (kind_carries_label "unlabeled" (history self) ->
      exists b r,
        was_unlabeled self (Some label) None = Ok b
        /\ label_last_removed self label = Ok r
        /\ (b = true <-> r <> None)).
Proof.
  intros Hlabel.
  assert (Hgen : forall kind,
             kind_carries_label kind (history self) ->
             exists b r,
               was_labeled_loop kind (Some label) None (history self) = Ok b
               /\ label_last_loop kind label (rev (history self)) = Ok r
               /\ (b = true <-> r <> None)).
  { intros kind Hwf.
    destruct (was_labeled_loop_returns kind (Some label) None (history self))
      as [b Hb]; [intros _ x Hx _; now apply Hwf |].
    destruct (label_last_loop_returns kind label (rev (history self)))
      as [r Hr]; [now apply kind_carries_label_rev |].
    exists b, r. split; [exact Hb |]. split; [exact Hr |].
    apply was_labeled_loop_sound in Hb. apply label_last_loop_sound in Hr.
    assert (Hsame : existsb (counts_as_labeled kind (Some label) None)
                            (history self)
                    = existsb (label_change kind label) (rev (history self))).
    { assert (Ht : PyStr.truthy label = true)
        by (destruct label; [congruence | reflexivity]).
      rewrite existsb_rev. clear -Ht.
      induction (history self) as [| x rest IH]; [reflexivity |].
      simpl. rewrite IH. unfold counts_as_labeled, label_change, by_bot.
      simpl. now rewrite Ht. }
    rewrite Hb, Hr, Hsame.
    destruct (find _ (rev (history self))) as [e |] eqn:Hf; simpl.
    - split; [discriminate |]. intros _.
      destruct (existsb _ (rev (history self))) eqn:He; [reflexivity |].
      apply find_none_existsb in He. congruence.
    - apply find_none_existsb in Hf. rewrite Hf.
      split; [discriminate | congruence]. }
  split; intros Hwf; now apply Hgen.
Qed.

Lemma was_labeled_iff_last_applied_witness :
  let self := wrapper_of [label_event "alice" 1 "bug";
                          label_event "carol" 3 "docs"] in
  "bug" <> ""
  /\ kind_carries_label "labeled" (history self)
  /\ exists b r,
      was_labeled self (Some "bug") None = Ok b
      /\ label_last_applied self "bug" = Ok r
      /\ (b = true <-> r <> None).
Proof.
  assert (Hne : "bug" <> "") by discriminate.
  assert (Hwf : kind_carries_label "labeled"
                  [label_event "alice" 1 "bug";
                   label_event "carol" 3 "docs"])
    by (intros x [<- | [<- | []]]; simpl; discriminate).
  split; [exact Hne |]. split; [exact Hwf |].
  exact (proj1 (was_labeled_iff_last_applied
                  (wrapper_of [label_event "alice" 1 "bug";
                               label_event "carol" 3 "docs"])
                  "bug" Hne) Hwf).
Defined.

(** ** The set of changed labels *)

Lemma insert_label_In (s x : string) (l : list string) :
  In x (insert_label s l) <-> x = s \/ In x l.
Proof.
  induction l as [| a l IH]; simpl; [intuition congruence |].
  destruct (String.compare s a) eqn:Hc; simpl.
  - apply String.compare_eq_iff in Hc. subst. intuition congruence.
  - intuition congruence.
  - rewrite IH. intuition congruence.
Qed.

Lemma sorted_set_In (x : string) (l : list string) :
  In x (sorted_set l) <-> In x l.
Proof.
  induction l as [| a l IH]; simpl; [tauto |].
  rewrite insert_label_In, IH. intuition congruence.
Qed.

Lemma insert_label_sorted (s : string) (l : list string) :
  Sorted string_lt l -> Sorted string_lt (insert_label s l).
Proof.
  induction l as [| a l IH]; simpl; intros Hs; [repeat constructor |].
  destruct (String.compare s a) eqn:Hc.
  - exact Hs.
  - constructor; [exact Hs | now constructor].
  - inversion Hs as [| ? ? Hrest Hhd]; subst.
    constructor; [now apply IH |].
    assert (Has : string_lt a s).
    { unfold string_lt. rewrite String.compare_antisym, Hc. reflexivity. }
    destruct l as [| b l]; simpl; [now constructor |].
    destruct (String.compare s b); constructor;
      first [assumption | now inversion Hhd].
Qed.

Lemma sorted_set_sorted (l : list string) :
  StronglySorted string_lt (sorted_set l).
Proof.
  apply Sorted_StronglySorted.
  - intros a b c. apply string_compare_lt_trans.
  - induction l as [| a l IH]; simpl; [constructor |].
    now apply insert_label_sorted.
Qed.

Lemma changed_labels_loop_sound (prefix : option string)
    (bots : option (list string)) (hist : list event) :
  forall labeled r,
    changed_labels_loop prefix (bots_list bots) hist labeled = Ok r ->
    r = labeled ++ changed_labels_of prefix bots hist.
Proof.
  unfold changed_labels_of.
  induction hist as [| ev rest IH]; intros acc r.
  - simpl. intros [= <-]. now rewrite app_nil_r.
  - cbn [changed_labels_loop flat_map].
    unfold changed_item at 1, human_label_event, by_bot.
    destruct (in_str_list (ev_actor ev) (bots_list bots)); simpl;
      [apply IH |].
    destruct (is_event "labeled" ev || is_event "unlabeled" ev); simpl;
      [| apply IH].
    unfold getitem_label.
    destruct (ev_label ev) as [l |]; simpl; [| discriminate].
    assert (Hstep : forall keep : bool,
               changed_labels_loop prefix (bots_list bots) rest
                 (if keep then acc ++ [l] else acc) = Ok r ->
               r = acc ++ (if keep then [l] else [])
                       ++ flat_map (changed_item prefix bots) rest).
    { intros keep H. apply IH in H. subst r.
      destruct keep; [now rewrite <- app_assoc | reflexivity]. }
    unfold prefix_ok.
    destruct prefix as [p |]; simpl.
    + destruct (PyStr.truthy p); simpl.
      * destruct (startswith l p); [apply (Hstep true) | apply (Hstep false)].
      * apply (Hstep true).
    + apply (Hstep true).
Qed.

Lemma changed_labels_loop_returns (prefix : option string)
    (bots : list string) (hist : list event) :
  kind_carries_label "labeled" hist ->
  kind_carries_label "unlabeled" hist ->
  forall labeled, returns (changed_labels_loop prefix bots hist labeled).
Proof.
  unfold returns.
  induction hist as [| ev rest IH]; simpl; intros Hl Hu acc; [now eexists |].
  assert (Hl' : kind_carries_label "labeled" rest)
    by (intros y Hy; apply Hl; now right).
  assert (Hu' : kind_carries_label "unlabeled" rest)
    by (intros y Hy; apply Hu; now right).
  destruct (in_str_list (ev_actor ev) bots); [now apply IH |].
  destruct (is_event "labeled" ev || is_event "unlabeled" ev) eqn:Hk;
    [| now apply IH].
  unfold getitem_label.
  destruct (ev_label ev) as [l |] eqn:Hlab; simpl.
  - destruct prefix as [p |]; [| now apply IH].
    destruct (PyStr.truthy p); [| now apply IH].
    destruct (startswith l p); now apply IH.
  - exfalso. apply orb_true_iff in Hk. destruct Hk as [Hk | Hk].
    + apply (Hl ev); [now left | now apply is_event_true | exact Hlab].
    + apply (Hu ev); [now left | now apply is_event_true | exact Hlab].
Qed.

Lemma changed_labels_of_In (prefix : option string)
    (bots : option (list string)) (hist : list event) (l : string) :
  In l (changed_labels_of prefix bots hist)
  <-> exists x, In x hist /\ human_label_event bots x = true
                /\ ev_label x = Some l /\ prefix_ok prefix l = true.
Proof.
  unfold changed_labels_of. rewrite in_flat_map. unfold changed_item. split.
  - intros [x [Hx Hl]]. exists x. split; [assumption |].
    destruct (human_label_event bots x); [| contradiction].
    destruct (ev_label x) as [l' |]; [| contradiction].
    destruct (prefix_ok prefix l') eqn:Hp; [| contradiction].
    destruct Hl as [<- | []]. now repeat split.
  - intros [x (Hx & Hh & Hl & Hp)]. exists x. split; [assumption |].
    rewrite Hh, Hl, Hp. now left.
Qed.

(** X4.  [get_changed_labels] returns the labels of the ['labeled'] and
    ['unlabeled'] events not made by one of [bots] (those starting with
    [prefix] when one is given), each once and in strictly increasing
    order.  It returns whenever the label events record their label. *)
Theorem get_changed_labels_spec (self : HistoryWrapper)
    (prefix : option string) (bots : option (list string)) :
  (forall r,
      get_changed_labels self prefix bots = Ok r ->
      StronglySorted string_lt r
      /\ forall l,
          In l r
          <-> exists x, In x (history self)
                        /\ human_label_event bots x = true
                        /\ ev_label x = Some l
                        /\ prefix_ok prefix l = true)
  /\ (kind_carries_label "labeled" (history self) ->
      kind_carries_label "unlabeled" (history self) ->
      returns (get_changed_labels self prefix bots)).
Proof.
  unfold get_changed_labels. split.
  - intros r.
    destruct (changed_labels_loop prefix (bots_list bots) (history self) [])
      as [labeled |] eqn:Hloop; simpl; [| discriminate].
    intros [= <-]. split; [apply sorted_set_sorted |].
    intros l. rewrite sorted_set_In.
    apply changed_labels_loop_sound in Hloop. subst labeled. simpl.
    apply changed_labels_of_In.
  - intros Hl Hu.
    destruct (changed_labels_loop_returns prefix (bots_list bots)
                (history self) Hl Hu []) as [labeled ->].
    simpl. now eexists.
Qed.

Lemma get_changed_labels_spec_witness :
  let self := wrapper_of [label_event "carol" 1 "needs_info";
                          label_event "ansibot" 2 "bug";
                          label_event "dave" 3 "docs";
                          label_event "erin" 4 "docs"] in
  kind_carries_label "labeled" (history self)
  /\ kind_carries_label "unlabeled" (history self)
  /\ get_changed_labels self None (Some ["ansibot"])
     = Ok ["docs"; "needs_info"]
  /\ returns (get_changed_labels self None (Some ["ansibot"])).
Proof.
  assert (Hl : kind_carries_label "labeled"
                 [label_event "carol" 1 "needs_info";
                  label_event "ansibot" 2 "bug";
                  label_event "dave" 3 "docs"; label_event "erin" 4 "docs"])
    by (intros x [<- | [<- | [<- | [<- | []]]]]; simpl; discriminate).
  assert (Hu : kind_carries_label "unlabeled"
                 [label_event "carol" 1 "needs_info";
                  label_event "ansibot" 2 "bug";
                  label_event "dave" 3 "docs"; label_event "erin" 4 "docs"])
    by (intros x [<- | [<- | [<- | [<- | []]]]]; simpl; discriminate).
  split; [exact Hl |]. split; [exact Hu |]. split; [reflexivity |].
  exact (proj2 (get_changed_labels_spec
                  (wrapper_of [label_event "carol" 1 "needs_info";
                               label_event "ansibot" 2 "bug";
                               label_event "dave" 3 "docs";
                               label_event "erin" 4 "docs"])
                  None (Some ["ansibot"])) Hl Hu).
Defined.

Lemma existsb_counts_exists (kind label : string)
    (bots : option (list string)) (hist : list event) :
  PyStr.truthy label = true ->
  (existsb (counts_as_labeled kind (Some label) bots) hist = true
   <-> exists x, In x hist /\ by_bot bots x = false
                 /\ ev_event x = kind /\ ev_label x = Some label).
Proof.
  intros Ht. rewrite existsb_exists.
  split; intros [x [Hx H]]; exists x; (split; [assumption |]).
  - unfold counts_as_labeled in H. simpl in H. rewrite Ht in H. simpl in H.
    apply andb_true_iff in H. destruct H as [H Hl].
    apply andb_true_iff in H. destruct H as [Hb Hk].
    apply negb_true_iff in Hb. apply is_event_true in Hk.
    unfold has_label in Hl. destruct (ev_label x) as [l |]; [| discriminate].
    apply String.eqb_eq in Hl. now subst.
  - destruct H as (Hb & Hk & Hl). unfold counts_as_labeled, has_label.
    simpl. rewrite Hb, Hl, Ht, String.eqb_refl.
    apply is_event_true in Hk. now rewrite Hk.
Qed.

(** X5.  Over a timeline whose label events record their label, a
    label is among [get_changed_labels(bots=bots)] exactly when
    [was_labeled] or [was_unlabeled] answers [True] for it with the
    same [bots]: a label that only bots touched is left out even though
    [was_labeled] without [bots] reports it. *)
Theorem changed_labels_agree_with_was_labeled (self : HistoryWrapper)
    (bots : option (list string)) (label : string) :
  label <> "" ->
  kind_carries_label "labeled" (history self) ->
  kind_carries_label "unlabeled" (history self) ->
  exists r,
    get_changed_labels self None bots = Ok r
    /\ (In label r
        <-> was_labeled self (Some label) bots = Ok true
            \/ was_unlabeled self (Some label) bots = Ok true).
Proof.
  intros Hne Hl Hu.
  assert (Ht : PyStr.truthy label = true)
    by (destruct label; [congruence | reflexivity]).
  destruct (changed_labels_loop_returns None (bots_list bots) (history self)
              Hl Hu []) as [labeled Hloop].
  exists (sorted_set labeled). unfold get_changed_labels. rewrite Hloop.
  split; [reflexivity |].
  apply changed_labels_loop_sound in Hloop. subst labeled. simpl.
  rewrite sorted_set_In, changed_labels_of_In.
  assert (Hq : forall kind,
             kind_carries_label kind (history self) ->
             (was_labeled_loop kind (Some label) bots (history self) = Ok true
              <-> exists x, In x (history self) /\ by_bot bots x = false
                            /\ ev_event x = kind
                            /\ ev_label x = Some label)).
  { intros kind Hwf.
    rewrite <- (existsb_counts_exists kind label bots (history self) Ht).
    destruct (was_labeled_loop_returns kind (Some label) bots (history self))
      as [b Hb]; [intros _ x Hx _; now apply Hwf |].
    rewrite Hb. apply was_labeled_loop_sound in Hb. rewrite <- Hb.
    split; [now intros [= ->] | now intros ->]. }
  unfold was_labeled, was_unlabeled. rewrite (Hq _ Hl), (Hq _ Hu).
  split.
  - intros [x (Hx & Hh & Hlab & _)].
    unfold human_label_event in Hh. apply andb_true_iff in Hh.
    destruct Hh as [Hb Hk]. apply negb_true_iff in Hb.
    apply orb_true_iff in Hk.
    destruct Hk as [Hk | Hk]; apply is_event_true in Hk;
      [left | right]; now exists x.
  - intros [[x (Hx & Hb & Hk & Hlab)] | [x (Hx & Hb & Hk & Hlab)]];
      exists x; (split; [assumption |]); unfold human_label_event;
      rewrite Hb; apply is_event_true in Hk; rewrite Hk;
      simpl; rewrite ?orb_true_r; now repeat split.
Qed.

Lemma changed_labels_agree_with_was_labeled_witness :
  let self := wrapper_of [label_event "ansibot" 2 "bug";
                          label_event "dave" 3 "docs"] in
  "bug" <> ""
  /\ kind_carries_label "labeled" (history self)
  /\ kind_carries_label "unlabeled" (history self)
  /\ was_labeled self (Some "bug") None = Ok true
  /\ exists r,
      get_changed_labels self None (Some ["ansibot"]) = Ok r
      /\ (In "bug" r
          <-> was_labeled self (Some "bug") (Some ["ansibot"]) = Ok true
              \/ was_unlabeled self (Some "bug") (Some ["ansibot"])
                 = Ok true).
Proof.
  assert (Hne : "bug" <> "") by discriminate.
  assert (Hl : kind_carries_label "labeled"
                 [label_event "ansibot" 2 "bug"; label_event "dave" 3 "docs"])
    by (intros x [<- | [<- | []]]; simpl; discriminate).
  assert (Hu : kind_carries_label "unlabeled"
                 [label_event "ansibot" 2 "bug"; label_event "dave" 3 "docs"])
    by (intros x [<- | [<- | []]]; simpl; discriminate).
  split; [exact Hne |]. split; [exact Hl |]. split; [exact Hu |].
  split; [reflexivity |].
  exact (changed_labels_agree_with_was_labeled
           (wrapper_of [label_event "ansibot" 2 "bug";
                        label_event "dave" 3 "docs"])
           (Some ["ansibot"]) "bug" Hne Hl Hu).
Defined.

(** ** Label churn *)

Lemma label_history_count (label : string) (hist : list event) :
  List.length (filter (String.eqb label) (label_history hist))
  = label_count label hist.
Proof.
  unfold label_count, label_history, has_label.
  induction hist as [| x rest IH]; [reflexivity |].
  simpl. destruct (ev_label x) as [l |]; simpl; [| exact IH].
  rewrite (String.eqb_sym label l).
  destruct (String.eqb l label); simpl; now rewrite IH.
Qed.

Lemma find_counted (count : string -> nat) (k : string) (l : list string) :
  find (fun item : string * nat => String.eqb (fst item) k)
       (map (fun hl => (hl, count hl)) l)
  = if in_str_list k l then Some (k, count k) else None.
Proof.
  unfold in_str_list.
  induction l as [| a l IH]; [reflexivity |].
  simpl. rewrite (String.eqb_sym k a).
  destruct (String.eqb_spec a k) as [-> | _]; [reflexivity | exact IH].
Qed.

Lemma filter_absent (k : string) (l : list string) :
  in_str_list k l = false -> filter (String.eqb k) l = [].
Proof.
  unfold in_str_list. induction l as [| a l IH]; [reflexivity |].
  simpl. destruct (String.eqb k a); [discriminate | exact IH].
Qed.

Lemma dict_get_waffle_counts (label : string) (hist : list event) :
  dict_get (waffle_counts hist) label 0 = label_count label hist.
Proof.
  unfold dict_get, waffle_counts. cbv zeta. rewrite find_counted.
  destruct (in_str_list label (sorted_set (label_history hist))) eqn:Hin;
    simpl; [apply label_history_count |].
  rewrite <- label_history_count.
  rewrite filter_absent; [reflexivity |].
  destruct (in_str_list label (label_history hist)) eqn:Hin';
    [| reflexivity].
  apply in_str_list_In, sorted_set_In, in_str_list_In in Hin'. congruence.
Qed.

(** X6.  The first call of [label_is_waffling] answers whether at least
    [limit] events of the timeline carry the label, and keeps the
    counts; every later call answers from the counts of the timeline
    of the first call, whatever the timeline has become by then.  With a
    limit of zero or less the answer is [True] for every label. *)
Theorem label_is_waffling_counts (self : HistoryWrapper) (label : string)
    (limit : Z) :
  let first := label_is_waffling self None label limit in
  fst first = (limit <=? Z.of_nat (label_count label (history self)))%Z
  /\ snd first = Some (waffle_counts (history self))
  /\ (forall later label' limit',
         label_is_waffling later (snd first) label' limit'
         = ((limit' <=? Z.of_nat (label_count label' (history self)))%Z,
            snd first))
  /\ ((limit <= 0)%Z -> fst first = true).
Proof.
  cbv zeta. unfold label_is_waffling. simpl.
  rewrite dict_get_waffle_counts.
  split; [reflexivity |]. split; [reflexivity |]. split.
  - intros later label' limit'. now rewrite dict_get_waffle_counts.
  - intros Hlim. apply Z.leb_le. lia.
Qed.

Lemma label_count_app (label : string) (l1 l2 : list event) :
  label_count label (l1 ++ l2) = label_count label l1 + label_count label l2.
Proof. unfold label_count. now rewrite filter_app, length_app. Qed.

Lemma label_count_perm (label : string) (l1 l2 : list event) :
  Permutation l1 l2 -> label_count label l1 = label_count label l2.
Proof.
  unfold label_count. intros Hp.
  induction Hp as [| x l l' Hp IH | x y l | l l' l'' Hp1 IH1 Hp2 IH2];
    simpl; try reflexivity.
  - destruct (has_label label x); simpl; now rewrite IH.
  - now destruct (has_label label x), (has_label label y).
  - now rewrite IH1.
Qed.

Section MergesAndLabels.

Variable strip_time_safely : string -> Z.

Lemma call_events_unlabeled (label : string) (call : merge_call) :
  label_count label (call_events strip_time_safely call) = 0.
Proof.
  unfold label_count.
  destruct call as [commits | reviews]; simpl.
  - induction commits as [| xc rest IH]; [reflexivity | exact IH].
  - unfold review_events.
    induction reviews as [| r rest IH]; [reflexivity |].
    simpl. rewrite filter_app, length_app, IH.
    unfold normalize_review.
    destruct (r_user r); [| reflexivity].
    now destruct (review_kind (r_state r)).
Qed.

Lemma run_calls_perm (calls : list merge_call) :
  forall self final,
    run_calls strip_time_safely self calls = Ok final ->
    Permutation (history self ++ merged_events strip_time_safely calls)
                (history final).
Proof.
  induction calls as [| call rest IH]; simpl; intros self final Hrun.
  - injection Hrun as <-. unfold merged_events. simpl.
    now rewrite app_nil_r.
  - rewrite apply_call_spec in Hrun.
    destruct (sorted_by_created_at
                (history self ++ call_events strip_time_safely call))
      as [h |] eqn:Hsort; simpl in Hrun; [| discriminate].
    unfold merged_events. simpl. rewrite app_assoc.
    apply perm_trans
      with (h ++ flat_map (call_events strip_time_safely) rest).
    + apply Permutation_app_tail. now apply sorted_perm.
    + exact (IH (set_history self h) final Hrun).
Qed.

(** X7.  [merge_commits] and [merge_reviews] add no event that carries
    a label: after any sequence of merge calls every label has the
    count it had before, so [label_is_waffling] answers on the merged
    timeline as it did, and an answer taken from counts memoised before
    the merges is the one a fresh count would give. *)
Theorem merges_keep_label_counts (self final : HistoryWrapper)
    (calls : list merge_call) (label : string) (limit : Z) :
  run_calls strip_time_safely self calls = Ok final ->
  label_count label (history final) = label_count label (history self)
  /\ (forall memo_label memo_limit,
         fst (label_is_waffling final
                (snd (label_is_waffling self None memo_label memo_limit))
                label limit)
         = fst (label_is_waffling final None label limit)).
Proof.
  intros Hrun.
  assert (Hcount : label_count label (history final)
                   = label_count label (history self)).
  { rewrite <- (label_count_perm label _ _ (run_calls_perm _ _ _ Hrun)).
    rewrite label_count_app.
    assert (Hnew : label_count label
                     (merged_events strip_time_safely calls) = 0).
    { unfold merged_events. clear Hrun.
      induction calls as [| call rest IH]; [reflexivity |].
      simpl. now rewrite label_count_app, call_events_unlabeled, IH. }
    lia. }
  split; [exact Hcount |].
  intros memo_label memo_limit. unfold label_is_waffling. simpl.
  now rewrite !dict_get_waffle_counts, Hcount.
Qed.

End MergesAndLabels.

Lemma merges_keep_label_counts_witness :
  let parse := fun _ : string => 6%Z in
  let self := wrapper_of [label_event "alice" 3 "bug";
                          comment_event "bob" 5 "shipit"] in
  let calls :=
    [MergeCommits [mkCommit "9fceb02" (Login "dave") "dave" 4 "fix typo"]] in
  let final := wrapper_of [label_event "alice" 3 "bug";
                           commit_event (mkCommit "9fceb02" (Login "dave")
                                                  "dave" 4 "fix typo");
                           comment_event "bob" 5 "shipit"] in
  run_calls parse self calls = Ok final
  /\ label_count "bug" (history final) = label_count "bug" (history self).
Proof.
  assert (Hrun : run_calls (fun _ : string => 6%Z)
                   (wrapper_of [label_event "alice" 3 "bug";
                                comment_event "bob" 5 "shipit"])
                   [MergeCommits [mkCommit "9fceb02" (Login "dave") "dave" 4
                                           "fix typo"]]
                 = Ok (wrapper_of
                         [label_event "alice" 3 "bug";
                          commit_event (mkCommit "9fceb02" (Login "dave")
                                                 "dave" 4 "fix typo");
                          comment_event "bob" 5 "shipit"]))
    by reflexivity.
  split; [exact Hrun |].
  exact (proj1 (merges_keep_label_counts (fun _ : string => 6%Z) _ _ _
                                         "bug" 20%Z Hrun)).
Defined.

(** ** The date of the last commit *)

Lemma last_filter_find {A : Type} (p : A -> bool) (l : list A) :
  match filter p l with
  | [] => None
  | e :: es => Some (last es e)
  end = find p (rev l).
Proof.
  induction l as [| a l IH] using rev_ind; [reflexivity |].
  rewrite filter_app, rev_app_distr. simpl.
  destruct (p a); [| now rewrite app_nil_r].
  destruct (filter p l) as [| e es]; simpl; [reflexivity |].
  now rewrite last_last.
Qed.

Lemma last_commit_date_find (self : HistoryWrapper) :
  last_commit_date self
  = option_map ev_created_at
      (find (is_event "committed") (rev (history self))).
Proof.
  unfold last_commit_date. rewrite <- last_filter_find.
  now destruct (filter (is_event "committed") (history self)).
Qed.

Lemma last_commit_date_none (self : HistoryWrapper) :
  last_commit_date self = None
  <-> forall x, In x (history self) -> is_event "committed" x = false.
Proof.
  rewrite last_commit_date_find. split.
  - intros H.
    destruct (find _ (rev (history self))) eqn:Hf; [discriminate |].
    now apply find_rev_none.
  - intros H.
    destruct (find _ (rev (history self))) as [e |] eqn:Hf; [| reflexivity].
    apply find_some in Hf. destruct Hf as [Hin He].
    apply in_rev in Hin. rewrite (H e Hin) in He. discriminate.
Qed.

(** X8.  After [merge_commits] the date of the last commit is [None]
    only if nothing was merged and the timeline had no commit; when it
    is a date, no merged commit and no commit already in the timeline
    is later than it. *)
Theorem last_commit_date_after_merge (self final : HistoryWrapper)
    (commits : list commit) :
  merge_commits self commits = Ok final ->
  (last_commit_date final = None
   <-> commits = [] /\ last_commit_date self = None)
  /\ (forall t,
         last_commit_date final = Some t ->
         (forall xc, In xc commits ->
                     time_lt t (Aware (committer_date xc)) = Ok false)
         /\ (forall x, In x (history self) ->
                       is_event "committed" x = true ->
                       time_lt t (ev_created_at x) = Ok false)).
Proof.
  unfold merge_commits. rewrite merge_commits_appends.
  destruct (sorted_by_created_at (history self ++ map commit_event commits))
    as [h |] eqn:Hsort; simpl; [| discriminate].
  intros [= <-].
  pose proof (sorted_perm _ _ Hsort) as Hperm.
  pose proof (sorted_nondecreasing _ _ Hsort) as Hsorted.
  split.
  - rewrite !last_commit_date_none. simpl. split.
    + intros Hnone. split.
      * destruct commits as [| xc rest]; [reflexivity |]. exfalso.
        assert (Hin : In (commit_event xc) h).
        { apply (Permutation_in _ Hperm), in_or_app. right. now left. }
        specialize (Hnone _ Hin). discriminate.
      * intros x Hx. apply Hnone, (Permutation_in _ Hperm), in_or_app.
        now left.
    + intros [-> Hnone] x Hx.
      apply (Permutation_in _ (Permutation_sym Hperm)) in Hx.
      simpl in Hx. rewrite app_nil_r in Hx. now apply Hnone.
  - intros t Ht. rewrite last_commit_date_find in Ht. simpl in Ht.
    destruct (find (is_event "committed") (rev h)) as [e |] eqn:Hf;
      [| discriminate].
    injection Ht as <-.
    split.
    + intros xc Hxc.
      apply (last_match_is_latest _ h e Hsorted Hf (commit_event xc));
        [| reflexivity].
      apply (Permutation_in _ Hperm), in_or_app. right.
      now apply in_map.
    + intros x Hx Hk.
      apply (last_match_is_latest _ h e Hsorted Hf x); [| exact Hk].
      apply (Permutation_in _ Hperm), in_or_app. now left.
Qed.

Lemma last_commit_date_after_merge_witness :
  let self := wrapper_of [comment_event "bob" 5 "shipit"] in
  let commits := [mkCommit "9fceb02" (Login "dave") "dave" 7 "fix typo";
                  mkCommit "1c002dd" NoLogin "erin" 4 "start"] in
  let final :=
    wrapper_of [commit_event (mkCommit "1c002dd" NoLogin "erin" 4 "start");
                comment_event "bob" 5 "shipit";
                commit_event (mkCommit "9fceb02" (Login "dave") "dave" 7
                                       "fix typo")] in
  merge_commits self commits = Ok final
  /\ last_commit_date final = Some (Aware 7)
  /\ forall xc, In xc commits ->
                time_lt (Aware 7) (Aware (committer_date xc)) = Ok false.
Proof.
  assert (Hrun : merge_commits
                   (wrapper_of [comment_event "bob" 5 "shipit"])
                   [mkCommit "9fceb02" (Login "dave") "dave" 7 "fix typo";
                    mkCommit "1c002dd" NoLogin "erin" 4 "start"]
                 = Ok (wrapper_of
                         [commit_event (mkCommit "1c002dd" NoLogin "erin" 4
                                                 "start");
                          comment_event "bob" 5 "shipit";
                          commit_event (mkCommit "9fceb02" (Login "dave")
                                                 "dave" 7 "fix typo")]))
    by reflexivity.
  split; [exact Hrun |]. split; [reflexivity |].
  exact (proj1 (proj2 (last_commit_date_after_merge _ _ _ Hrun)
                      (Aware 7) eq_refl)).
Defined.

(** ** The last notification of a user *)

Lemma max_seen_twice (seen : option Z) (t : Z) :
  max_seen (max_seen seen t) t = max_seen seen t.
Proof. destruct seen as [s |]; simpl; f_equal; lia. Qed.

Lemma note_mention_aware (seen : option Z) (t : Z) :
  note_mention (option_map Aware seen) (Aware t)
  = Ok (option_map Aware (max_seen seen t)).
Proof.
  destruct seen as [s |]; simpl; [| reflexivity].
  destruct (Z.ltb_spec s t); do 3 f_equal; lia.
Qed.

Lemma mentions_loop_aware (body : string) (t : Z) (names : list string) :
  forall seen,
    mentions_loop body (Aware t) names (option_map Aware seen)
    = Ok (option_map Aware
            (if existsb (fun un => PyStr.contains un body) names
             then max_seen seen t else seen)).
Proof.
  induction names as [| un rest IH]; intros seen; [reflexivity |].
  simpl. destruct (PyStr.contains un body); simpl.
  - rewrite note_mention_aware. simpl. rewrite IH.
    destruct (existsb _ rest); [now rewrite max_seen_twice | reflexivity].
  - apply IH.
Qed.

Lemma last_notified_loop_aware (names : list string)
    (comments : list event) :
  all_aware comments ->
  forall seen,
    last_notified_loop names comments (option_map Aware seen)
    = Ok (option_map Aware
            (fold_left max_seen
               (map (fun x => instant (ev_created_at x))
                    (filter (mentions names) comments))
               seen)).
Proof.
  intros Ha. induction Ha as [| x rest Hx Hrest IH]; intros seen;
    [reflexivity |].
  cbn [last_notified_loop filter]. unfold mentions at 1.
  destruct (get_body x) as [body |]; [| apply IH].
  destruct (PyStr.truthy body); simpl; [| apply IH].
  destruct (ev_created_at x) as [t | |] eqn:Hcx; try discriminate.
  rewrite mentions_loop_aware. simpl.
  destruct (existsb _ names); simpl; rewrite ?Hcx; apply IH.
Qed.

Lemma fold_max_seen (ts : list Z) :
  forall seen,
    match fold_left max_seen ts seen with
    | None => seen = None /\ ts = []
    | Some m =>
        (seen = Some m \/ In m ts)
        /\ (forall t, In t ts -> (t <= m)%Z)
        /\ (forall s, seen = Some s -> (s <= m)%Z)
    end.
Proof.
  induction ts as [| t rest IH]; intros seen; simpl.
  - destruct seen as [s |]; [| now split].
    split; [now left |]. split; [contradiction |].
    intros s' [= <-]. lia.
  - specialize (IH (max_seen seen t)).
    destruct (fold_left max_seen rest (max_seen seen t)) as [m |].
    + destruct IH as (Hin & Hall & Hseen).
      assert (Hm : (Z.max (match seen with Some s => s | None => t end) t
                    <= m)%Z).
      { apply Hseen. destruct seen as [s |]; simpl; f_equal; lia. }
      split; [| split].
      * destruct Hin as [Hin | Hin]; [| right; now right].
        destruct seen as [s |]; simpl in Hin; injection Hin as <-.
        -- destruct (Z.max_spec s t) as [[_ ->] | [_ ->]];
             [right; now left | now left].
        -- right. now left.
      * intros t' [<- | Ht']; [lia | now apply Hall].
      * intros s ->. simpl in Hm. lia.
    + destruct IH as [Hnone _]. destruct seen; discriminate.
Qed.

(** The comment behind the answer, and that none is later. *)
Lemma last_notified_latest_aux (self : HistoryWrapper)
    (username : username_arg) :
  all_aware (history self) ->
  exists r,
    last_notified self username = Ok r
    /\ (r = None <-> mentioning_comments username (history self) = [])
    /\ (forall t,
           r = Some t ->
           (exists x, In x (mentioning_comments username (history self))
                      /\ ev_created_at x = t)
           /\ (forall x,
                  In x (mentioning_comments username (history self)) ->
                  time_lt t (ev_created_at x) = Ok false)).
Proof.
  intros Ha.
  assert (Hc : all_aware (filter (is_event "commented") (history self))).
  { unfold all_aware in *. rewrite Forall_forall in *. intros x Hx.
    apply filter_In in Hx. now apply Ha. }
  assert (Hm : all_aware (mentioning_comments username (history self))).
  { unfold all_aware in *. rewrite Forall_forall in *. intros x Hx.
    apply filter_In in Hx. now apply Hc. }
  unfold last_notified. fold (at_names username).
  rewrite (last_notified_loop_aware _ _ Hc None).
  fold (mentioning_comments username (history self)).
  set (ms := mentioning_comments username (history self)) in *.
  eexists. split; [reflexivity |].
  pose proof (fold_max_seen (map (fun x => instant (ev_created_at x)) ms)
                            None) as Hfold.
  destruct (fold_left max_seen _ None) as [m |]; simpl.
  - destruct Hfold as ([Hin | Hin] & Hall & _); [discriminate |].
    split.
    + split; [discriminate |]. intros Hnil. rewrite Hnil in Hin.
      contradiction.
    + intros t [= <-]. apply in_map_iff in Hin.
      destruct Hin as [x [Hx Hin]]. split.
      * exists x. split; [assumption |].
        pose proof Hm as Hm'.
        unfold all_aware in Hm'. rewrite Forall_forall in Hm'.
        specialize (Hm' x Hin).
        destruct (ev_created_at x); try discriminate. simpl in Hx.
        now subst.
      * intros y Hy.
        unfold all_aware in Hm. rewrite Forall_forall in Hm.
        pose proof (Hm y Hy) as Hay.
        assert (Hle : (instant (ev_created_at y) <= m)%Z)
          by (apply Hall, in_map_iff; now exists y).
        destruct (ev_created_at y) as [ty | |]; try discriminate.
        simpl in *. f_equal. apply Z.ltb_ge. exact Hle.
  - destruct Hfold as [_ Hnil]. split.
    + split; [| reflexivity]. intros _.
      now apply map_eq_nil in Hnil.
    + discriminate.
Qed.

(** X9.  Over a tz-aware timeline [last_notified] returns [None] when
    no comment with a non-empty body contains ['@' + user] for one of
    the users, and otherwise the ['created_at'] of such a comment than
    which none is later. *)
Theorem last_notified_latest (self : HistoryWrapper)
    (username : username_arg) :
  all_aware (history self) ->
  exists r,
    last_notified self username = Ok r
    /\ (r = None <-> mentioning_comments username (history self) = [])
    /\ (forall t,
           r = Some t ->
           (exists x, In x (mentioning_comments username (history self))
                      /\ ev_created_at x = t)
           /\ (forall x,
                  In x (mentioning_comments username (history self)) ->
                  time_lt t (ev_created_at x) = Ok false)).
Proof. apply last_notified_latest_aux. Qed.

Lemma last_notified_latest_witness :
  let self := wrapper_of [comment_event "bob" 5 "ping @carol";
                          comment_event "dave" 7 "@carol and @erin: ready";
                          comment_event "bob" 9 "thanks"] in
  all_aware (history self)
  /\ last_notified self (UserList ["carol"; "erin"]) = Ok (Some (Aware 7))
  /\ exists r, last_notified self (UserList ["carol"; "erin"]) = Ok r.
Proof.
  assert (Ha : all_aware [comment_event "bob" 5 "ping @carol";
                          comment_event "dave" 7 "@carol and @erin: ready";
                          comment_event "bob" 9 "thanks"])
    by (repeat constructor).
  split; [exact Ha |]. split; [reflexivity |].
  destruct (last_notified_latest
              (wrapper_of [comment_event "bob" 5 "ping @carol";
                           comment_event "dave" 7 "@carol and @erin: ready";
                           comment_event "bob" 9 "thanks"])
              (UserList ["carol"; "erin"]) Ha) as [r [Hr _]].
  now exists r.
Defined.

Lemma prefix_trans (a : string) :
  forall b c, prefix a b = true -> prefix b c = true -> prefix a c = true.
Proof.
  induction a as [| x a IH]; [intros b [| z c]; reflexivity |].
  intros [| y b] [| z c]; simpl; try discriminate.
  destruct (ascii_dec x y) as [-> |]; [| discriminate].
  destruct (ascii_dec y z) as [-> |]; [| discriminate].
  apply IH.
Qed.

Lemma contains_prefix (a b s : string) :
  prefix a b = true ->
  PyStr.contains b s = true -> PyStr.contains a s = true.
Proof.
  intros Hab. induction s as [| c s IH]; cbn [PyStr.contains].
  - rewrite !orb_false_r. now apply prefix_trans.
  - intros H. apply orb_true_iff in H. apply orb_true_iff.
    destruct H as [H | H]; [left; now apply (prefix_trans a b) | right].
    now apply IH.
Qed.

(** X10.  [last_notified] looks for ['@' + user] anywhere in the body,
    so a mention of a login notifies every user whose login is a prefix
    of it: over a tz-aware timeline, when a user with login [v] was
    notified, so was every user whose login [u] is a prefix of [v], and
    not earlier. *)
Theorem last_notified_prefix_login (self : HistoryWrapper) (u v : string)
    (t : pytime) :
  all_aware (history self) ->
  prefix u v = true ->
  last_notified self (UserStr v) = Ok (Some t) ->
  exists t',
    last_notified self (UserStr u) = Ok (Some t')
    /\ time_lt t' t = Ok false.
Proof.
  intros Ha Huv Hv.
  destruct (last_notified_latest_aux self (UserStr v) Ha)
    as (rv & Hrv & _ & Hlatest_v).
  rewrite Hv in Hrv. injection Hrv as <-.
  destruct (Hlatest_v t eq_refl) as [[x [Hx Ht]] _].
  assert (Hxu : In x (mentioning_comments (UserStr u) (history self))).
  { unfold mentioning_comments in *. apply filter_In in Hx.
    destruct Hx as [Hx Hm]. apply filter_In. split; [assumption |].
    unfold mentions, at_names in *. simpl in *.
    destruct (get_body x) as [body |]; [| discriminate].
    apply andb_true_iff in Hm. destruct Hm as [Hb Hm].
    rewrite Hb. simpl. rewrite orb_false_r in *.
    apply (contains_prefix _ (String "@" v)); [| exact Hm].
    simpl. now destruct (ascii_dec "@" "@"). }
  destruct (last_notified_latest_aux self (UserStr u) Ha)
    as (ru & Hru & Hnone & Hlatest_u).
  destruct ru as [t' |].
  - exists t'. split; [exact Hru |].
    rewrite <- Ht. now apply (proj2 (Hlatest_u t' eq_refl)).
  - rewrite (proj1 Hnone eq_refl) in Hxu. contradiction.
Qed.

Lemma last_notified_prefix_login_witness :
  let self := wrapper_of [comment_event "dave" 7 "thanks @bobby"] in
  all_aware (history self)
  /\ prefix "bob" "bobby" = true
  /\ last_notified self (UserStr "bobby") = Ok (Some (Aware 7))
  /\ exists t',
      last_notified self (UserStr "bob") = Ok (Some t')
      /\ time_lt t' (Aware 7) = Ok false.
Proof.
  assert (Ha : all_aware [comment_event "dave" 7 "thanks @bobby"])
    by (repeat constructor).
  split; [exact Ha |]. split; [reflexivity |]. split; [reflexivity |].
  exact (last_notified_prefix_login
           (wrapper_of [comment_event "dave" 7 "thanks @bobby"])
           "bob" "bobby" (Aware 7) Ha eq_refl eq_refl).
Defined.

Lemma label_is_waffling_counts_witness :
  let self := wrapper_of [label_event "alice" 1 "bug";
                          label_event "carol" 3 "bug"] in
  (0 <= 0)%Z
  /\ fst (label_is_waffling self None "docs" 0) = true
  /\ fst (label_is_waffling self None "bug" 3) = false.
Proof.
  assert (Hlim : (0 <= 0)%Z) by lia.
  split; [exact Hlim |]. split; [| reflexivity].
  exact (proj2 (proj2 (proj2 (label_is_waffling_counts
                                (wrapper_of [label_event "alice" 1 "bug";
                                             label_event "carol" 3 "bug"])
                                "docs" 0%Z))) Hlim).
Defined.

(** ** The limit and the filter of the actor scan *)

Lemma find_loop_unbounded (eventname : option string)
    (actor : option container) (maxcount : Z) (hist : list event) :
  forall matching_events : list event,
    (maxcount < 0)%Z \/ (maxcount = 0%Z /\ matching_events <> []) ->
    find_loop eventname actor maxcount hist matching_events
    = matching_events ++ filter (selects eventname actor) hist.
Proof.
  induction hist as [| ev rest IH]; intros acc Hmax; simpl.
  - now rewrite app_nil_r.
  - assert (Hnever : forall l : list event,
               (maxcount < 0)%Z \/ (maxcount = 0%Z /\ l <> []) ->
               (Z.of_nat (List.length l) =? maxcount)%Z = false).
    { intros l [Hneg | [-> Hne]]; apply Z.eqb_neq; [lia |].
      destruct l; [congruence | simpl; lia]. }
    assert (Hgrow : (maxcount < 0)%Z
                    \/ (maxcount = 0%Z /\ acc ++ [ev] <> [])).
    { destruct Hmax as [Hneg | [-> _]]; [now left | right].
      split; [reflexivity |]. now destruct acc. }
    unfold selects at 1.
    destruct (kind_matches eventname ev); simpl; [| now apply IH].
    destruct actor as [c |].
    + destruct (py_in (ev_actor ev) c).
      * rewrite (Hnever _ Hgrow), (IH _ Hgrow), <- app_assoc. reflexivity.
      * rewrite (Hnever _ Hmax). now apply IH.
    + rewrite (Hnever _ Hgrow), (IH _ Hgrow), <- app_assoc. reflexivity.
Qed.

Lemma find_loop_zero (eventname : option string)
    (actor : option container) (hist : list event) :
  find_loop eventname actor 0 hist []
  = match find (kind_matches eventname) hist with
    | Some first =>
        if selects eventname actor first
        then filter (selects eventname actor) hist
        else []
    | None => []
    end.
Proof.
  induction hist as [| ev rest IH]; [reflexivity |].
  assert (Hsel : selects eventname actor ev
                 = kind_matches eventname ev
                   && match actor with
                      | None => true
                      | Some c => py_in (ev_actor ev) c
                      end) by reflexivity.
  cbn [find_loop find filter].
  destruct (kind_matches eventname ev) eqn:Hk.
  - assert (Hnext : find_loop eventname actor 0 rest [ev]
                    = ev :: filter (selects eventname actor) rest).
    { rewrite find_loop_unbounded; [reflexivity |].
      right. split; [reflexivity | discriminate]. }
    rewrite Hsel. simpl.
    destruct actor as [c |]; [| exact Hnext].
    destruct (py_in (ev_actor ev) c); [exact Hnext | reflexivity].
  - rewrite IH, Hsel. simpl.
    destruct (find (kind_matches eventname) rest) as [first |];
      reflexivity.
Qed.

(** X11.  The limit of the actor scan: for [maxcount >= 1] it returns
    the first [maxcount] events that pass its test, in timeline order;
    for a negative [maxcount] it returns all of them; for [maxcount]
    zero it returns all of them too, unless the first event of the
    requested kind fails the actor test, in which case it returns
    nothing. *)
Theorem find_events_by_actor_limit (self : HistoryWrapper)
    (eventname : option string) (actor : actor_arg) (maxcount : Z) :
  let passing :=
    filter (selects eventname (wrap_actor actor)) (history self) in
  let found := _find_events_by_actor self eventname actor maxcount in
  ((1 <= maxcount)%Z -> found = firstn (Z.to_nat maxcount) passing)
  /\ ((maxcount < 0)%Z -> found = passing)
  /\ (maxcount = 0%Z ->
      found = match find (kind_matches eventname) (history self) with
              | Some first =>
                  if selects eventname (wrap_actor actor) first
                  then passing else []
              | None => []
              end).
Proof.
  cbv zeta. split; [| split].
  - apply find_events_by_actor_spec.
  - intros Hneg. unfold _find_events_by_actor.
    rewrite find_loop_unbounded; [reflexivity | now left].
  - intros ->. apply find_loop_zero.
Qed.

Lemma find_events_by_actor_limit_witness :
  let self := wrapper_of [plain_event "assigned" "carol" 1;
                          plain_event "assigned" "bob" 2;
                          plain_event "assigned" "bob" 3] in
  (1 <= 1)%Z
  /\ (-1 < 0)%Z
  /\ _find_events_by_actor self (Some "assigned") (ActorList ["bob"]) 1
     = [plain_event "assigned" "bob" 2]
  /\ _find_events_by_actor self (Some "assigned") (ActorList ["bob"]) (-1)
     = [plain_event "assigned" "bob" 2; plain_event "assigned" "bob" 3]
  /\ _find_events_by_actor self (Some "assigned") (ActorList ["bob"]) 0
     = [].
Proof.
  assert (H1 : (1 <= 1)%Z) by lia.
  assert (H2 : (-1 < 0)%Z) by lia.
  split; [exact H1 |]. split; [exact H2 |].
  split; [| split].
  - exact (proj1 (find_events_by_actor_limit
                    (wrapper_of [plain_event "assigned" "carol" 1;
                                 plain_event "assigned" "bob" 2;
                                 plain_event "assigned" "bob" 3])
                    (Some "assigned") (ActorList ["bob"]) 1) H1).
  - reflexivity.
  - reflexivity.
Defined.

Lemma find_loop_boxed (eventname : option string) (maxcount : Z)
    (hist : list event) :
  find_loop eventname (Some InBoxed) maxcount hist [] = [].
Proof.
  induction hist as [| ev rest IH]; [reflexivity |].
  simpl. destruct (kind_matches eventname ev); [| exact IH].
  destruct maxcount; [reflexivity | exact IH | exact IH].
Qed.

Lemma firstn_one_nonempty {A : Type} (p : A -> bool) (l : list A) :
  (0 <? List.length (firstn 1 (filter p l))) = existsb p l.
Proof.
  induction l as [| a l IH]; [reflexivity |].
  simpl. destruct (p a); [reflexivity | exact IH].
Qed.

(** X12.  [was_assigned] and [was_subscribed] answer whether the
    timeline has an event of their kind (['assigned'], ['subscribed'])
    by any actor when the filter is [None], and by one of the listed
    identities when it is a list.  A set of identities never matches:
    it is not a [Sequence], so it is wrapped into a list and compared
    as a whole with each actor. *)
Theorem was_assigned_spec
    (query : HistoryWrapper -> actor_arg -> bool) (kind : string)
    (self : HistoryWrapper) :
  (query = was_assigned /\ kind = "assigned")
  \/ (query = was_subscribed /\ kind = "subscribed") ->
  query self ActorNone = existsb (is_event kind) (history self)
  /\ (forall l,
         query self (ActorList l)
         = existsb (fun x => is_event kind x && in_str_list (ev_actor x) l)
                   (history self))
  /\ (forall l, query self (ActorSet l) = false).
Proof.
  intros Hq.
  assert (Hscan : forall actor,
             query self actor
             = (0 <? List.length
                       (_find_events_by_actor self (Some kind) actor 1)))
    by (intros actor; destruct Hq as [[-> ->] | [-> ->]]; reflexivity).
  assert (Hkind : kind <> "")
    by (destruct Hq as [[_ ->] | [_ ->]]; discriminate).
  assert (Hm : forall x, kind_matches (Some kind) x = is_event kind x).
  { intros x. unfold kind_matches, is_event.
    destruct kind; [congruence | apply orb_false_r]. }
  assert (Hext : forall p q : event -> bool,
             (forall x, p x = q x) ->
             existsb p (history self) = existsb q (history self)).
  { intros p q Hpq. induction (history self) as [| x rest IH];
      [reflexivity |]. simpl. now rewrite Hpq, IH. }
  rewrite !Hscan. split; [| split].
  - rewrite find_events_by_actor_spec by lia.
    change (Z.to_nat 1) with 1. rewrite firstn_one_nonempty.
    apply Hext. intros x. unfold selects.
    change (wrap_actor ActorNone) with (@None container).
    now rewrite Hm, andb_true_r.
  - intros l. rewrite Hscan, find_events_by_actor_spec by lia.
    change (Z.to_nat 1) with 1. rewrite firstn_one_nonempty.
    apply Hext. intros x. unfold selects.
    change (wrap_actor (ActorList l)) with (Some (InList l)).
    now rewrite Hm.
  - intros l. rewrite Hscan. unfold _find_events_by_actor.
    change (wrap_actor (ActorSet l)) with (Some InBoxed).
    now rewrite find_loop_boxed.
Qed.

Lemma was_assigned_spec_witness :
  let self := wrapper_of [plain_event "assigned" "bob" 2] in
  was_assigned self (ActorList ["bob"]) = true
  /\ was_assigned self (ActorSet ["bob"]) = false.
Proof.
  split; [reflexivity |].
  exact (proj2 (proj2 (was_assigned_spec
                         was_assigned "assigned"
                         (wrapper_of [plain_event "assigned" "bob" 2])
                         (or_introl (conj eq_refl eq_refl))))
               ["bob"]).
Defined.

(** ** All comments of a user *)

Lemma mapM_getitem_body_text (l : list event) :
  (forall x, In x l -> exists s, ev_body x = Some (Some s)) ->
  mapM getitem_body l = Ok (map Some (bodies l)).
Proof.
  unfold bodies.
  induction l as [| x rest IH]; intros Htext; [reflexivity |].
  destruct (Htext x (or_introl eq_refl)) as [s Hs].
  cbn [mapM flat_map]. unfold getitem_body at 1, get_body at 1.
  rewrite Hs. cbn [bind].
  rewrite IH; [reflexivity |]. intros y Hy. apply Htext. now right.
Qed.

Lemma mapM_getitem_body_outcome (l : list event) :
  match mapM getitem_body l with
  | Ok _ => forall x, In x l -> ev_body x <> None
  | Raise e => e = KeyError /\ exists x, In x l /\ ev_body x = None
  end.
Proof.
  induction l as [| x rest IH]; simpl; [contradiction |].
  unfold getitem_body at 1.
  destruct (ev_body x) as [b |] eqn:Hb; simpl.
  - destruct (mapM getitem_body rest) as [bs | e]; simpl.
    + intros y [<- | Hy]; [congruence | now apply IH].
    + destruct IH as [-> [y [Hy Hnone]]]. split; [reflexivity |].
      exists y. split; [now right | assumption].
  - split; [reflexivity |]. exists x. split; [now left | assumption].
Qed.

Lemma contains_empty (s : string) : PyStr.contains "" s = true.
Proof. destruct s; reflexivity. Qed.

(** X13.  [get_user_comments] returns the bodies of the comment events
    the actor scan returns for the user (at most the first 999), in
    timeline order; it raises only [KeyError], and exactly when one of
    these events has no ['body'] key.  When the comments have text
    bodies, [search_user_comments] returns a sub-list of that result,
    and all of it for the empty search term. *)
Theorem get_user_comments_spec (self : HistoryWrapper)
    (username : actor_arg) :
  let scanned :=
    _find_events_by_actor self (Some "commented") username 999 in
  (returns (get_user_comments self username)
   <-> forall x, In x scanned -> ev_body x <> None)
  /\ (forall e, get_user_comments self username = Raise e -> e = KeyError)
  /\ (comments_have_text (history self) ->
      get_user_comments self username = Ok (map Some (bodies scanned))
      /\ (forall term,
             search_user_comments self username term
             = Ok (filter (matches_lowered_body term) (bodies scanned)))
      /\ search_user_comments self username "" = Ok (bodies scanned)).
Proof.
  cbv zeta. unfold get_user_comments, search_user_comments.
  set (scanned := _find_events_by_actor self (Some "commented") username 999).
  pose proof (mapM_getitem_body_outcome scanned) as Hout.
  split; [| split].
  - destruct (mapM getitem_body scanned) as [bs | e].
    + split; [intros _; exact Hout | intros _; now exists bs].
    + destruct Hout as [_ [x [Hx Hnone]]]. split.
      * intros [bs Hbs]. discriminate.
      * intros Hall. exfalso. now apply (Hall x Hx).
  - intros e He. rewrite He in Hout. now destruct Hout.
  - intros Htext.
    assert (Hscanned : forall x, In x scanned ->
                                 exists s, ev_body x = Some (Some s))
      by (apply scanned_comments_have_text; exact Htext).
    split; [now apply mapM_getitem_body_text |].
    split; [intros term; now apply search_bodies_spec |].
    rewrite (search_bodies_spec "" scanned Hscanned).
    f_equal. clear. induction (bodies scanned) as [| b bs IH];
      [reflexivity |].
    simpl. unfold matches_lowered_body at 1. now rewrite contains_empty, IH.
Qed.

Lemma get_user_comments_spec_witness :
  let self := wrapper_of [comment_event "bob" 5 "Hello";
                          comment_event "carol" 6 "hi";
                          comment_event "bob" 7 "bye"] in
  comments_have_text (history self)
  /\ get_user_comments self (ActorList ["bob"])
     = Ok [Some "Hello"; Some "bye"]
  /\ search_user_comments self (ActorList ["bob"]) "" = Ok ["Hello"; "bye"].
Proof.
  assert (Htext : comments_have_text
                    [comment_event "bob" 5 "Hello";
                     comment_event "carol" 6 "hi";
                     comment_event "bob" 7 "bye"])
    by (intros x [<- | [<- | [<- | []]]] _; eexists; reflexivity).
  split; [exact Htext |]. split; [reflexivity |].
  exact (proj2 (proj2 (proj2 (proj2
           (get_user_comments_spec
              (wrapper_of [comment_event "bob" 5 "Hello";
                           comment_event "carol" 6 "hi";
                           comment_event "bob" 7 "bye"])
              (ActorList ["bob"]))) Htext))).
Defined.

(** ** Construction from the cache *)

(** X14.  When the cache is used and validates, [__init__] ignores the
    events it is given: any two event lists give the same wrapper, the
    cache file is left as it is, and the wrapper's history is the
    stable sort of the cached history. *)
Theorem init_uses_valid_cache (events events' : list event)
    (labels : list string) (last_updated : Z) (f : cachefile) :
  validate_cache {| labels := labels; last_updated := last_updated;
                    history := [] |} (_load_cache f) = Ok true ->
  __init__ events labels last_updated true f
  = __init__ events' labels last_updated true f
  /\ snd (__init__ events labels last_updated true f) = f
  /\ exists cached,
      getitem_history (_load_cache f) = Ok cached
      /\ fst (__init__ events labels last_updated true f)
         = (h <- sorted_by_created_at cached ;;
            Ok {| labels := labels; last_updated := last_updated;
                  history := h |}).
Proof.
  intros Hvalid. unfold __init__. rewrite Hvalid.
  split; [reflexivity |]. split; [reflexivity |].
  destruct (validate_true_has_history _ _ Hvalid) as (d & h & Hd & Hh).
  exists h. rewrite Hd. simpl. rewrite Hh. split; reflexivity.
Qed.

Lemma init_uses_valid_cache_witness :
  let cached := [label_event "alice" 3 "bug"; comment_event "bob" 2 "hi"] in
  let f := Pickled (PyDict {| c_version := Some SCHEMA_VERSION;
                              c_updated_at := Some 9%Z;
                              c_history := Some cached |}) in
  validate_cache {| labels := ["bug"]; last_updated := 9%Z; history := [] |}
                 (_load_cache f) = Ok true
  /\ fst (__init__ [comment_event "carol" 1 "new"] ["bug"] 9 true f)
     = Ok {| labels := ["bug"]; last_updated := 9%Z;
             history := [comment_event "bob" 2 "hi";
                         label_event "alice" 3 "bug"] |}
  /\ __init__ [comment_event "carol" 1 "new"] ["bug"] 9 true f
     = __init__ [] ["bug"] 9 true f.
Proof.
  split; [reflexivity |]. split; [reflexivity |].
  exact (proj1 (init_uses_valid_cache
                  [comment_event "carol" 1 "new"] [] ["bug"] 9%Z
                  (Pickled
                     (PyDict {| c_version := Some SCHEMA_VERSION;
                                c_updated_at := Some 9%Z;
                                c_history :=
                                  Some [label_event "alice" 3 "bug";
                                        comment_event "bob" 2 "hi"] |}))
                  eq_refl)).
Defined.

(** X15.  After a construction that uses the cache and returns, the
    cache file holds a snapshot whose history, once sorted, is the
    history of the wrapper: either the file is untouched, or it has
    been rewritten with the supplied events in the order they were
    given, the schema version and [last_updated].  Constructing again
    from that file gives the same wrapper, whatever events are
    supplied, provided the file validates. *)
Theorem init_leaves_matching_cache (events : list event)
    (labels : list string) (last_updated : Z) (f : cachefile)
    (self : HistoryWrapper) :
  fst (__init__ events labels last_updated true f) = Ok self ->
  let f' := snd (__init__ events labels last_updated true f) in
  (exists cached,
      getitem_history (_load_cache f') = Ok cached
      /\ sorted_by_created_at cached = Ok (history self))
  /\ (f' = f
      \/ f' = Pickled (PyDict {| c_version := Some SCHEMA_VERSION;
                                 c_updated_at := Some last_updated;
                                 c_history := Some events |}))
  /\ (forall events',
         validate_cache {| labels := labels; last_updated := last_updated;
                           history := [] |} (_load_cache f') = Ok true ->
         __init__ events' labels last_updated true f' = (Ok self, f')).
Proof.
  intros Hself. cbv zeta.
  remember (snd (__init__ events labels last_updated true f)) as f' eqn:Hf'.
  unfold __init__ in Hself, Hf'.
  destruct (validate_cache _ (_load_cache f)) as [[|] | e] eqn:Hv;
    cbn [fst snd] in Hself, Hf'.
  - subst f'.
    destruct (validate_true_has_history _ _ Hv) as (d & h & Hd & Hh).
    assert (Hget : getitem_history (_load_cache f) = Ok h)
      by (rewrite Hd; simpl; now rewrite Hh).
    rewrite Hget in Hself. cbn [bind history set_history] in Hself.
    destruct (sorted_by_created_at h) as [s |] eqn:Hs; cbn [bind] in Hself;
      [| discriminate].
    injection Hself as <-. split; [now exists h |]. split; [now left |].
    intros events' _. unfold __init__. rewrite Hv, Hget.
    cbn [bind history set_history]. now rewrite Hs.
  - unfold _dump_cache in Hself, Hf'. cbn [history set_history] in Hself, Hf'.
    destruct (has_non_datetime events); cbn [fst snd] in Hself, Hf';
      [discriminate |].
    subst f'.
    destruct (sorted_by_created_at events) as [s |] eqn:Hs;
      cbn [bind] in Hself; [| discriminate].
    injection Hself as <-. split; [now exists events |].
    split; [now right |].
    intros events' Hv'. unfold __init__. rewrite Hv'.
    cbn [_load_cache getitem_history c_history bind history set_history].
    now rewrite Hs.
  - discriminate.
Qed.

Lemma init_leaves_matching_cache_witness :
  let events := [label_event "alice" 3 "bug"; comment_event "bob" 2 "hi"] in
  let self := {| labels := ["bug"]; last_updated := 9%Z;
                 history := [comment_event "bob" 2 "hi";
                             label_event "alice" 3 "bug"] |} in
  fst (__init__ events ["bug"] 9 true NoFile) = Ok self
  /\ __init__ [] ["bug"] 9 true (snd (__init__ events ["bug"] 9 true NoFile))
     = (Ok self, snd (__init__ events ["bug"] 9 true NoFile)).
Proof.
  assert (Hinit : fst (__init__ [label_event "alice" 3 "bug";
                                 comment_event "bob" 2 "hi"]
                                ["bug"] 9 true NoFile)
                  = Ok {| labels := ["bug"]; last_updated := 9%Z;
                          history := [comment_event "bob" 2 "hi";
                                      label_event "alice" 3 "bug"] |})
    by reflexivity.
  split; [exact Hinit |].
  exact (proj2 (proj2 (init_leaves_matching_cache _ _ _ _ _ Hinit))
               [] eq_refl).
Defined.





Lemma load_cache_cases (os : OnDisk.answers) (st : OnDisk.store) :
  (exists reason,
      st = OnDisk.NoDir /\ OnDisk.makedirs_error os = Some reason
      /\ OnDisk._load_cache os st
         = (OnDisk.Raised (OnDisk.OSError reason), OnDisk.NoDir))
  \/ (OnDisk.reachable os st
      /\ OnDisk._load_cache os st
         = (OnDisk.Returned (_load_cache (OnDisk.file_of st)),
            OnDisk.Dir (OnDisk.file_of st))).
Proof.
  unfold OnDisk.reachable.
  destruct st as [| f]; simpl.
  - destruct (OnDisk.makedirs_error os) as [reason |] eqn:Hm.
    + left. now exists reason.
    + right. now split.
  - right. split; [discriminate | reflexivity].
Qed.



(** With a directory name, a directory that is there or can be made and
    a write that succeeds, the constructor on the file system is the
    constructor given above on the cache file. *)
Lemma on_disk_init_agrees (events : list event) (labels : list string)
    (last_updated : Z) (usecache : bool) (d : string)
    (os : OnDisk.answers) (st : OnDisk.store) :
  OnDisk.reachable os st ->
  OnDisk.write_error os = None ->
  let f := OnDisk.file_of st in
  OnDisk.__init__ events labels last_updated usecache (Some d) os st
  = (OnDisk.lift (fst (__init__ events labels last_updated usecache f)),
     if usecache
     then OnDisk.Dir (snd (__init__ events labels last_updated usecache f))
     else st).
Proof.
  intros Hreach Hwrite f. unfold OnDisk.__init__, __init__.
  destruct usecache; [| reflexivity].
  destruct (load_cache_cases os st) as [(reason & Hst & Hm & _) | [_ Hload]];
    [rewrite (Hreach Hst) in Hm; discriminate |].
  rewrite Hload. fold f.
  destruct (validate_cache _ (_load_cache f)) as [[|] | e]; try reflexivity.
  unfold OnDisk._dump_cache, _dump_cache. cbn [history set_history].
  destruct (has_non_datetime events); [reflexivity |].
  now rewrite Hwrite.
Qed.



(** ** Merging in batches *)

Lemma not_after_antisym (x y : event) :
  not_after x y -> not_after y x -> ev_created_at x = ev_created_at y.
Proof.
  unfold not_after.
  destruct (ev_created_at x) as [a | a | a],
    (ev_created_at y) as [b | b | b]; simpl; try discriminate;
    intros [= Hyx] [= Hxy].
  - apply Z.ltb_ge in Hyx, Hxy. f_equal. lia.
  - apply Z.ltb_ge in Hyx, Hxy. f_equal. lia.
  - f_equal. unfold String.ltb in *.
    destruct (String.compare a b) eqn:Hc; try discriminate.
    + now apply String.compare_eq_iff.
    + rewrite String.compare_antisym, Hc in Hyx. discriminate.
Qed.

Lemma created_at_is_self (x : event) :
  created_at_is (ev_created_at x) x = true.
Proof. unfold created_at_is. now apply pytime_eqb_eq. Qed.

(** A timeline is determined by being non-decreasing and by the order
    of the events of each ['created_at'] value. *)
Lemma stable_sort_unique (l1 : list event) :
  forall l2,
    nondecreasing l1 -> nondecreasing l2 ->
    (forall k, filter (created_at_is k) l1 = filter (created_at_is k) l2) ->
    l1 = l2.
Proof.
  induction l1 as [| x t1 IH]; intros [| y t2] Hs1 Hs2 Hties.
  - reflexivity.
  - specialize (Hties (ev_created_at y)). simpl in Hties.
    rewrite created_at_is_self in Hties. discriminate.
  - specialize (Hties (ev_created_at x)). simpl in Hties.
    rewrite created_at_is_self in Hties. discriminate.
  - inversion Hs1 as [| ? ? Hs1' Hx]; subst.
    inversion Hs2 as [| ? ? Hs2' Hy]; subst.
    rewrite Forall_forall in Hx, Hy.
    assert (Hkey : ev_created_at x = ev_created_at y).
    { assert (Hxin : In x (y :: t2)).
      { pose proof (Hties (ev_created_at x)) as H. simpl in H.
        rewrite created_at_is_self in H.
        assert (Hin : In x (if created_at_is (ev_created_at x) y
                            then y :: filter (created_at_is (ev_created_at x))
                                             t2
                            else filter (created_at_is (ev_created_at x)) t2))
          by (rewrite <- H; now left).
        destruct (created_at_is (ev_created_at x) y).
        - destruct Hin as [<- | Hin]; [now left |].
          right. now apply filter_In in Hin.
        - right. now apply filter_In in Hin. }
      assert (Hyin : In y (x :: t1)).
      { pose proof (Hties (ev_created_at y)) as H. simpl in H.
        rewrite created_at_is_self in H.
        assert (Hin : In y (if created_at_is (ev_created_at y) x
                            then x :: filter (created_at_is (ev_created_at y))
                                             t1
                            else filter (created_at_is (ev_created_at y)) t1))
          by (rewrite H; now left).
        destruct (created_at_is (ev_created_at y) x).
        - destruct Hin as [<- | Hin]; [now left |].
          right. now apply filter_In in Hin.
        - right. now apply filter_In in Hin. }
      destruct Hxin as [<- | Hxin]; [reflexivity |].
      destruct Hyin as [<- | Hyin]; [reflexivity |].
      apply not_after_antisym; [now apply Hx | now apply Hy]. }
    assert (Hhead : x = y /\ forall k, filter (created_at_is k) t1
                                       = filter (created_at_is k) t2).
    { pose proof (Hties (ev_created_at x)) as H. simpl in H.
      rewrite created_at_is_self in H. rewrite Hkey in H at 2.
      rewrite created_at_is_self in H. injection H as Hxy Hrest.
      split; [exact Hxy |]. subst y. intros k.
      specialize (Hties k). simpl in Hties.
      destruct (created_at_is k x) eqn:Hk; [| exact Hties].
      now injection Hties. }
    destruct Hhead as [<- Hrest]. f_equal. now apply IH.
Qed.

Section MergeBatches.

Variable strip_time_safely : string -> Z.

Lemma run_calls_fields (calls : list merge_call) :
  forall self final,
    run_calls strip_time_safely self calls = Ok final ->
    labels final = labels self /\ last_updated final = last_updated self.
Proof.
  induction calls as [| call rest IH]; simpl; intros self final Hrun.
  - injection Hrun as <-. now split.
  - rewrite apply_call_spec in Hrun.
    destruct (sorted_by_created_at _) as [h |]; simpl in Hrun;
      [| discriminate].
    now apply IH in Hrun.
Qed.

Lemma run_calls_same_insertions (self f1 f2 : HistoryWrapper)
    (calls1 calls2 : list merge_call) :
  nondecreasing (history self) ->
  run_calls strip_time_safely self calls1 = Ok f1 ->
  run_calls strip_time_safely self calls2 = Ok f2 ->
  merged_events strip_time_safely calls1
  = merged_events strip_time_safely calls2 ->
  f1 = f2.
Proof.
  intros Hs H1 H2 Hsame.
  destruct (run_calls_fields _ _ _ H1) as [Hl1 Hu1].
  destruct (run_calls_fields _ _ _ H2) as [Hl2 Hu2].
  assert (Hinv : forall calls final,
             run_calls strip_time_safely self calls = Ok final ->
             nondecreasing (history final)
             /\ ties_in_insertion_order
                  (history self ++ merged_events strip_time_safely calls)
                  (history final)).
  { intros calls final Hrun.
    destruct (run_calls_invariant strip_time_safely calls self final
                (history self) Hrun Hs) as (Hn & Ht & _);
      [intros k; reflexivity | apply Permutation_refl | now split]. }
  destruct (Hinv _ _ H1) as [Hn1 Ht1]. destruct (Hinv _ _ H2) as [Hn2 Ht2].
  assert (Hhist : history f1 = history f2).
  { apply stable_sort_unique; try assumption.
    intros k. now rewrite (Ht1 k), (Ht2 k), Hsame. }
  destruct f1, f2. simpl in *. congruence.
Qed.

(** X17.  On a non-decreasing timeline (as [__init__] leaves it) the
    merged timeline depends only on the events inserted and their
    order, not on how they are split into calls: two sequences of merge
    calls that insert the same events give the same wrapper; merging an
    empty list of commits or reviews changes nothing; and merging
    commits in two batches is the same as merging them at once. *)
Theorem merges_depend_on_insertions_only (self : HistoryWrapper) :
  nondecreasing (history self) ->
  (forall calls1 calls2 f1 f2,
      run_calls strip_time_safely self calls1 = Ok f1 ->
      run_calls strip_time_safely self calls2 = Ok f2 ->
      merged_events strip_time_safely calls1
      = merged_events strip_time_safely calls2 ->
      f1 = f2)
  /\ (forall final, merge_commits self [] = Ok final -> final = self)
  /\ (forall final,
         fst (merge_reviews strip_time_safely self []) = Ok final ->
         final = self)
  /\ (forall a b middle f1 f2,
         merge_commits self (a ++ b) = Ok f1 ->
         merge_commits self a = Ok middle ->
         merge_commits middle b = Ok f2 ->
         f1 = f2).
Proof.
  intros Hs. split; [| split; [| split]].
  - intros calls1 calls2 f1 f2. now apply run_calls_same_insertions.
  - intros final Hm.
    apply (run_calls_same_insertions self final self [MergeCommits []] []);
      [exact Hs | cbn [run_calls apply_call]; now rewrite Hm
      | reflexivity | reflexivity].
  - intros final Hm.
    apply (run_calls_same_insertions self final self [MergeReviews []] []);
      [exact Hs | cbn [run_calls apply_call]; now rewrite Hm
      | reflexivity | reflexivity].
  - intros a b middle f1 f2 H1 Ha Hb.
    apply (run_calls_same_insertions self f1 f2 [MergeCommits (a ++ b)]
             [MergeCommits a; MergeCommits b]);
      [exact Hs
      | cbn [run_calls apply_call]; now rewrite H1
      | cbn [run_calls apply_call]; rewrite Ha; cbn [bind]; now rewrite Hb |].
    unfold merged_events. simpl. now rewrite !app_nil_r, map_app.
Qed.

End MergeBatches.

Lemma merges_depend_on_insertions_only_witness :
  let self := wrapper_of [label_event "alice" 3 "bug";
                          comment_event "bob" 5 "shipit"] in
  nondecreasing (history self)
  /\ forall final, merge_commits self [] = Ok final -> final = self.
Proof.
  assert (Hs : nondecreasing
                 (history (wrapper_of [label_event "alice" 3 "bug";
                                       comment_event "bob" 5 "shipit"])))
    by (repeat constructor).
  split; [exact Hs |].
  exact (proj1 (proj2 (merges_depend_on_insertions_only
                         (fun _ : string => 6%Z) _ Hs))).
Defined.

(** ** Boilerplate comments in detail *)

Lemma boilerplate_loop_items (dates content : bool) (comments : list event) :
  forall boilerplates,
    existsb lacks_name comments = false ->
    boilerplate_loop dates content comments boilerplates
    = Ok (boilerplates
          ++ map (boilerplate_item dates content)
                 (filter has_marker comments)).
Proof.
  induction comments as [| x rest IH]; intros acc Hnames.
  - simpl. now rewrite app_nil_r.
  - cbn [existsb] in Hnames. apply orb_false_iff in Hnames.
    destruct Hnames as [Hx Hrest].
    cbn [boilerplate_loop filter].
    assert (Hmark : has_marker x
                    = match get_body x with
                      | Some body =>
                          PyStr.truthy body && PyStr.contains marker body
                      | None => false
                      end) by reflexivity.
    rewrite Hmark. clear Hmark.
    assert (Hitem : forall body,
               get_body x = Some body ->
               boilerplate_item dates content x
               = if dates || content
                 then BpList
                        (if dates then Some (ev_created_at x) else None)
                        (nth 2 (marker_tokens body) "")
                        (if content then Some body else None)
                 else BpName (nth 2 (marker_tokens body) "")).
    { intros body Hb. unfold boilerplate_item, boilerplate_name.
      now rewrite Hb. }
    unfold lacks_name in Hx.
    destruct (get_body x) as [body |] eqn:Hb; [| now apply IH].
    specialize (Hitem body eq_refl).
    destruct (PyStr.truthy body) eqn:Ht; cbn [negb andb]; [| now apply IH].
    destruct (PyStr.contains marker body) eqn:Hm; [| now apply IH].
    cbn [andb] in Hx. apply Nat.ltb_ge in Hx.
    unfold marker_tokens, marker_line in *.
    destruct (marker_lines body) as [| line lines] eqn:Hl;
      [simpl in Hx; lia |].
    cbn [hd] in *. unfold getitem at 1. cbn [nth_error bind].
    destruct (getitem_long (PyStr.split line) 2 Hx) as [bp Hbp].
    rewrite Hbp. cbn [bind].
    assert (Hnth : nth 2 (PyStr.split line) "" = bp).
    { unfold getitem in Hbp.
      destruct (nth_error (PyStr.split line) 2) as [a |] eqn:Hn;
        [| discriminate].
      injection Hbp as <-. now apply nth_error_nth. }
    rewrite Hnth in Hitem. rewrite IH by assumption.
    cbn [map]. rewrite Hitem. now rewrite <- app_assoc.
Qed.

Lemma bot_comment_selects (bots : list string) (x : event) :
  selects (Some "commented") (wrap_actor (ActorList bots)) x
  = bot_comment bots x.
Proof.
  unfold selects, bot_comment, kind_matches, is_event. simpl.
  now rewrite orb_false_r.
Qed.

Lemma scanned_bot_comments (bots : list string) (self : HistoryWrapper) :
  _find_events_by_actor self (Some "commented") (ActorList bots) 999
  = firstn 999 (filter (bot_comment bots) (history self)).
Proof.
  rewrite find_events_by_actor_spec by lia.
  change (Z.to_nat 999) with 999. f_equal.
  apply filter_ext. intros x. apply bot_comment_selects.
Qed.

(** X18.  [get_boilerplate_comments] looks at the first 999 comments of
    the bots.  When each of them that holds the marker also holds a
    name (a third token on its first marker line), the call returns one
    item for each scanned comment with a non-empty body holding the
    marker, in timeline order: the bare name when neither [dates] nor
    [content] is set, else the list of the date (if [dates]), the name
    and the whole body (if [content]). *)
Theorem get_boilerplate_comments_items (bots : list string)
    (self : HistoryWrapper) (dates content : bool) :
  let scanned := firstn 999 (filter (bot_comment bots) (history self)) in
  existsb lacks_name scanned = false ->
  get_boilerplate_comments bots self dates content
  = Ok (map (boilerplate_item dates content) (filter has_marker scanned)).
Proof.
  intros scanned Hnames. unfold get_boilerplate_comments.
  rewrite scanned_bot_comments.
  now rewrite boilerplate_loop_items by exact Hnames.
Qed.

Lemma get_boilerplate_comments_items_witness :
  let bots := ["ansibot"] in
  let self :=
    wrapper_of [comment_event "ansibot" 3 "<!--- boilerplate: needs_info --->";
                comment_event "bob" 4 "boilerplate: x y";
                comment_event "ansibot" 5 "thanks"] in
  existsb lacks_name
          (firstn 999 (filter (bot_comment bots) (history self))) = false
  /\ get_boilerplate_comments bots self false false = Ok [BpName "needs_info"].
Proof.
  split; [reflexivity |].
  exact (get_boilerplate_comments_items
           ["ansibot"]
           (wrapper_of
              [comment_event "ansibot" 3 "<!--- boilerplate: needs_info --->";
               comment_event "bob" 4 "boilerplate: x y";
               comment_event "ansibot" 5 "thanks"])
           false false eq_refl).
Defined.

Lemma has_marker_body (x : event) :
  has_marker x = true -> exists body, get_body x = Some body.
Proof.
  unfold has_marker. destruct (get_body x) as [body |]; [| discriminate].
  intros _. now exists body.
Qed.

Lemma content_of_items (l : list event) :
  (forall x, In x l -> has_marker x = true) ->
  mapM getitem_last (map (boilerplate_item false true) l)
  = Ok (map VStr (bodies l)).
Proof.
  unfold bodies.
  induction l as [| x rest IH]; intros Hall; [reflexivity |].
  cbn [map mapM flat_map].
  destruct (has_marker_body x (Hall x (or_introl eq_refl))) as [body Hb].
  unfold boilerplate_item at 1. cbn [orb].
  rewrite Hb. unfold getitem_last at 1. cbn [item_elements app rev bind].
  rewrite IH by (intros y Hy; apply Hall; now right).
  reflexivity.
Qed.

(** X19.  Under the same condition [get_boilerplate_comments_content]
    returns the whole bodies of the scanned bot comments that hold the
    marker, in timeline order, and nothing else; when one of the
    scanned comments holds the marker without a name it raises
    [IndexError]. *)
Theorem boilerplate_content_is_bodies (bots : list string)
    (self : HistoryWrapper) :
  let scanned := firstn 999 (filter (bot_comment bots) (history self)) in
  (existsb lacks_name scanned = false ->
   get_boilerplate_comments_content bots self
   = Ok (map VStr (bodies (filter has_marker scanned))))
  /\ (existsb lacks_name scanned = true ->
      get_boilerplate_comments_content bots self = Raise IndexError).
Proof.
  intros scanned. unfold get_boilerplate_comments_content.
  split; intros Hnames.
  - unfold get_boilerplate_comments. rewrite scanned_bot_comments.
    rewrite boilerplate_loop_items by exact Hnames.
    cbn [bind app]. apply content_of_items.
    intros x Hx. now apply filter_In in Hx.
  - unfold get_boilerplate_comments. rewrite scanned_bot_comments.
    pose proof (boilerplate_loop_outcome false true scanned []) as Hout.
    fold scanned.
    destruct (boilerplate_loop false true scanned []) as [r | e].
    + congruence.
    + destruct Hout as [-> _]. reflexivity.
Qed.

Lemma boilerplate_content_is_bodies_witness :
  let bots := ["ansibot"] in
  let self :=
    wrapper_of [comment_event "ansibot" 3 "<!--- boilerplate: needs_info --->";
                comment_event "bob" 4 "boilerplate: x y";
                comment_event "ansibot" 5 "thanks"] in
  existsb lacks_name
          (firstn 999 (filter (bot_comment bots) (history self))) = false
  /\ get_boilerplate_comments_content bots self
     = Ok [VStr "<!--- boilerplate: needs_info --->"].
Proof.
  split; [reflexivity |].
  exact (proj1 (boilerplate_content_is_bodies
                  ["ansibot"]
                  (wrapper_of
                     [comment_event "ansibot" 3
                                    "<!--- boilerplate: needs_info --->";
                      comment_event "bob" 4 "boilerplate: x y";
                      comment_event "ansibot" 5 "thanks"]))
               eq_refl).
Defined.

Lemma last_date_loop_items (boiler : string) (l : list event) :
  forall last_date,
    last_date_loop boiler (map (boilerplate_item true true) l) last_date
    = Ok (match find (fun x => String.eqb (boilerplate_name x) boiler)
                     (rev l) with
          | Some x => Some (VTime (ev_created_at x))
          | None => last_date
          end).
Proof.
  induction l as [| x rest IH]; intros acc; [reflexivity |].
  cbn [map last_date_loop rev]. rewrite find_append. cbn [find].
  unfold boilerplate_item at 1. cbn [orb].
  unfold getitem_at at 1. cbn [item_elements app]. unfold getitem at 1.
  cbn [nth_error bind equals_str].
  destruct (String.eqb (boilerplate_name x) boiler) eqn:He.
  - change (getitem_at (boilerplate_item true true x) 0)
      with (Ok (VTime (ev_created_at x))).
    cbn [bind]. rewrite IH.
    now destruct (find _ (rev rest)).
  - rewrite IH. now destruct (find _ (rev rest)).
Qed.

Lemma find_filter {A : Type} (p q : A -> bool) (l : list A) :
  find p (filter q l) = find (fun x => q x && p x) l.
Proof.
  induction l as [| a l IH]; simpl; [reflexivity |].
  destruct (q a); simpl; [| exact IH].
  now destruct (p a).
Qed.

Lemma strongly_sorted_filter {A : Type} (R : A -> A -> Prop)
    (p : A -> bool) (l : list A) :
  StronglySorted R l -> StronglySorted R (filter p l).
Proof.
  induction 1 as [| a l Hl IH Hall]; simpl; [constructor |].
  destruct (p a); [| exact IH].
  constructor; [exact IH |].
  rewrite Forall_forall in *. intros y Hy. apply filter_In in Hy.
  now apply Hall.
Qed.

Lemma strongly_sorted_firstn {A : Type} (R : A -> A -> Prop)
    (n : nat) (l : list A) :
  StronglySorted R l -> StronglySorted R (firstn n l).
Proof.
  intros Hs. revert n.
  induction Hs as [| a l Hl IH Hall]; intros [| n]; simpl;
    try constructor.
  - apply IH.
  - rewrite Forall_forall in *. intros y Hy. apply Hall.
    now apply in_firstn in Hy.
Qed.

(** X20.  Under the same condition [last_date_for_boilerplate] returns
    the date of the last scanned bot comment that holds the marker with
    the name [boiler], and [None] when no scanned comment does; on a
    non-decreasing timeline no scanned comment with that name is dated
    after it. *)
Theorem last_date_for_boilerplate_latest (bots : list string)
    (self : HistoryWrapper) (boiler : string) :
  let scanned := firstn 999 (filter (bot_comment bots) (history self)) in
  existsb lacks_name scanned = false ->
  last_date_for_boilerplate bots self boiler
  = Ok (match last_posted boiler scanned with
        | Some e => Some (VTime (ev_created_at e))
        | None => None
        end)
  /\ (nondecreasing (history self) ->
      forall e, last_posted boiler scanned = Some e ->
      forall x, In x scanned -> has_marker x = true ->
                boilerplate_name x = boiler ->
                time_lt (ev_created_at e) (ev_created_at x) = Ok false).
Proof.
  intros scanned Hnames. split.
  - unfold last_date_for_boilerplate, get_boilerplate_comments.
    rewrite scanned_bot_comments. fold scanned.
    rewrite boilerplate_loop_items by exact Hnames.
    cbn [bind app]. rewrite last_date_loop_items.
    unfold last_posted. rewrite <- filter_rev, find_filter. reflexivity.
  - intros Hs e He x Hx Hm Hn.
    assert (Hsorted : nondecreasing scanned).
    { unfold scanned, nondecreasing.
      now apply strongly_sorted_firstn, strongly_sorted_filter. }
    apply (last_match_is_latest _ scanned e Hsorted He x Hx).
    rewrite Hm. cbn [andb]. now apply String.eqb_eq.
Qed.

Lemma last_date_for_boilerplate_latest_witness :
  let bots := ["ansibot"] in
  let self :=
    wrapper_of [comment_event "ansibot" 3 "<!--- boilerplate: needs_info --->";
                comment_event "ansibot" 4 "<!--- boilerplate: notify --->";
                comment_event "ansibot" 6 "<!--- boilerplate: needs_info --->";
                comment_event "bob" 7 "<!--- boilerplate: needs_info --->"] in
  existsb lacks_name
          (firstn 999 (filter (bot_comment bots) (history self))) = false
  /\ last_date_for_boilerplate bots self "needs_info"
     = Ok (Some (VTime (Aware 6))).
Proof.
  split; [reflexivity |].
  exact (proj1 (last_date_for_boilerplate_latest
                  ["ansibot"]
                  (wrapper_of
                     [comment_event "ansibot" 3
                                    "<!--- boilerplate: needs_info --->";
                      comment_event "ansibot" 4
                                    "<!--- boilerplate: notify --->";
                      comment_event "ansibot" 6
                                    "<!--- boilerplate: needs_info --->";
                      comment_event "bob" 7
                                    "<!--- boilerplate: needs_info --->"])
                  "needs_info" eq_refl)).
Defined.

(** ** Component commands *)

Lemma lines_loop_existsb (command_key : string) (lines : list string) :
  lines_loop command_key lines
  = existsb (fun line => startswith (PyStr.strip line) command_key) lines.
Proof.
  induction lines as [| line rest IH]; simpl; [reflexivity |].
  now destruct (startswith (PyStr.strip line) command_key).
Qed.

Lemma component_loop_filter (command_key : string) (events : list event) :
  forall commands,
    component_loop command_key events commands
    = commands ++ filter (has_command_line command_key) events.
Proof.
  induction events as [| x rest IH]; intros acc; simpl.
  - now rewrite app_nil_r.
  - unfold has_command_line at 1.
    destruct (get_body x) as [body |]; [| apply IH].
    destruct (PyStr.truthy body); cbn [andb]; [| apply IH].
    rewrite lines_loop_existsb.
    destruct (existsb _ (PyStr.split_on newline body)); [| apply IH].
    rewrite IH. now rewrite <- app_assoc.
Qed.

Lemma filter_twice {A : Type} (p q : A -> bool) (l : list A) :
  filter p (filter q l) = filter (fun x => q x && p x) l.
Proof.
  induction l as [| a l IH]; simpl; [reflexivity |].
  destruct (q a); simpl; [| exact IH].
  destruct (p a); [now rewrite IH | exact IH].
Qed.

Lemma scanned_comments (self : HistoryWrapper) :
  _find_events_by_actor self (Some "commented") ActorNone 999
  = firstn 999 (filter (is_event "commented") (history self)).
Proof.
  rewrite find_events_by_actor_spec by lia.
  change (Z.to_nat 999) with 999. f_equal.
  apply filter_ext. intros x.
  unfold selects, kind_matches, is_event. simpl.
  now rewrite orb_false_r, andb_true_r.
Qed.

(** X21.  [get_component_commands] returns, in timeline order, the
    comments among the first 999 comments of the timeline that were not
    written by a bot and have a non-empty body one of whose lines, once
    stripped, starts with the key.  The limit of 999 is applied before
    the bots' comments are set aside, so every returned event is one of
    the first 999 comments of the timeline, of whatever author. *)
Theorem get_component_commands_spec (bots : list string)
    (self : HistoryWrapper) (command_key : string) :
  let scanned := firstn 999 (filter (is_event "commented") (history self)) in
  get_component_commands bots self command_key
  = filter (fun x => negb (in_str_list (ev_actor x) bots)
                     && has_command_line command_key x) scanned
  /\ forall x, In x (get_component_commands bots self command_key) ->
               In x (history self) /\ ev_event x = "commented"
               /\ ~ In (ev_actor x) bots
               /\ exists body line,
                    get_body x = Some body
                    /\ In line (PyStr.split_on newline body)
                    /\ startswith (PyStr.strip line) command_key = true.
Proof.
  intros scanned.
  assert (Heq : get_component_commands bots self command_key
                = filter (fun x => negb (in_str_list (ev_actor x) bots)
                                   && has_command_line command_key x)
                         scanned).
  { unfold get_component_commands. rewrite scanned_comments.
    rewrite component_loop_filter. cbn [app]. apply filter_twice. }
  split; [exact Heq |].
  intros x Hx. rewrite Heq in Hx. apply filter_In in Hx.
  destruct Hx as [Hscan Hx]. apply andb_true_iff in Hx.
  destruct Hx as [Hbot Hline].
  apply in_firstn, filter_In in Hscan. destruct Hscan as [Hin Hkind].
  split; [exact Hin |]. split; [now apply is_event_true |]. split.
  - intros Hb. apply in_str_list_In in Hb. rewrite Hb in Hbot. discriminate.
  - unfold has_command_line in Hline.
    destruct (get_body x) as [body |]; [| discriminate].
    apply andb_true_iff in Hline. destruct Hline as [_ Hline].
    apply existsb_exists in Hline. destruct Hline as [line [Hl Hs]].
    now exists body, line.
Qed.

(** ** Commands *)

Lemma body_text_get_body (x : event) (body : string) :
  body_text x = Ok body -> get_body x = Some body.
Proof.
  unfold body_text, getitem_body, get_body.
  destruct (ev_body x) as [[s |] |]; simpl; congruence.
Qed.

Lemma comment_commands_loop_sound (timestamps : bool) (ev : event)
    (command_keys : list string) :
  forall commands r,
    comment_commands_loop timestamps ev command_keys commands = Ok r ->
    r = commands
        ++ map (emit timestamps ev)
               (filter (fun y => says y ev) command_keys).
Proof.
  induction command_keys as [| y rest IH]; intros acc r H.
  - simpl in H. injection H as <-. simpl. now rewrite app_nil_r.
  - cbn [comment_commands_loop] in H.
    destruct (body_text ev) as [body | e] eqn:Hb; cbn [bind] in H;
      [| discriminate].
    pose proof (body_text_get_body _ _ Hb) as Hg.
    assert (Hsays : says y ev
                    = negb (startswith body "_From @")
                      && in_str_list y (PyStr.split body)
                      && negb (in_str_list ("!" ++ y) (PyStr.split body)))
      by (unfold says; now rewrite Hg).
    cbn [filter]. rewrite Hsays.
    destruct (startswith body "_From @"); cbn [negb andb];
      [now apply IH |].
    destruct (in_str_list y (PyStr.split body)
              && negb (in_str_list ("!" ++ y) (PyStr.split body))).
    + apply IH in H. rewrite H. cbn [map]. now rewrite <- app_assoc.
    + now apply IH.
Qed.

Lemma comment_commands_loop_returns (timestamps : bool) (ev : event)
    (command_keys : list string) :
  (exists s, ev_body ev = Some (Some s)) ->
  forall commands,
    exists r,
      comment_commands_loop timestamps ev command_keys commands = Ok r.
Proof.
  intros [s Hs].
  induction command_keys as [| y rest IH]; intros acc.
  - now exists acc.
  - cbn [comment_commands_loop]. unfold body_text, getitem_body.
    rewrite Hs. cbn [bind].
    destruct (startswith s "_From @"); [apply IH |].
    destruct (in_str_list y (PyStr.split s)
              && negb (in_str_list ("!" ++ y) (PyStr.split s)));
      apply IH.
Qed.

Section CommandsLoop.

Variable bots : list string.
Variable command_keys : list string.
Variables timestamps uselabels : bool.

Lemma commands_loop_sound (events : list event) :
  forall commands r,
    commands_loop bots command_keys timestamps uselabels events commands
    = Ok r ->
    r = commands
        ++ flat_map (fun x => map (emit timestamps x)
                                  (event_phrases bots command_keys
                                                 uselabels x))
                    events.
Proof.
  induction events as [| x rest IH]; intros acc r H.
  - simpl in H. injection H as <-. simpl. now rewrite app_nil_r.
  - cbn [commands_loop] in H. cbn [flat_map]. unfold event_phrases at 1.
    destruct (in_str_list (ev_actor x) bots); [now apply IH |].
    destruct (is_event "commented" x).
    { destruct (comment_commands_loop timestamps x command_keys acc)
        as [c | e] eqn:Hc; cbn [bind] in H; [| discriminate].
      apply comment_commands_loop_sound in Hc. subst c.
      apply IH in H. rewrite H. now rewrite <- app_assoc. }
    unfold getitem_label in H.
    destruct (is_event "labeled" x), (is_event "unlabeled" x), uselabels;
      cbn [andb] in H;
      try (now apply IH);
      destruct (ev_label x) as [l |]; cbn [bind] in H;
      try discriminate; try (now apply IH);
      destruct (in_str_list l command_keys);
      try (now apply IH);
      apply IH in H; rewrite H; cbn [map app];
      now rewrite <- app_assoc.
Qed.

Lemma commands_loop_returns (events : list event) :
  (forall x, In x events -> is_event "commented" x = true ->
             exists s, ev_body x = Some (Some s)) ->
  (forall x, In x events ->
             is_event "labeled" x = true \/ is_event "unlabeled" x = true ->
             ev_label x <> None) ->
  forall commands,
    exists r,
      commands_loop bots command_keys timestamps uselabels events commands
      = Ok r.
Proof.
  induction events as [| x rest IH]; intros Hbody Hlabel acc.
  - now exists acc.
  - assert (IH' : forall commands,
               exists r,
                 commands_loop bots command_keys timestamps uselabels
                               rest commands = Ok r).
    { apply IH; intros y Hy; [apply Hbody | apply Hlabel]; now right. }
    specialize (Hbody x (or_introl eq_refl)).
    specialize (Hlabel x (or_introl eq_refl)).
    cbn [commands_loop].
    destruct (in_str_list (ev_actor x) bots); [apply IH' |].
    destruct (is_event "commented" x).
    { destruct (comment_commands_loop_returns timestamps x command_keys
                  (Hbody eq_refl) acc) as [c Hc].
      rewrite Hc. cbn [bind]. apply IH'. }
    unfold getitem_label.
    destruct (is_event "labeled" x), (is_event "unlabeled" x), uselabels;
      cbn [andb];
      try apply IH';
      (destruct (ev_label x) as [l |];
       [cbn [bind]; destruct (in_str_list l command_keys); apply IH'
       | exfalso; apply Hlabel; [tauto | reflexivity]]).
Qed.

Lemma event_phrases_yields (x : event) (y : string) :
  In y (event_phrases bots command_keys uselabels x)
  <-> in_str_list (ev_actor x) bots = false
      /\ yields command_keys uselabels y x.
Proof.
  unfold event_phrases, yields.
  destruct (in_str_list (ev_actor x) bots);
    [split; [contradiction | intros [H _]; discriminate] |].
  destruct (is_event "commented" x) eqn:Hc.
  - apply is_event_true in Hc. split.
    + intros Hy. apply filter_In in Hy. split; [reflexivity |]. left. tauto.
    + intros [_ [(_ & Hk & Hs) | [(_ & He & _) | (_ & He & _)]]];
        [apply filter_In; tauto | congruence | congruence].
  - assert (Hnc : ev_event x <> "commented").
    { intros He. apply is_event_true in He. congruence. }
    destruct uselabels.
    2: { split; [contradiction |].
         intros [_ [(He & _) | [(Hu & _) | (Hu & _)]]];
           [contradiction | discriminate | discriminate]. }
    destruct (ev_label x) as [l |].
    2: { split; [contradiction |].
         intros [_ [(He & _) | [(_ & _ & _ & Hl) | (_ & _ & l & _ & Hl & _)]]];
           [contradiction | discriminate | discriminate]. }
    destruct (in_str_list l command_keys) eqn:Hk.
    2: { split; [contradiction |].
         intros [_ [(He & _)
                   | [(_ & _ & Hin & Hl) | (_ & _ & l' & Hin & Hl & _)]]];
           [contradiction | |];
           injection Hl as <-; apply in_str_list_In in Hin; congruence. }
    apply in_str_list_In in Hk.
    destruct (is_event "labeled" x) eqn:Hlab.
    + apply is_event_true in Hlab. split.
      * intros [<- | []]. split; [reflexivity |]. right. left. tauto.
      * intros [_ [(He & _)
                  | [(_ & _ & _ & Hl) | (_ & He & _)]]];
          [contradiction | injection Hl as <-; now left | congruence].
    + assert (Hnl : ev_event x <> "labeled").
      { intros He. apply is_event_true in He. congruence. }
      destruct (is_event "unlabeled" x) eqn:Hun.
      * apply is_event_true in Hun. split.
        -- intros [<- | []]. split; [reflexivity |]. right. right.
           repeat split; try assumption. now exists l.
        -- intros [_ [(He & _)
                     | [(_ & He & _) | (_ & _ & l' & _ & Hl & ->)]]];
             [contradiction | contradiction |].
           injection Hl as <-. now left.
      * assert (Hnu : ev_event x <> "unlabeled").
        { intros He. apply is_event_true in He. congruence. }
        split; [contradiction |].
        intros [_ [(He & _) | [(_ & He & _) | (_ & He & _)]]];
          contradiction.
Qed.

End CommandsLoop.

Lemma considered_in_history (self : HistoryWrapper) (username : actor_arg)
    (x : event) :
  In x (considered self username) ->
  In x (history self)
  /\ (ev_event x = "commented" \/ ev_event x = "labeled"
      \/ ev_event x = "unlabeled").
Proof.
  unfold considered. intros Hx.
  assert (Hkind : forall n, kind_matches (Some n) x = true ->
                            PyStr.truthy n = true -> ev_event x = n).
  { intros n Hk Ht. unfold kind_matches in Hk. rewrite Ht in Hk.
    cbn [negb] in Hk. rewrite orb_false_r in Hk.
    now apply String.eqb_eq. }
  apply in_app_or in Hx. destruct Hx as [Hx | Hx];
    [| apply in_app_or in Hx; destruct Hx as [Hx | Hx]];
    apply scanned_events in Hx; try lia; destruct Hx as [Hin Hk];
    (split; [exact Hin |]); apply Hkind in Hk; try reflexivity; tauto.
Qed.

(** X22.  Whenever [get_commands] returns, the phrases come in the
    order of the events' dates: the list is the concatenation, over the
    collected events put in non-decreasing order of ['created_at']
    (events of one date keeping the order comments, then labelings,
    then unlabelings), of the phrases each event contributes, in the
    order of [command_keys]; with [timestamps] each phrase is paired
    with the date of its event. *)
Theorem get_commands_chronological (bots : list string)
    (self : HistoryWrapper) (username : actor_arg)
    (command_keys : list string) (timestamps uselabels : bool)
    (commands : list command) :
  get_commands bots self username command_keys timestamps uselabels
  = Ok commands ->
  exists events,
    Permutation (considered self username) events
    /\ nondecreasing events
    /\ ties_in_insertion_order (considered self username) events
    /\ commands
       = flat_map (fun x => map (emit timestamps x)
                                (event_phrases bots command_keys
                                               uselabels x))
                  events.
Proof.
  unfold get_commands. fold (considered self username). intros H.
  destruct (sorted_by_created_at (considered self username))
    as [events | e] eqn:Hs; cbn [bind] in H; [| discriminate].
  exists events. split; [now apply sorted_perm |].
  split; [now apply (sorted_nondecreasing _ _ Hs) |].
  split; [now apply sorted_stable |].
  apply commands_loop_sound in H. exact H.
Qed.

(** X23.  Whenever [get_commands] returns, an element is in the result
    exactly when some collected event that was not made by a bot yields
    it: a comment yields each key that is one of its
    whitespace-delimited tokens while the key preceded by ['!'] is not,
    unless the body starts with ['_From @']; with [uselabels], a
    labeling with a key yields the key and an unlabeling with a key
    yields the key preceded by ['!']. *)
Theorem get_commands_membership (bots : list string)
    (self : HistoryWrapper) (username : actor_arg)
    (command_keys : list string) (timestamps uselabels : bool)
    (commands : list command) :
  get_commands bots self username command_keys timestamps uselabels
  = Ok commands ->
  forall c,
    In c commands
    <-> exists x y,
          In x (considered self username)
          /\ in_str_list (ev_actor x) bots = false
          /\ yields command_keys uselabels y x
          /\ c = emit timestamps x y.
Proof.
  unfold get_commands. fold (considered self username). intros H c.
  destruct (sorted_by_created_at (considered self username))
    as [events | e] eqn:Hs; cbn [bind] in H; [| discriminate].
  apply commands_loop_sound in H. cbn [app] in H. subst commands.
  pose proof (sorted_perm _ _ Hs) as Hperm.
  rewrite in_flat_map. split.
  - intros [x [Hx Hc]]. apply in_map_iff in Hc.
    destruct Hc as [y [<- Hy]]. apply event_phrases_yields in Hy.
    exists x, y. split; [| tauto].
    apply (Permutation_in x (Permutation_sym Hperm) Hx).
  - intros (x & y & Hx & Hbot & Hy & ->).
    exists x. split; [apply (Permutation_in x Hperm Hx) |].
    apply in_map. apply event_phrases_yields. tauto.
Qed.

(** X24.  [get_commands] returns on a well-formed timeline: when every
    date is a time-zone-aware datetime, every comment has a text body
    and every label event records its label, the call raises
    nothing. *)
Theorem get_commands_returns (bots : list string)
    (self : HistoryWrapper) (username : actor_arg)
    (command_keys : list string) (timestamps uselabels : bool) :
  all_aware (history self) ->
  comments_have_text (history self) ->
  label_events_recorded (history self) ->
  exists commands,
    get_commands bots self username command_keys timestamps uselabels
    = Ok commands.
Proof.
  intros Haware Htext Hlabels.
  unfold get_commands. fold (considered self username).
  assert (Hc : all_aware (considered self username)).
  { unfold all_aware in *. rewrite Forall_forall in *.
    intros x Hx. apply Haware. now apply considered_in_history in Hx. }
  destruct (sorted_aware _ Hc) as [events Hs]. rewrite Hs. cbn [bind].
  pose proof (sorted_perm _ _ Hs) as Hperm.
  assert (Hin : forall x, In x events -> In x (history self)).
  { intros x Hx.
    apply (Permutation_in x (Permutation_sym Hperm)) in Hx.
    now apply considered_in_history in Hx. }
  apply commands_loop_returns.
  - intros x Hx Hk. apply Htext; [now apply Hin | now apply is_event_true].
  - intros x Hx Hk. apply Hlabels; [now apply Hin |].
    destruct Hk as [Hk | Hk]; apply is_event_true in Hk; tauto.
Qed.

Lemma get_commands_chronological_witness :
  let self := wrapper_of [comment_event "bob" 5 "shipit now";
                          label_event "alice" 3 "bug"] in
  get_commands ["ansibot"] self ActorNone ["shipit"; "bug"] false true
  = Ok [Cmd "bug"; Cmd "shipit"]
  /\ exists events,
       Permutation (considered self ActorNone) events
       /\ nondecreasing events
       /\ ties_in_insertion_order (considered self ActorNone) events
       /\ [Cmd "bug"; Cmd "shipit"]
          = flat_map (fun x => map (emit false x)
                                   (event_phrases ["ansibot"]
                                                  ["shipit"; "bug"] true x))
                     events.
Proof.
  split; [reflexivity |].
  exact (get_commands_chronological
           ["ansibot"]
           (wrapper_of [comment_event "bob" 5 "shipit now";
                        label_event "alice" 3 "bug"])
           ActorNone ["shipit"; "bug"] false true
           [Cmd "bug"; Cmd "shipit"] eq_refl).
Defined.

Lemma get_commands_membership_witness :
  let self := wrapper_of [label_event "alice" 3 "bug";
                          comment_event "bob" 5 "shipit !bug";
                          comment_event "ansibot" 6 "shipit"] in
  get_commands ["ansibot"] self ActorNone ["shipit"; "bug"] true true
  = Ok [CmdAt (Aware 3) "bug"; CmdAt (Aware 5) "shipit"]
  /\ forall c,
       In c [CmdAt (Aware 3) "bug"; CmdAt (Aware 5) "shipit"]
       <-> exists x y,
             In x (considered self ActorNone)
             /\ in_str_list (ev_actor x) ["ansibot"] = false
             /\ yields ["shipit"; "bug"] true y x
             /\ c = emit true x y.
Proof.
  split; [reflexivity |].
  exact (get_commands_membership
           ["ansibot"]
           (wrapper_of [label_event "alice" 3 "bug";
                        comment_event "bob" 5 "shipit !bug";
                        comment_event "ansibot" 6 "shipit"])
           ActorNone ["shipit"; "bug"] true true
           [CmdAt (Aware 3) "bug"; CmdAt (Aware 5) "shipit"] eq_refl).
Defined.

Lemma get_commands_returns_witness :
  let self := wrapper_of [label_event "alice" 3 "bug";
                          comment_event "bob" 5 "shipit"] in
  all_aware (history self)
  /\ comments_have_text (history self)
  /\ label_events_recorded (history self)
  /\ exists commands,
       get_commands ["ansibot"] self ActorNone ["shipit"] false true
       = Ok commands.
Proof.
  assert (Ha : all_aware [label_event "alice" 3 "bug";
                          comment_event "bob" 5 "shipit"])
    by (repeat constructor).
  assert (Ht : comments_have_text [label_event "alice" 3 "bug";
                                   comment_event "bob" 5 "shipit"]).
  { intros x [<- | [<- | []]] Hk; [discriminate |]. eexists. reflexivity. }
  assert (Hl : label_events_recorded [label_event "alice" 3 "bug";
                                      comment_event "bob" 5 "shipit"]).
  { intros x [<- | [<- | []]] [Hk | Hk]; discriminate. }
  split; [exact Ha |]. split; [exact Ht |]. split; [exact Hl |].
  exact (get_commands_returns
           ["ansibot"]
           (wrapper_of [label_event "alice" 3 "bug";
                        comment_event "bob" 5 "shipit"])
           ActorNone ["shipit"] false true Ha Ht Hl).
Defined.
